(** * Cardiac health platform: a shallow embedding and its properties

    The development embeds, function by function, the parts of the
    platform that classify a resting heart rate, keep the alert table,
    manage the Fitbit OAuth session, synchronise Fitbit data into the
    store and compute the read-side summaries.

    Conventions of the embedding:
    - Python [float] values (heart rate, HRV, [time.time()]) are exact
      rationals [Q]; rounding is not modelled and no statement below
      depends on it.
    - A naive [datetime] is its number of microseconds since
      [datetime.min] (an integer, as in CPython), a [date] its number of
      days since [date.min]; both are unbounded, the range check of
      datetime arithmetic is not modelled.
    - A SQL table is the list of its rows in insertion order; queries are
      list comprehensions, [order_by(desc(...))] is a stable sort.
    - Dictionaries are [gmap]s.
    - A Python exception is a value [Raise e] of the [result] type. *)

From Stdlib Require Import ZArith QArith String List Bool Sorted FinFun Lia.
From stdpp Require Import base option list gmap strings countable.
Import ListNotations.

Local Open Scope string_scope.
Local Open Scope list_scope.

(** ** Results of fallible code *)

Inductive Exn : Type :=
| ZeroDivisionError
| KeyError (key : string)
| TypeError
| IntegrityError
| ValidationError
| OverflowError.

Inductive result (A : Type) : Type :=
| Ok (a : A)
| Raise (e : Exn).
Arguments Ok {A} a.
Arguments Raise {A} e.

Definition bind {A B : Type} (r : result A) (k : A -> result B) : result B :=
  match r with
  | Ok a => k a
  | Raise e => Raise e
  end.

Notation "'do' x <- r ; k" := (bind r (fun x => k))
  (at level 10, x name, r at level 100, k at level 200).

(** ** Numbers *)

(** [q1 <= q2] and [q1 < q2] on floats. *)
Definition Qleb (a b : Q) : bool := Qle_bool a b.
Definition Qltb (a b : Q) : bool := negb (Qle_bool b a).

(** Truth value of an optional number: [None] and zero are false. *)
Definition truthy_Q (v : option Q) : bool :=
  match v with
  | Some q => negb (Qeq_bool q 0)
  | None => false
  end.

Definition truthy_str (v : option string) : bool :=
  match v with
  | Some s => negb (String.eqb s "")
  | None => false
  end.

(** [k in d]: the key is there. *)
Definition present {A : Type} (o : option A) : bool :=
  match o with Some _ => true | None => false end.

(** [a / b] on numbers: raises on a zero divisor. *)
Definition py_truediv (a b : Q) : result Q :=
  if Qeq_bool b 0 then Raise ZeroDivisionError else Ok (a / b)%Q.

Definition Qsum (l : list Q) : Q := fold_left Qplus l 0%Q.

(** ** Classification of the resting heart rate (app.py, show_dashboard) *)

Module Classifier.

(** The severity tiers the specification names. *)
Inductive Tier : Type := normal | warning | critical | unclassified.

Definition tier_label (t : Tier) : string :=
  match t with
  | normal => "normal"
  | warning => "warning"
  | critical => "critical"
  | unclassified => "unclassified"
  end.

(** [hr_status = "normal" if latest_hr and 60 <= latest_hr <= 100 else "warning"] *)
Definition hr_status (latest_hr : option Q) : string :=
  match latest_hr with
  | Some v =>
      if truthy_Q (Some v) && (Qleb 60 v && Qleb v 100) then "normal" else "warning"
  | None => "warning"
  end.

(** settings.py, [BIOMARKER_THRESHOLDS]: tier name to list of intervals,
    in the order the dictionary literal lists them. *)
Definition ranges_table : Type := list (string * list (Q * Q)).

Definition BIOMARKER_THRESHOLDS : list (string * ranges_table) :=
  [ ("resting_heart_rate",
      [ ("normal", [(60, 100)]);
        ("warning", [(50, 60); (100, 120)]);
        ("critical", [(0, 50); (120, 300)]) ]);
    ("hrv_rmssd",
      [ ("normal", [(30, 100)]);
        ("low", [(0, 30)]);
        ("high", [(100, 300)]) ]);
    ("heart_rate_recovery",
      [ ("good", [(18, 50)]);
        ("poor", [(0, 18)]) ]) ]%Q.

Fixpoint assoc {A : Type} (k : string) (l : list (string * A)) : option A :=
  match l with
  | [] => None
  | (k', a) :: l' => if String.eqb k k' then Some a else assoc k l'
  end.

Definition in_interval (v : Q) (i : Q * Q) : bool :=
  Qleb (fst i) v && Qleb v (snd i).

Definition in_tier (v : Q) (t : Tier) (tbl : ranges_table) : bool :=
  match assoc (tier_label t) tbl with
  | Some ivs => existsb (in_interval v) ivs
  | None => false
  end.

(** The classifier in the words of the specification: tiers in descending
    severity, first tier whose interval set contains the value, otherwise
    [unclassified]. The repository has no such function; it is stated here
    only to be compared with [hr_status]. *)
Definition classify_spec (tbl : ranges_table) (v : Q) : Tier :=
  if in_tier v critical tbl then critical
  else if in_tier v warning tbl then warning
  else if in_tier v normal tbl then normal
  else unclassified.

Definition resting_hr_ranges : ranges_table :=
  match assoc "resting_heart_rate" BIOMARKER_THRESHOLDS with
  | Some t => t
  | None => []
  end.

End Classifier.

(** ** Dates and times *)

Definition DAY_US : Z := 86400000000.

(** [datetime - timedelta(days=n)] *)
Definition minus_days (t : Z) (n : Z) : Z := (t - n * DAY_US)%Z.

(** [datetime.date()], also the day printed by [strftime('%Y-%m-%d')]. *)
Definition date_of (t : Z) : Z := (t / DAY_US)%Z.

(** [datetime.strptime(date, '%Y-%m-%d')]: midnight of the day. *)
Definition strptime (d : Z) : Z := (d * DAY_US)%Z.

(** The range of [datetime], instants being counted in microseconds from
    1970-01-01 00:00: [datetime.min] is 0001-01-01 00:00, day -719162, and
    [datetime.max] is 9999-12-31 23:59:59.999999, the last instant of day
    2932896. *)
Definition DATETIME_MIN : Z := (-719162 * DAY_US)%Z.
Definition DATETIME_MAX : Z := (2932897 * DAY_US - 1)%Z.

(** [timedelta(days=n)]: more than 999999999 days either way is an
    OverflowError. *)
Definition timedelta_days (n : Z) : result Z :=
  if (Z.abs n <=? 999999999)%Z then Ok (n * DAY_US)%Z else Raise OverflowError.

(** [datetime - timedelta]: an OverflowError when the difference is not a
    [datetime]. *)
Definition datetime_sub (t delta : Z) : result Z :=
  let r := (t - delta)%Z in
  if (DATETIME_MIN <=? r)%Z && (r <=? DATETIME_MAX)%Z then Ok r
  else Raise OverflowError.

(** [datetime - timedelta(days=n)] with both range checks; where it
    succeeds it is [minus_days]. *)
Definition checked_minus_days (t n : Z) : result Z :=
  do delta <- timedelta_days n; datetime_sub t delta.

(** ** Data model (data_models/database_models.py) *)

Inductive PatientStatus : Type := ACTIVE | INACTIVE | ARCHIVED | HIGH_RISK.

Inductive CardiacBiomarkerType : Type :=
| RESTING_HR | HRV_RMSSD | HRV_SDNN | HR_RECOVERY
| ACTIVITY_LEVEL | SLEEP_DURATION | WEIGHT_TREND | SYMPTOM_REPORT.

Inductive AlertType : Type :=
| HIGH_HEART_RATE | LOW_HRV | SYMPTOM_DETERIORATION | MISSING_DATA | WEIGHT_INCREASE.

#[global] Instance PatientStatus_eq_dec : EqDecision PatientStatus.
Proof. solve_decision. Defined.

#[global] Instance AlertType_eq_dec : EqDecision AlertType.
Proof. solve_decision. Defined.

#[global] Instance CardiacBiomarkerType_eq_dec : EqDecision CardiacBiomarkerType.
Proof. solve_decision. Defined.

Definition PatientStatus_to_nat (s : PatientStatus) : nat :=
  match s with ACTIVE => 0 | INACTIVE => 1 | ARCHIVED => 2 | HIGH_RISK => 3 end.

Definition PatientStatus_of_nat (n : nat) : option PatientStatus :=
  match n with
  | 0 => Some ACTIVE | 1 => Some INACTIVE | 2 => Some ARCHIVED | 3 => Some HIGH_RISK
  | _ => None
  end.

#[global] Program Instance PatientStatus_countable : Countable PatientStatus :=
  inj_countable PatientStatus_to_nat PatientStatus_of_nat _.
Next Obligation. by intros []. Qed.

(** Rows carry the columns the embedded functions read or write; the
    uuid4 primary key is kept where a function looks a row up by it. *)

Module Patient.
Record t : Type := mk {
    id : string;
    created_at : Z;
    first_name : string;
    last_name : string;
    status : PatientStatus;
    risk_level : option string
  }.
End Patient.

Module ClinicianPatient.
Record t : Type := mk {
    clinician_id : string;
    patient_id : string;
    is_primary : bool
  }.
End ClinicianPatient.

Module WearableData.
Record t : Type := mk {
    timestamp : Z;
    patient_id : string;
    heart_rate : option Q;
    hrv_rmssd : option Q;
    steps : option Z;
    calories : option Q;
    source : string
  }.
End WearableData.

Module SymptomReport.
Record t : Type := mk {
    report_date : Z;
    patient_id : string;
    shortness_of_breath : Z
  }.
End SymptomReport.

Module CalculatedBiomarker.
Record t : Type := mk {
    timestamp : Z;
    patient_id : string;
    biomarker_type : CardiacBiomarkerType;
    value : Q;
    unit : string
  }.
End CalculatedBiomarker.

Module ClinicalNote.
Record t : Type := mk {
    created_at : Z;
    patient_id : string;
    clinician_id : string
  }.
End ClinicalNote.

Module PatientAlert.
Record t : Type := mk {
    id : string;
    created_at : Z;
    patient_id : string;
    alert_type : AlertType;
    severity : string;
    title : string;
    description : string;
    is_resolved : bool;
    resolved_at : option Z;
    resolved_by : option string;
    resolution_notes : option string;
    trigger_value : option Q;
    normal_range : option string
  }.
End PatientAlert.

(** The database behind a [Session]. *)
Record Database : Type := mkDatabase {
  patients : list Patient.t;
  clinician_patients : list ClinicianPatient.t;
  wearable_data : list WearableData.t;
  symptom_reports : list SymptomReport.t;
  biomarkers : list CalculatedBiomarker.t;
  clinical_notes : list ClinicalNote.t;
  alerts : list PatientAlert.t
}.

Definition empty_db : Database := mkDatabase [] [] [] [] [] [] [].

Definition set_alerts (al : list PatientAlert.t) (db : Database) : Database :=
  mkDatabase (patients db) (clinician_patients db) (wearable_data db)
             (symptom_reports db) (biomarkers db) (clinical_notes db) al.

Definition set_wearable_data (w : list WearableData.t) (db : Database) : Database :=
  mkDatabase (patients db) (clinician_patients db) w
             (symptom_reports db) (biomarkers db) (clinical_notes db) (alerts db).

Definition set_biomarkers (b : list CalculatedBiomarker.t) (db : Database) : Database :=
  mkDatabase (patients db) (clinician_patients db) (wearable_data db)
             (symptom_reports db) b (clinical_notes db) (alerts db).

Definition set_patients (ps : list Patient.t) (db : Database) : Database :=
  mkDatabase ps (clinician_patients db) (wearable_data db)
             (symptom_reports db) (biomarkers db) (clinical_notes db) (alerts db).

Definition set_clinician_patients (cps : list ClinicianPatient.t) (db : Database)
  : Database :=
  mkDatabase (patients db) cps (wearable_data db)
             (symptom_reports db) (biomarkers db) (clinical_notes db) (alerts db).

Definition CardiacBiomarkerType_to_nat (t : CardiacBiomarkerType) : nat :=
  match t with
  | RESTING_HR => 0 | HRV_RMSSD => 1 | HRV_SDNN => 2 | HR_RECOVERY => 3
  | ACTIVITY_LEVEL => 4 | SLEEP_DURATION => 5 | WEIGHT_TREND => 6
  | SYMPTOM_REPORT => 7
  end.

Definition CardiacBiomarkerType_of_nat (n : nat) : option CardiacBiomarkerType :=
  match n with
  | 0 => Some RESTING_HR | 1 => Some HRV_RMSSD | 2 => Some HRV_SDNN
  | 3 => Some HR_RECOVERY | 4 => Some ACTIVITY_LEVEL | 5 => Some SLEEP_DURATION
  | 6 => Some WEIGHT_TREND | 7 => Some SYMPTOM_REPORT
  | _ => None
  end.

#[global] Program Instance CardiacBiomarkerType_countable
  : Countable CardiacBiomarkerType :=
  inj_countable CardiacBiomarkerType_to_nat CardiacBiomarkerType_of_nat _.
Next Obligation. by intros []. Qed.

(** [order_by(desc(key))]: stable insertion sort, largest key first; rows
    with equal keys stay in the order of the table. *)
Fixpoint insert_desc {A : Type} (key : A -> Z) (x : A) (l : list A) : list A :=
  match l with
  | [] => [x]
  | y :: l' => if (key y <=? key x)%Z then x :: y :: l' else y :: insert_desc key x l'
  end.

Definition order_by_desc {A : Type} (key : A -> Z) (l : list A) : list A :=
  foldr (insert_desc key) [] l.

(** [.first()] and [.limit(n)] *)
Definition first {A : Type} (l : list A) : option A := head l.
Definition limit {A : Type} (n : nat) (l : list A) : list A := take n l.

(** ** Aggregation helpers *)

(** [len(l)] as a number. *)
Definition len {A : Type} (l : list A) : Q := inject_Z (Z.of_nat (length l)).

(** [sum(values) / len(values) if values else None] *)
Definition mean_if_any (values : list Q) : result (option Q) :=
  match values with
  | [] => Ok None
  | _ :: _ => do m <- py_truediv (Qsum values) (len values); Ok (Some m)
  end.

(** [[f(d) for d in data if f(d)]] for an optional numeric column. *)
Definition truthy_values {A : Type} (f : A -> option Q) (data : list A) : list Q :=
  omap (fun d => if truthy_Q (f d) then f d else None) data.

(** ** DatabaseService (database/database_service.py) *)

Module DatabaseService.

(** [get_patient_wearable_data] *)
Definition get_patient_wearable_data (utcnow : Z) (patient_id : string) (days : Z)
    (db : Database) : list WearableData.t :=
  let start_date := minus_days utcnow days in
  order_by_desc WearableData.timestamp
    (List.filter (fun w =>
       String.eqb (WearableData.patient_id w) patient_id
       && (start_date <=? WearableData.timestamp w)%Z) (wearable_data db)).

Record HealthSummary : Type := mkHealthSummary {
  latest_heart_rate : option Q;
  latest_symptoms : option SymptomReport.t;
  recent_activity : Q;
  data_points_count : nat
}.

(** [get_patient_health_summary] *)
Definition get_patient_health_summary (utcnow : Z) (patient_id : string)
    (db : Database) : result HealthSummary :=
  let latest_hr :=
    first (limit 1 (order_by_desc CalculatedBiomarker.timestamp
      (List.filter (fun b =>
         String.eqb (CalculatedBiomarker.patient_id b) patient_id
         && bool_decide (CalculatedBiomarker.biomarker_type b = RESTING_HR))
         (biomarkers db)))) in
  let latest_symptoms :=
    first (limit 1 (order_by_desc SymptomReport.report_date
      (List.filter (fun s => String.eqb (SymptomReport.patient_id s) patient_id)
         (symptom_reports db)))) in
  let wearable := get_patient_wearable_data utcnow patient_id 7 db in
  let total_steps :=
    fold_left Z.add (map (fun d => default 0%Z (WearableData.steps d)) wearable) 0%Z in
  do avg_steps <-
    py_truediv (inject_Z total_steps)
               (inject_Z (Z.max (Z.of_nat (length wearable)) 1));
  Ok (mkHealthSummary
        (option_map CalculatedBiomarker.value latest_hr)
        latest_symptoms avg_steps (length wearable)).

(** app.py, show_dashboard: what the "Avg Steps" and "Resting HR" tiles
    print, [None] standing for the text "No data". *)
Definition shown_avg_steps (s : HealthSummary) : option Q :=
  if truthy_Q (Some (recent_activity s)) then Some (recent_activity s) else None.

Definition shown_resting_hr (s : HealthSummary) : option Q :=
  if truthy_Q (latest_heart_rate s) then latest_heart_rate s else None.

(** [add_wearable_data] and [add_biomarker]: one INSERT each. *)
Definition add_wearable_data (row : WearableData.t) (db : Database) : Database :=
  set_wearable_data (wearable_data db ++ [row]) db.

Definition add_biomarker (row : CalculatedBiomarker.t) (db : Database) : Database :=
  set_biomarkers (biomarkers db ++ [row]) db.

(** [get_patient]: [session.get(Patient, patient_id)] *)
Definition get_patient (patient_id : string) (db : Database) : option Patient.t :=
  List.find (fun p => String.eqb (Patient.id p) patient_id) (patients db).

(** [get_all_patients] *)
Definition get_all_patients (db : Database) : list Patient.t :=
  order_by_desc Patient.created_at (patients db).

(** [get_patient_biomarkers]; every member of the enumeration is true in
    [if biomarker_type:], so the type is filtered on whenever one is
    given. *)
Definition get_patient_biomarkers (utcnow : Z) (patient_id : string)
    (biomarker_type : option CardiacBiomarkerType) (days : Z) (db : Database)
  : list CalculatedBiomarker.t :=
  let start_date := minus_days utcnow days in
  let statement :=
    List.filter (fun b =>
      String.eqb (CalculatedBiomarker.patient_id b) patient_id
      && (start_date <=? CalculatedBiomarker.timestamp b)%Z) (biomarkers db) in
  let statement :=
    match biomarker_type with
    | Some t =>
        List.filter (fun b => bool_decide (CalculatedBiomarker.biomarker_type b = t))
                    statement
    | None => statement
    end in
  order_by_desc CalculatedBiomarker.timestamp statement.

End DatabaseService.

(** ** ClinicalService (database/clinical_service.py) *)

Module ClinicalService.

(** [select(Patient).join(ClinicianPatient).where(clinician_id == c)],
    with [Patient.status == ACTIVE] added unless [include_inactive],
    newest patient first. The join yields a patient once per assignment
    row that links it to the clinician. *)
Definition get_patients_by_clinician
    (clinician_id : string) (include_inactive : bool) (db : Database)
  : list Patient.t :=
  let joined :=
    flat_map (fun p =>
      map (fun _ => p)
        (List.filter (fun cp =>
           String.eqb (ClinicianPatient.patient_id cp) (Patient.id p)
           && String.eqb (ClinicianPatient.clinician_id cp) clinician_id)
           (clinician_patients db)))
      (patients db) in
  let statement :=
    if negb include_inactive
    then List.filter (fun p => bool_decide (Patient.status p = ACTIVE)) joined
    else joined in
  order_by_desc Patient.created_at statement.

(** The dictionary handed to [create_alert]: the keys the repository
    passes when it builds an alert (demo_data.py); [id], [created_at] and
    the resolution columns take the defaults of the model class. *)
Record AlertData : Type := mkAlertData {
  ad_patient_id : string;
  ad_alert_type : AlertType;
  ad_severity : option string;
  ad_title : string;
  ad_description : string;
  ad_trigger_value : option Q;
  ad_normal_range : option string
}.

(** The [PatientAlert] built from the unpacked dictionary; [uuid] is the
    uuid4 drawn for [id] and [utcnow] the clock read for [created_at]. *)
Definition new_alert (utcnow : Z) (uuid : string) (alert_data : AlertData)
  : PatientAlert.t :=
  PatientAlert.mk uuid utcnow
    (ad_patient_id alert_data) (ad_alert_type alert_data)
    (default "medium" (ad_severity alert_data))
    (ad_title alert_data) (ad_description alert_data)
    false None None None
    (ad_trigger_value alert_data) (ad_normal_range alert_data).

(** [session.get(PatientAlert, alert_id)] *)
Definition get_alert (alert_id : string) (db : Database) : option PatientAlert.t :=
  List.find (fun a => String.eqb (PatientAlert.id a) alert_id) (alerts db).

(** [session.add(alert); session.commit()]: the primary key is unique. *)
Definition add_alert (alert : PatientAlert.t) (db : Database) : result Database :=
  match get_alert (PatientAlert.id alert) db with
  | Some _ => Raise IntegrityError
  | None => Ok (set_alerts (alerts db ++ [alert]) db)
  end.

Definition create_alert (utcnow : Z) (uuid : string) (alert_data : AlertData)
    (db : Database) : result (PatientAlert.t * Database) :=
  let alert := new_alert utcnow uuid alert_data in
  do db' <- add_alert alert db;
  Ok (alert, db').

(** [if clinician_id:] a missing or empty id selects every alert. *)
Definition get_active_alerts (clinician_id : option string) (db : Database)
  : list PatientAlert.t :=
  let statement :=
    if truthy_str clinician_id then
      let c := default "" clinician_id in
      flat_map (fun a =>
        flat_map (fun p =>
          map (fun _ => a)
            (List.filter (fun cp =>
               String.eqb (ClinicianPatient.patient_id cp) (Patient.id p)
               && String.eqb (ClinicianPatient.clinician_id cp) c
               && negb (PatientAlert.is_resolved a))
               (clinician_patients db)))
          (List.filter (fun p =>
             String.eqb (Patient.id p) (PatientAlert.patient_id a))
             (patients db)))
        (alerts db)
    else
      List.filter (fun a => negb (PatientAlert.is_resolved a)) (alerts db) in
  order_by_desc PatientAlert.created_at statement.

(** The four assignments of [resolve_alert]. *)
Definition mark_resolved (utcnow : Z) (resolved_by : string) (notes : option string)
    (a : PatientAlert.t) : PatientAlert.t :=
  PatientAlert.mk (PatientAlert.id a) (PatientAlert.created_at a)
    (PatientAlert.patient_id a) (PatientAlert.alert_type a)
    (PatientAlert.severity a) (PatientAlert.title a) (PatientAlert.description a)
    true (Some utcnow) (Some resolved_by) notes
    (PatientAlert.trigger_value a) (PatientAlert.normal_range a).

(** [session.commit()] of a changed row: UPDATE ... WHERE id = alert_id. *)
Definition update_alert (alert_id : string) (a' : PatientAlert.t) (db : Database)
  : Database :=
  set_alerts
    (map (fun a => if String.eqb (PatientAlert.id a) alert_id then a' else a)
         (alerts db))
    db.

(** Returns the alert, or [None] when [session.get] finds no row. *)
Definition resolve_alert (utcnow : Z) (alert_id : string) (resolved_by : string)
    (notes : option string) (db : Database) : option PatientAlert.t * Database :=
  match get_alert alert_id db with
  | Some alert =>
      let alert' := mark_resolved utcnow resolved_by notes alert in
      (Some alert', update_alert alert_id alert' db)
  | None => (None, db)
  end.

(** [d[k] = d.get(k, 0) + 1] *)
Definition count_up `{Countable K} (k : K) (d : gmap K nat) : gmap K nat :=
  <[k := default 0 (d !! k) + 1]> d.

Record DashboardStats : Type := mkDashboardStats {
  total_patients : nat;
  status_counts : gmap PatientStatus nat;
  risk_counts : gmap string nat;
  active_alerts : nat;
  recent_data_points : nat;
  high_risk_patients : nat
}.

Definition get_clinician_dashboard_stats (utcnow : Z) (clinician_id : string)
    (db : Database) : DashboardStats :=
  let patients := get_patients_by_clinician clinician_id false db in
  let status_counts :=
    fold_left (fun d p => count_up (Patient.status p) d) patients ∅ in
  let risk_counts :=
    fold_left (fun d p =>
      if truthy_str (Patient.risk_level p)
      then count_up (default "" (Patient.risk_level p)) d
      else d) patients ∅ in
  let active_alerts := get_active_alerts (Some clinician_id) db in
  let week_ago := minus_days utcnow 7 in
  let recent_activity :=
    fold_left (fun n p =>
      n + length (List.filter (fun w =>
            String.eqb (WearableData.patient_id w) (Patient.id p)
            && (week_ago <=? WearableData.timestamp w)%Z)
            (wearable_data db)))
      patients 0 in
  mkDashboardStats (length patients) status_counts risk_counts
    (length active_alerts) recent_activity (default 0 (risk_counts !! "high")).

(** [get_patient_notes] *)
Definition get_patient_notes (patient_id : string) (n : nat) (db : Database)
  : list ClinicalNote.t :=
  limit n
    (order_by_desc ClinicalNote.created_at
       (List.filter (fun c => String.eqb (ClinicalNote.patient_id c) patient_id)
          (clinical_notes db))).

Record ReportSummary : Type := mkReportSummary {
  monitoring_period_days : Z;
  data_points : nat;
  n_symptom_reports : nat;
  average_heart_rate : option Q;
  average_hrv : option Q;
  n_clinical_notes : nat
}.

Record PatientReport : Type := mkPatientReport {
  report_patient : Patient.t;
  summary : ReportSummary;
  recent_notes : list ClinicalNote.t;
  report_alerts : list PatientAlert.t
}.

(** [generate_patient_report]; the empty dictionary returned for an
    unknown patient is [None]. *)
Definition generate_patient_report (utcnow : Z) (patient_id : string) (days : Z)
    (db : Database) : result (option PatientReport) :=
  match List.find (fun p => String.eqb (Patient.id p) patient_id) (patients db) with
  | None => Ok None
  | Some patient =>
      let start_date := minus_days utcnow days in
      let wearable :=
        List.filter (fun w =>
          String.eqb (WearableData.patient_id w) patient_id
          && (start_date <=? WearableData.timestamp w)%Z) (wearable_data db) in
      let symptoms :=
        List.filter (fun s =>
          String.eqb (SymptomReport.patient_id s) patient_id
          && (date_of start_date <=? SymptomReport.report_date s)%Z)
          (symptom_reports db) in
      let notes := get_patient_notes patient_id 10 db in
      do averages <-
        match wearable with
        | [] => Ok (None, None)
        | _ :: _ =>
            let hr_values := truthy_values WearableData.heart_rate wearable in
            let hrv_values := truthy_values WearableData.hrv_rmssd wearable in
            do avg_heart_rate <- mean_if_any hr_values;
            do avg_hrv <- mean_if_any hrv_values;
            Ok (avg_heart_rate, avg_hrv)
        end;
      Ok (Some (mkPatientReport patient
        (mkReportSummary days (length wearable) (length symptoms)
           (fst averages) (snd averages) (length notes))
        notes
        (List.filter (fun a =>
           String.eqb (PatientAlert.patient_id a) patient_id
           && (start_date <=? PatientAlert.created_at a)%Z) (alerts db))))
  end.

(** [generate_patient_report] with the range check of its first
    computation: once the patient is found,
    [start_date = datetime.utcnow() - timedelta(days=days)] raises
    OverflowError when the start of the window is not a [datetime], before
    anything is queried; with a start in range the report is the one
    above. An unknown patient gets the empty dictionary whatever [days]. *)
Definition generate_patient_report_checked (utcnow : Z) (patient_id : string)
    (days : Z) (db : Database) : result (option PatientReport) :=
  match List.find (fun p => String.eqb (Patient.id p) patient_id) (patients db) with
  | None => Ok None
  | Some _ =>
      do _ <- checked_minus_days utcnow days;
      generate_patient_report utcnow patient_id days db
  end.

(** [assign_patient_to_clinician]: one INSERT, nothing is looked up. *)
Definition assign_patient_to_clinician (patient_id clinician_id : string)
    (is_primary : bool) (db : Database) : ClinicianPatient.t * Database :=
  let assignment := ClinicianPatient.mk clinician_id patient_id is_primary in
  (assignment, set_clinician_patients (clinician_patients db ++ [assignment]) db).

(** The assignments of [update_patient_status] to the columns of the
    model ([updated_at] is a column nothing here reads). *)
Definition with_status (status : PatientStatus) (risk_level : option string)
    (p : Patient.t) : Patient.t :=
  Patient.mk (Patient.id p) (Patient.created_at p)
    (Patient.first_name p) (Patient.last_name p) status
    (if truthy_str risk_level then risk_level else Patient.risk_level p).

(** [update_patient_status]: returns the patient, or [None] when
    [session.get] finds no row. *)
Definition update_patient_status (patient_id : string) (status : PatientStatus)
    (risk_level : option string) (db : Database) : option Patient.t * Database :=
  match List.find (fun p => String.eqb (Patient.id p) patient_id) (patients db) with
  | Some patient =>
      let patient' := with_status status risk_level patient in
      (Some patient',
       set_patients
         (map (fun p => if String.eqb (Patient.id p) patient_id then patient' else p)
              (patients db))
         db)
  | None => (None, db)
  end.

End ClinicalService.


(** ** The Streamlit session, the user interface and the outside world *)

(** A JSON scalar of an OAuth token bundle. *)
Inductive JVal : Type :=
| JStr (s : string)
| JNum (q : Q).

(** Truth value of [d.get(k)]. *)
Definition truthy_J (v : option JVal) : bool :=
  match v with
  | Some (JStr s) => negb (String.eqb s "")
  | Some (JNum q) => negb (Qeq_bool q 0)
  | None => false
  end.

(** A token bundle is the dictionary decoded from the provider's JSON. *)
Abbreviation Token := (gmap string JVal).

(** Truth value of an optional dictionary: [None] and [{}] are false. *)
Definition truthy_token (t : option Token) : bool :=
  match t with
  | Some m => negb (bool_decide (m = ∅))
  | None => false
  end.

(** The keys of [st.session_state] the Fitbit code uses. *)
Record SessionState : Type := mkSessionState {
  fitbit_token : option Token;
  token_expires_at : option Q;
  fitbit_connected : option bool
}.

(** What [st.error] and [st.success] print, one constructor per call site. *)
Inductive UiMsg : Type :=
| NotAuthenticated            (* "Not authenticated with Fitbit" *)
| AuthenticationExpired       (* "Authentication expired. Please reconnect your Fitbit account." *)
| RateLimitExceeded           (* "Rate limit exceeded. Please try again later." *)
| ApiError (status : Z)       (* "API Error {status}: {text}" *)
| NetworkError                (* "Network error: {e}" *)
| TokenRefreshFailed (status : Z)  (* "Token refresh failed: {status}" *)
| ErrorRefreshingToken        (* "Error refreshing token: {e}" *)
| ErrorParsingHeartRate       (* "Error parsing heart rate data: {e}" *)
| SyncSuccess (saved_count : nat)  (* "Successfully synced {saved_count} data points from Fitbit!" *)
| SyncError (e : Exn).        (* "Error syncing Fitbit data: {e}" *)

(** Everything a call can change. *)
Record World : Type := mkWorld {
  session : SessionState;
  db : Database;
  ui : list UiMsg
}.

Definition st_message (m : UiMsg) (w : World) : World :=
  mkWorld (session w) (db w) (ui w ++ [m]).

Definition set_session (s : SessionState) (w : World) : World :=
  mkWorld s (db w) (ui w).

Definition set_db (d : Database) (w : World) : World :=
  mkWorld (session w) d (ui w).

(** Stateful, fallible code: the world after a raise is the world at the
    point of the raise (committed rows stay committed). *)
Definition M (A : Type) : Type := World -> result A * World.

Definition ret {A : Type} (a : A) : M A := fun w => (Ok a, w).

Definition raise {A : Type} (e : Exn) : M A := fun w => (Raise e, w).

Definition bindM {A B : Type} (m : M A) (k : A -> M B) : M B :=
  fun w =>
    match m w with
    | (Ok a, w') => k a w'
    | (Raise e, w') => (Raise e, w')
    end.

Notation "'let*' x ':=' m 'in' k" := (bindM m (fun x => k))
  (at level 10, x name, m at level 100, k at level 200).

Definition modify (f : World -> World) : M unit := fun w => (Ok tt, f w).

(** [for x in l: acc = body(acc, x)] *)
Fixpoint for_each {A S : Type} (body : S -> A -> M S) (l : list A) (acc : S) : M S :=
  match l with
  | [] => ret acc
  | x :: l' => let* acc' := body acc x in for_each body l' acc'
  end.

(** *** Provider payloads *)

(** An element of ["activities-heart"]: [dateTime], and [value] with its
    optional [restingHeartRate]; [None] is an absent key. *)
Record HeartDay : Type := mkHeartDay {
  dateTime : option Z;
  value : option (option Q)
}.

(** An element of the intraday ["dataset"]: time of day (microseconds
    after midnight) and heart rate. *)
Record IntradayPoint : Type := mkIntradayPoint {
  point_time : Z;
  point_value : Q
}.

(** The ["summary"] object of an activity response. *)
Record ActivitySummary : Type := mkActivitySummary {
  steps : option Z;
  caloriesOut : option Q
}.

(** A decoded response body: a JSON object, with the keys the code reads. *)
Record Json : Type := mkJson {
  activities_heart : option (list HeartDay);
  activities_heart_intraday : option (option (list IntradayPoint));
  summary : option ActivitySummary
}.

(** Truth value of a response body: false for the empty object. *)
Definition truthy_json (j : Json) : bool :=
  present (activities_heart j)
  || present (activities_heart_intraday j)
  || present (summary j).

(** The endpoints of the provider; a day stands for its ['%Y-%m-%d'] text. *)
Inductive Endpoint : Type :=
| HeartIntraday (date : Z)    (* /activities/heart/date/{date}/1d/1min.json *)
| HeartDaily (date : Z)       (* /activities/heart/date/{date}/1d.json *)
| Sleep (date : Z)            (* /sleep/date/{date}.json *)
| Activities (date : Z)       (* /activities/date/{date}.json *)
| Profile                     (* /profile.json *)
| Devices.                    (* /devices.json *)

(** Outcome of [requests.get] and [requests.post]: an exception, or a
    status with the body [response.json()] decodes ([None]: not JSON). *)
Inductive Response (Body : Type) : Type :=
| Raised
| Status (status_code : Z) (json : option Body).
Arguments Raised {Body}.
Arguments Status {Body} status_code json.

(** What a run reads from outside. [time_time] is [time.time()];
    [datetime_now i] is the clock seen by iteration [i] of a sync loop;
    [token_endpoint] answers the refresh POST for a refresh token and
    [api] a GET for a bearer token and an endpoint. *)
Record Env : Type := mkEnv {
  time_time : Q;
  datetime_now : nat -> Z;
  token_endpoint : JVal -> Response Token;
  api : JVal -> Endpoint -> Response Json
}.

(** ** FitbitAuth (wearable_integration/fitbit_auth.py) *)

Module FitbitAuth.

Definition set_fitbit_token (t : Token) (s : SessionState) : SessionState :=
  mkSessionState (Some t) (token_expires_at s) (fitbit_connected s).

Definition set_token_expires_at (e : Q) (s : SessionState) : SessionState :=
  mkSessionState (fitbit_token s) (Some e) (fitbit_connected s).

(** [time.time() + new_token.get('expires_in', 28800)]: adding a string
    to a number is a [TypeError]. *)
Definition expiry_after (now : Q) (new_token : Token) : result Q :=
  match default (JNum 28800) (new_token !! "expires_in") with
  | JNum n => Ok (now + n)%Q
  | JStr _ => Raise TypeError
  end.

(** [refresh_token]: returns the new token bundle, or [None]. The request
    and everything after it run inside [try]; whatever raises there ends in
    [st.error] and [None], after the assignments already made. *)
Definition refresh_token (env : Env) (w : World) : option Token * World :=
  match fitbit_token (session w) with
  | None => (None, w)
  | Some token =>
      match token !! "refresh_token" with
      | Some refresh =>
          if negb (truthy_J (Some refresh)) then (None, w)
          else
            match token_endpoint env refresh with
            | Raised => (None, st_message ErrorRefreshingToken w)
            | Status status_code body =>
                if (status_code =? 200)%Z then
                  match body with
                  | None => (None, st_message ErrorRefreshingToken w)
                  | Some new_token =>
                      let w1 := set_session (set_fitbit_token new_token (session w)) w in
                      match expiry_after (time_time env) new_token with
                      | Ok e =>
                          (Some new_token,
                           set_session (set_token_expires_at e (session w1)) w1)
                      | Raise _ => (None, st_message ErrorRefreshingToken w1)
                      end
                  end
                else (None, st_message (TokenRefreshFailed status_code) w)
            end
      | None => (None, w)
      end
  end.

(** The test [time.time() > (expires_at - 300)] of [get_valid_token]. *)
Definition expires_soon (env : Env) (s : SessionState) : bool :=
  Qltb (default 0%Q (token_expires_at s) - 300)%Q (time_time env).

(** [get_valid_token]: [self.refresh_token() or token] when the token
    expires in less than five minutes, the cached token otherwise. *)
Definition get_valid_token (env : Env) (w : World) : option Token * World :=
  match fitbit_token (session w) with
  | None => (None, w)
  | Some token =>
      if expires_soon env (session w) then
        let (refreshed, w') := refresh_token env w in
        (if truthy_token refreshed then refreshed else Some token, w')
      else (Some token, w)
  end.

(** [is_authenticated] *)
Definition is_authenticated (env : Env) (w : World) : bool * World :=
  match fitbit_connected (session w) with
  | Some true =>
      let (token, w') := get_valid_token env w in (present token, w')
  | _ => (false, w)
  end.

(** [get_headers]: the headers are constant but for the bearer token, so
    the result is that token; [token['access_token']] raises when the key
    is missing. *)
Definition get_headers (env : Env) : M (option JVal) :=
  fun w =>
    let (token, w') := get_valid_token env w in
    if truthy_token token then
      match default ∅ token !! "access_token" with
      | Some bearer => (Ok (Some bearer), w')
      | None => (Raise (KeyError "access_token"), w')
      end
    else (Ok None, w').


End FitbitAuth.

(** ** FitbitDataService (wearable_integration/fitbit_data.py) *)

Module FitbitDataService.

(** [make_api_call]: every failure prints a message and yields [None]. *)
Definition make_api_call (env : Env) (endpoint : Endpoint) : M (option Json) :=
  let* headers := FitbitAuth.get_headers env in
  match headers with
  | None => let* _ := modify (st_message NotAuthenticated) in ret None
  | Some bearer =>
      match api env bearer endpoint with
      | Raised => let* _ := modify (st_message NetworkError) in ret None
      | Status status_code body =>
          if (status_code =? 200)%Z then
            match body with
            | Some data => ret (Some data)
            | None => let* _ := modify (st_message NetworkError) in ret None
            end
          else if (status_code =? 401)%Z then
            let* _ := modify (st_message AuthenticationExpired) in ret None
          else if (status_code =? 429)%Z then
            let* _ := modify (st_message RateLimitExceeded) in ret None
          else
            let* _ := modify (st_message (ApiError status_code)) in ret None
      end
  end.

(** A parsed intraday frame: its rows, as ([datetime], [value]). *)
Definition DataFrame : Type := list (Z * Q).

(** [_parse_heart_rate_data]: a missing [dateTime] raises inside [try]. *)
Definition _parse_heart_rate_data (data : Json) : M DataFrame :=
  match activities_heart_intraday data with
  | Some (Some dataset) =>
      match dataset, activities_heart data with
      | _ :: _, Some (day :: _) =>
          match dateTime day with
          | Some date =>
              ret (map (fun p => (strptime date + point_time p, point_value p)%Z) dataset)
          | None => let* _ := modify (st_message ErrorParsingHeartRate) in ret []
          end
      | _, _ => ret []
      end
  | _ => ret []
  end.

(** [get_heart_rate_intraday] *)
Definition get_heart_rate_intraday (env : Env) (date : Z) : M (option DataFrame) :=
  let* data := make_api_call env (HeartIntraday date) in
  match data with
  | Some d =>
      if truthy_json d
      then let* df := _parse_heart_rate_data d in ret (Some df)
      else ret None
  | None => ret None
  end.

(** [get_resting_heart_rate]: [data['activities-heart'][0]['value']] raises
    when the day has no [value]. *)
Definition get_resting_heart_rate (env : Env) (date : Z) : M (option Q) :=
  let* data := make_api_call env (HeartDaily date) in
  match data with
  | Some d =>
      match activities_heart d with
      | Some (day :: _) =>
          match value day with
          | Some resting => ret resting
          | None => raise (KeyError "value")
          end
      | _ => ret None
      end
  | None => ret None
  end.

(** [get_activity_summary] *)
Definition get_activity_summary (env : Env) (date : Z) : M (option Json) :=
  make_api_call env (Activities date).

End FitbitDataService.

(** ** Synchronisation *)

(** [range(days)] *)
Definition range (days : Z) : list nat := seq 0 (Z.to_nat days).

(** [(datetime.now() - timedelta(days=day_offset)).strftime('%Y-%m-%d')] *)
Definition sync_date (env : Env) (day_offset : nat) : Z :=
  date_of (minus_days (datetime_now env day_offset) (Z.of_nat day_offset)).


Module App.

(** The row built from one intraday observation. *)
Definition heart_rate_row (patient_id : string) (row : Z * Q) : WearableData.t :=
  WearableData.mk (fst row) patient_id (Some (snd row)) None None None "fitbit".

(** The row built from the activity summary of a day. *)
Definition activity_row (patient_id : string) (date : Z) (s : ActivitySummary)
  : WearableData.t :=
  WearableData.mk (strptime date) patient_id None None
    (Some (default 0%Z (steps s))) (Some (default 0%Q (caloriesOut s))) "fitbit".

(** The biomarker built from a resting heart rate; the [source] key of the
    dictionary is not a column and is dropped. *)
Definition resting_hr_row (patient_id : string) (now : Z) (resting_hr : Q)
  : CalculatedBiomarker.t :=
  CalculatedBiomarker.mk now patient_id RESTING_HR resting_hr "bpm".

Definition save_wearable (row : WearableData.t) : M unit :=
  modify (fun w => set_db (DatabaseService.add_wearable_data row (db w)) w).

Definition save_biomarker (row : CalculatedBiomarker.t) : M unit :=
  modify (fun w => set_db (DatabaseService.add_biomarker row (db w)) w).

(** The body of the loop of [sync_real_fitbit_data], from the point where
    [date] is computed: [now] is the clock the iteration reads. *)
Definition sync_date_data (env : Env) (patient_id : string) (date now : Z)
    (saved_count : nat) : M nat :=
  let* hr_data := FitbitDataService.get_heart_rate_intraday env date in
  let* saved_count :=
    match hr_data with
    | Some (r :: rows) =>
        for_each (fun n row =>
                    let* _ := save_wearable (heart_rate_row patient_id row) in
                    ret (n + 1))
                 (r :: rows) saved_count
    | _ => ret saved_count
    end in
  let* resting_hr := FitbitDataService.get_resting_heart_rate env date in
  let* _ :=
    match resting_hr with
    | Some v =>
        if truthy_Q (Some v)
        then save_biomarker (resting_hr_row patient_id now v)
        else ret tt
    | None => ret tt
    end in
  let* activity := FitbitDataService.get_activity_summary env date in
  match activity with
  | Some a =>
      match summary a with
      | Some s =>
          if (0 <? default 0 (steps s))%Z then
            let* _ := save_wearable (activity_row patient_id date s) in
            ret (saved_count + 1)
          else ret saved_count
      | None => ret saved_count
      end
  | None => ret saved_count
  end.

(** One iteration of [for day_offset in range(days)]. The source reads
    [datetime.now()] for the date and again, moments later, for the stamp
    of the biomarker; the iteration is given one reading for both. *)
Definition sync_day (env : Env) (patient_id : string)
    (saved_count : nat) (day_offset : nat) : M nat :=
  sync_date_data env patient_id (sync_date env day_offset)
    (datetime_now env day_offset) saved_count.

(** [sync_real_fitbit_data]: returns nothing; the outcome is the message
    printed at the end. Any exception leaves the loop. *)
Definition sync_real_fitbit_data (env : Env) (patient_id : string) (days : Z)
    (w : World) : World :=
  match for_each (sync_day env patient_id) (range days) 0 w with
  | (Ok saved_count, w') => st_message (SyncSuccess saved_count) w'
  | (Raise e, w') => st_message (SyncError e) w'
  end.

(** A calendar date, as [date.year], [date.month] and [date.day]. *)
Record CivilDate : Type := mkCivilDate {
  year : Z;
  month : Z;
  day : Z
}.

(** [(m1, d1) < (m2, d2)] on tuples. *)
Definition month_day_ltb (m1 d1 m2 d2 : Z) : bool :=
  (m1 <? m2)%Z || ((m1 =? m2)%Z && (d1 <? d2)%Z).

(** [calculate_age]; [today] is [date.today()]. A comparison subtracts as
    one or zero. *)
Definition calculate_age (today dob : CivilDate) : Z :=
  (year today - year dob
   - (if month_day_ltb (month today) (day today) (month dob) (day dob) then 1 else 0))%Z.

End App.

(** ** EnhancedWearablePipeline (pipelines/enhanced_wearable_pipeline.py) *)

Module EnhancedWearablePipeline.

(** The objects of data_models/__init__.py the pipeline collects. *)
Inductive Item : Type :=
| Wearable (timestamp : Z) (heart_rate : Q)
| Biomarker (biomarker_type : CardiacBiomarkerType) (value : Q) (timestamp : Z).

(** [WearableData(..., heart_rate=...)]: the field is declared with
    [ge=0, le=200] and validated on construction. *)
Definition make_wearable (row : Z * Q) : M Item :=
  if Qleb 0 (snd row) && Qleb (snd row) 200
  then ret (Wearable (fst row) (snd row))
  else raise ValidationError.

(** The body of the loop of [sync_fitbit_data], from the point where
    [date] is computed. *)
Definition sync_date_data (env : Env) (all_data : list Item) (date : Z)
  : M (list Item) :=
  let* hr_data := FitbitDataService.get_heart_rate_intraday env date in
  let* all_data :=
    match hr_data with
    | Some rows =>
        for_each (fun (acc : list Item) row =>
                    let* item := make_wearable row in ret (acc ++ [item]))
                 rows all_data
    | None => ret all_data
    end in
  let* resting_hr := FitbitDataService.get_resting_heart_rate env date in
  match resting_hr with
  | Some v =>
      if truthy_Q (Some v)
      then ret (all_data ++ [Biomarker RESTING_HR v (strptime date)])
      else ret all_data
  | None => ret all_data
  end.

(** One iteration of [for i in range(days)]. *)
Definition sync_day (env : Env) (all_data : list Item) (i : nat) : M (list Item) :=
  sync_date_data env all_data (sync_date env i).

(** [sync_fitbit_data] *)
Definition sync_fitbit_data (env : Env) (days : Z) : M (list Item) :=
  for_each (sync_day env) (range days) [].

End EnhancedWearablePipeline.

(** ** Visualisation helpers (visualizations/viz_utils.py) *)

Module VizUtils.

(** A row of the frame [prepare_hrv_data] builds. *)
Record HrvPoint : Type := mkHrvPoint {
  hp_date : Z;
  hp_hrv : Q;
  hp_heart_rate : option Q;
  hp_activity : Z
}.

(** [prepare_hrv_data]: the rows with a true [hrv_rmssd]. *)
Definition prepare_hrv_data (wearable : list WearableData.t) : list HrvPoint :=
  omap (fun d =>
          match WearableData.hrv_rmssd d with
          | Some h =>
              if truthy_Q (Some h)
              then Some (mkHrvPoint (date_of (WearableData.timestamp d)) h
                           (WearableData.heart_rate d)
                           (default 0%Z (WearableData.steps d)))
              else None
          | None => None
          end)
       wearable.

(** [prepare_biomarker_data]: the biomarkers grouped by type, each as its
    day and value, in the order they come. *)
Definition prepare_biomarker_data (biomarkers : list CalculatedBiomarker.t)
  : gmap CardiacBiomarkerType (list (Z * Q)) :=
  fold_left (fun d b =>
               let k := CalculatedBiomarker.biomarker_type b in
               <[k := default [] (d !! k)
                      ++ [(date_of (CalculatedBiomarker.timestamp b),
                           CalculatedBiomarker.value b)]]> d)
            biomarkers ∅.

End VizUtils.

(** ** Demo data (database/demo_data.py) *)

Module DemoData.

(** The alert [create_demo_clinical_data] builds for a patient. *)
Definition demo_alert_data (patient : Patient.t) : ClinicalService.AlertData :=
  ClinicalService.mkAlertData (Patient.id patient) HIGH_HEART_RATE (Some "high")
    "Elevated Resting Heart Rate"
    "Patient's average resting heart rate has increased by 15% over the past week."
    (Some 85%Q) (Some "60-100 bpm").

(** [for patient in patients[:2]: session.add(PatientAlert(...))] and the
    commit that follows; [utcnow i] and [uuid4 i] are the clock and the
    uuid4 drawn for the [i]-th alert. *)
Fixpoint add_demo_alerts (utcnow : nat -> Z) (uuid4 : nat -> string) (i : nat)
    (ps : list Patient.t) (db : Database) : result Database :=
  match ps with
  | [] => Ok db
  | patient :: ps' =>
      do db' <- ClinicalService.add_alert
                  (ClinicalService.new_alert (utcnow i) (uuid4 i)
                     (demo_alert_data patient)) db;
      add_demo_alerts utcnow uuid4 (S i) ps' db'
  end.

Definition create_demo_alerts (utcnow : nat -> Z) (uuid4 : nat -> string)
    (db : Database) : result Database :=
  add_demo_alerts utcnow uuid4 0 (take 2 (patients db)) db.

(** The demo patients: first name, last name and risk level; all of them
    are created ACTIVE. *)
Definition demo_patients : list (string * string * string) :=
  [("Maria", "Garcia", "high"); ("David", "Chen", "medium");
   ("Sarah", "Johnson", "low")].

(** [session.add(patient); session.commit()]: the primary key is unique. *)
Definition add_patient (patient : Patient.t) (db : Database) : result Database :=
  match List.find (fun p => String.eqb (Patient.id p) (Patient.id patient))
                  (patients db) with
  | Some _ => Raise IntegrityError
  | None => Ok (set_patients (patients db ++ [patient]) db)
  end.

(** The loop [for patient_data in demo_patients]: a patient is created, and
    assigned to the demo clinician, unless one with the same first and last
    name exists. [utcnow i] and [uuid4 i] are the clock and the uuid4 of
    iteration [i]. *)
Fixpoint add_demo_patients (utcnow : nat -> Z) (uuid4 : nat -> string) (i : nat)
    (data : list (string * string * string)) (db : Database) : result Database :=
  match data with
  | [] => Ok db
  | (first_name, last_name, risk_level) :: data' =>
      match List.find (fun p =>
                String.eqb (Patient.first_name p) first_name
                && String.eqb (Patient.last_name p) last_name) (patients db) with
      | Some _ => add_demo_patients utcnow uuid4 (S i) data' db
      | None =>
          do db' <- add_patient
                      (Patient.mk (uuid4 i) (utcnow i) first_name last_name ACTIVE
                         (Some risk_level)) db;
          add_demo_patients utcnow uuid4 (S i) data'
            (set_clinician_patients
               (clinician_patients db'
                ++ [ClinicianPatient.mk "demo_clinician_001" (uuid4 i) true]) db')
      end
  end.

Definition create_demo_patients (utcnow : nat -> Z) (uuid4 : nat -> string)
    (db : Database) : result Database :=
  add_demo_patients utcnow uuid4 0 demo_patients db.

End DemoData.

(** ** Notions the statements below use *)

(** The unresolved alerts of a patient and an alert type. *)
Definition open_alerts_for (patient_id : string) (alert_type : AlertType)
    (db : Database) : list PatientAlert.t :=
  List.filter (fun a =>
      negb (PatientAlert.is_resolved a)
      && String.eqb (PatientAlert.patient_id a) patient_id
      && bool_decide (PatientAlert.alert_type a = alert_type))
    (alerts db).

(** At most one unresolved alert for every patient and alert type. *)
Definition dedup_invariant (db : Database) : Prop :=
  forall patient_id alert_type,
    length (open_alerts_for patient_id alert_type db) <= 1.

(** The natural key of a wearable row, as the specification names it: the
    patient, the instant, the source and which metric the row carries. *)
Definition natural_key (w : WearableData.t) : string * Z * string * (bool * bool) :=
  (WearableData.patient_id w, WearableData.timestamp w, WearableData.source w,
   (present (WearableData.heart_rate w), present (WearableData.steps w))).

(** A sequence of [create_alert] calls: for each call the clock, the uuid4
    drawn and the dictionary. A call that raises ends the sequence. *)
Fixpoint create_alerts (calls : list (Z * string * ClinicalService.AlertData))
    (db : Database) : result Database :=
  match calls with
  | [] => Ok db
  | (utcnow, uuid, data) :: calls' =>
      do created <- ClinicalService.create_alert utcnow uuid data db;
      create_alerts calls' (snd created)
  end.

(** The uuid4 of a call in such a sequence. *)
Definition call_uuid (c : Z * string * ClinicalService.AlertData) : string :=
  snd (fst c).

(** The wearable rows of a patient from an instant on: the input window of
    the report (from [utcnow - days]) and of the health summary (from
    [utcnow - 7 days]). *)
Definition wearable_since (start : Z) (patient_id : string) (db : Database)
  : list WearableData.t :=
  List.filter (fun w =>
      String.eqb (WearableData.patient_id w) patient_id
      && (start <=? WearableData.timestamp w)%Z)
    (wearable_data db).

(** The bearer token [get_headers] yields without a refresh: the cached
    token is not about to expire, is not empty and has an access token. *)
Definition authorized_as (env : Env) (s : SessionState) : option JVal :=
  match fitbit_token s with
  | Some token =>
      if negb (FitbitAuth.expires_soon env s) && truthy_token (Some token)
      then token !! "access_token"
      else None
  | None => None
  end.

(** A session [get_valid_token] leaves alone: no token, or one that is not
    about to expire. *)
Definition settled (env : Env) (s : SessionState) : bool :=
  match fitbit_token s with
  | Some _ => negb (FitbitAuth.expires_soon env s)
  | None => true
  end.

(** The message [make_api_call] prints for a response, if it prints one. *)
Definition failure_message (r : Response Json) : option UiMsg :=
  match r with
  | Raised => Some NetworkError
  | Status status_code body =>
      if (status_code =? 200)%Z then
        match body with Some _ => None | None => Some NetworkError end
      else if (status_code =? 401)%Z then Some AuthenticationExpired
      else if (status_code =? 429)%Z then Some RateLimitExceeded
      else Some (ApiError status_code)
  end.

(** The store with rows added at the end of the two tables a sync writes. *)
Definition append_rows (rw : list WearableData.t) (rb : list CalculatedBiomarker.t)
    (d : Database) : Database :=
  mkDatabase (patients d) (clinician_patients d) (wearable_data d ++ rw)
             (symptom_reports d) (biomarkers d ++ rb) (clinical_notes d) (alerts d).

(** A computation that never looks at the store or at the messages: from a
    session it yields a result, a session, rows to append and messages to
    print, whatever the store holds; a settled session stays as it is. *)
Definition appends_only (env : Env) {A : Type} (m : M A) : Prop :=
  forall s, exists r s' rw rb msgs,
    (forall d u, m (mkWorld s d u) = (r, mkWorld s' (append_rows rw rb d) (u ++ msgs))) /\
    (settled env s = true -> s' = s).

(** *** A sample world for the examples *)

(** The instant of a listed day, for clocks in examples. *)
Definition noon (day : Z) : Z := (day * DAY_US + 43200000000)%Z.

Definition sample_token : Token :=
  <["access_token" := JStr "bearer-1"]> (<["refresh_token" := JStr "refresh-1"]> ∅).

(** A session whose token is good for a long while yet. *)
Definition sample_session : SessionState :=
  mkSessionState (Some sample_token) (Some 90000%Q) (Some true).

Definition sample_world : World := mkWorld sample_session empty_db [].

(** A provider that has, for every day, one intraday observation (70 bpm at
    08:00), a resting heart rate of 62 and 5000 steps. *)
Definition sample_api (bearer : JVal) (e : Endpoint) : Response Json :=
  match e with
  | HeartIntraday d =>
      Status 200 (Some (mkJson (Some [mkHeartDay (Some d) (Some (Some 62%Q))])
                               (Some (Some [mkIntradayPoint 28800000000 70%Q])) None))
  | HeartDaily d =>
      Status 200 (Some (mkJson (Some [mkHeartDay (Some d) (Some (Some 62%Q))]) None None))
  | Activities d =>
      Status 200 (Some (mkJson None None
                          (Some (mkActivitySummary (Some 5000%Z) (Some 2000%Q)))))
  | _ => Status 404 None
  end.

(** The same provider, answering 401 to every request about [day]. *)
Definition api_expired_on (day : Z) (bearer : JVal) (e : Endpoint) : Response Json :=
  match e with
  | HeartIntraday d | HeartDaily d | Activities d =>
      if (d =? day)%Z then Status 401 None else sample_api bearer e
  | _ => sample_api bearer e
  end.

(** It is noon of day 20000 throughout. *)
Definition sample_env : Env :=
  mkEnv 1000%Q (fun _ => noon 20000) (fun _ => Status 400 None) sample_api.

Definition env_expired_today : Env :=
  mkEnv 1000%Q (fun _ => noon 20000) (fun _ => Status 400 None) (api_expired_on 20000).

(** The same provider one minute later. *)
Definition sample_env_later : Env :=
  mkEnv 1060%Q (fun _ => (noon 20000 + 60000000)%Z) (fun _ => Status 400 None)
        sample_api.

(** What a biomarker row holds besides its timestamp. *)
Definition biomarker_content (b : CalculatedBiomarker.t)
  : string * CardiacBiomarkerType * Q * string :=
  (CalculatedBiomarker.patient_id b, CalculatedBiomarker.biomarker_type b,
   CalculatedBiomarker.value b, CalculatedBiomarker.unit b).

(** Two computations, one for each of two runs, that do the same from a
    session neither run has to refresh: the same result, the same
    messages, the same wearable rows appended, and biomarker rows that
    differ in their timestamps at most; the session stays as it is. *)
Definition runs_alike (env1 env2 : Env) {A : Type} (m1 m2 : M A) : Prop :=
  forall s, settled env1 s = true -> settled env2 s = true ->
    exists r rw rb1 rb2 msgs,
      (forall d u, m1 (mkWorld s d u)
                   = (r, mkWorld s (append_rows rw rb1 d) (u ++ msgs))) /\
      (forall d u, m2 (mkWorld s d u)
                   = (r, mkWorld s (append_rows rw rb2 d) (u ++ msgs))) /\
      map biomarker_content rb2 = map biomarker_content rb1.

(** *** Further notions *)

(** A computation that leaves the store as it is, whatever it returns. *)
Definition keeps_db {A : Type} (m : M A) : Prop :=
  forall w, db (snd (m w)) = db w.

(** [x] comes no later than [y] in the descending order of [key]. *)
Definition before {A : Type} (key : A -> Z) (x y : A) : Prop := (key y <= key x)%Z.

(** The point [prepare_biomarker_data] makes of a biomarker: its day and
    value. *)
Definition biomarker_point (b : CalculatedBiomarker.t) : Z * Q :=
  (date_of (CalculatedBiomarker.timestamp b), CalculatedBiomarker.value b).

(** A patient with these names is stored. *)
Definition has_patient_named (first_name last_name : string) (db : Database) : Prop :=
  exists p, In p (patients db) /\
    Patient.first_name p = first_name /\ Patient.last_name p = last_name.

(** The number of wearable rows in the store of a world. *)
Definition wearable_count (w : World) : nat := length (wearable_data (db w)).

(** A reading the pydantic model of the pipeline accepts. *)
Definition valid_reading (v : Q) : bool := Qleb 0 v && Qleb v 200.

(** The sample provider with a racing heart: 250 bpm at 08:00 every day. *)
Definition api_racing (bearer : JVal) (e : Endpoint) : Response Json :=
  match e with
  | HeartIntraday d =>
      Status 200 (Some (mkJson (Some [mkHeartDay (Some d) (Some (Some 62%Q))])
                               (Some (Some [mkIntradayPoint 28800000000 250%Q])) None))
  | _ => sample_api bearer e
  end.

Definition env_racing : Env :=
  mkEnv 1000%Q (fun _ => noon 20000) (fun _ => Status 400 None) api_racing.

(** The key of a patient in [risk_counts]: its risk level, if it has a
    true one. *)
Definition risk_key (p : Patient.t) : option string :=
  if truthy_str (Patient.risk_level p) then Patient.risk_level p else None.

(** Lexicographic order on calendar dates. *)
Definition civil_le (a b : App.CivilDate) : Prop :=
  (App.year a < App.year b)%Z \/
  (App.year a = App.year b /\
   ((App.month a < App.month b)%Z \/
    (App.month a = App.month b /\ (App.day a <= App.day b)%Z))).

(** * Properties *)

(** ** Numbers *)

Section NumberFacts.

Lemma Qleb_le (a b : Q) : Qleb a b = true <-> (a <= b)%Q.
Proof. unfold Qleb. apply Qle_bool_iff. Qed.

Lemma Qltb_lt (a b : Q) : Qltb a b = true <-> (a < b)%Q.
Proof.
  unfold Qltb. rewrite negb_true_iff. split.
  - intros H. apply Qnot_le_lt. intros Hle.
    apply Qle_bool_iff in Hle. congruence.
  - intros H. destruct (Qle_bool b a) eqn:E; [|reflexivity].
    apply Qle_bool_iff in E. exfalso. eapply Qlt_not_le; eassumption.
Qed.

Lemma truthy_Q_nonzero (v : Q) : truthy_Q (Some v) = true <-> ~ (v == 0)%Q.
Proof.
  simpl. rewrite negb_true_iff. split.
  - intros H Heq. apply Qeq_bool_iff in Heq. congruence.
  - intros H. destruct (Qeq_bool v 0) eqn:E; [|reflexivity].
    apply Qeq_bool_iff in E. contradiction.
Qed.

End NumberFacts.

(** ** Resting heart rate status *)

Section ClassifierFacts.
Import Classifier.

Lemma hr_status_cases (latest_hr : option Q) :
  hr_status latest_hr = "normal" \/ hr_status latest_hr = "warning".
Proof.
  destruct latest_hr as [v|]; simpl; [|by right].
  destruct (negb (Qeq_bool v 0) && (Qleb 60 v && Qleb v 100)); auto.
Qed.

Lemma hr_status_normal_iff (latest_hr : option Q) :
  hr_status latest_hr = "normal" <->
  exists v, latest_hr = Some v /\ (60 <= v)%Q /\ (v <= 100)%Q.
Proof.
  destruct latest_hr as [v|]; cbn [hr_status].
  - destruct (truthy_Q (Some v) && (Qleb 60 v && Qleb v 100)) eqn:E.
    + apply andb_true_iff in E as [_ E]. apply andb_true_iff in E as [Hlo Hhi].
      apply Qleb_le in Hlo, Hhi. split; [|done]. intros _. by exists v.
    + split; [discriminate|]. intros (v' & [= <-] & Hlo & Hhi).
      assert (Ht : truthy_Q (Some v) = true).
      { apply truthy_Q_nonzero. intros H0. rewrite H0 in Hlo. by apply Hlo. }
      apply Qleb_le in Hlo, Hhi. rewrite Ht, Hlo, Hhi in E. discriminate.
  - split; [discriminate|]. by intros (v & [=] & _).
Qed.

End ClassifierFacts.

(** The severity-first rule of the specification, run on the configured
    resting-heart-rate ranges, gives the tiers of its scenario. *)
Example classify_spec_scenario :
  map (Classifier.classify_spec Classifier.resting_hr_ranges) [85; 55; 45; 110]%Q
  = [Classifier.normal; Classifier.warning; Classifier.critical; Classifier.warning].
Proof. reflexivity. Qed.

(** C4, counterexample. With the configured resting-heart-rate ranges the
    dashboard status of 45 bpm is "warning", not "critical" (the tier the
    severity-first rule of the specification gives), and a value outside
    every configured interval (400 bpm) is "warning" too, not
    "unclassified". *)
Lemma hr_status_not_severity_first :
  Classifier.hr_status (Some 45%Q) = "warning" /\
  Classifier.hr_status (Some 45%Q)
    <> Classifier.tier_label (Classifier.classify_spec Classifier.resting_hr_ranges 45%Q) /\
  Classifier.classify_spec Classifier.resting_hr_ranges 45%Q = Classifier.critical /\
  Classifier.hr_status (Some 400%Q) = "warning" /\
  Classifier.classify_spec Classifier.resting_hr_ranges 400%Q = Classifier.unclassified.
Proof. repeat split; try reflexivity. discriminate. Qed.

(** C4, as amended. The dashboard classifies the latest resting heart rate
    into two tiers only: "normal" exactly when a value is present and lies
    in the inclusive interval from 60 to 100, "warning" in every other case
    (an absent value, a value in a configured critical interval, a value
    outside every interval); it never answers "critical" or
    "unclassified". So 85 is normal and 55, 45 and 110 are warning. *)
Theorem hr_status_two_tiers (latest_hr : option Q) :
  (Classifier.hr_status latest_hr = "normal" <->
     exists v, latest_hr = Some v /\ (60 <= v)%Q /\ (v <= 100)%Q) /\
  (Classifier.hr_status latest_hr = "warning" <->
     ~ exists v, latest_hr = Some v /\ (60 <= v)%Q /\ (v <= 100)%Q) /\
  Classifier.hr_status latest_hr <> Classifier.tier_label Classifier.critical /\
  Classifier.hr_status latest_hr <> Classifier.tier_label Classifier.unclassified /\
  Classifier.hr_status (Some 85%Q) = "normal" /\
  Classifier.hr_status (Some 55%Q) = "warning" /\
  Classifier.hr_status (Some 45%Q) = "warning" /\
  Classifier.hr_status (Some 110%Q) = "warning".
Proof.
  pose proof (hr_status_normal_iff latest_hr) as Hn.
  pose proof (hr_status_cases latest_hr) as Hc.
  repeat split; try reflexivity.
  - apply Hn.
  - apply Hn.
  - intros Hw Hex. apply Hn in Hex. congruence.
  - intros Hne. destruct Hc as [Hc|Hc]; [|done]. apply Hn in Hc. contradiction.
  - destruct Hc as [-> | ->]; discriminate.
  - destruct Hc as [-> | ->]; discriminate.
Qed.

(** ** Queries *)

Section QueryFacts.

Context {A : Type} (key : A -> Z).

Lemma insert_desc_perm (x : A) (l : list A) :
  Permutation (insert_desc key x l) (x :: l).
Proof.
  induction l as [|y l IH]; simpl; [done|].
  destruct (key y <=? key x)%Z; [done|].
  rewrite IH. apply perm_swap.
Qed.

Lemma order_by_desc_perm (l : list A) : Permutation (order_by_desc key l) l.
Proof.
  induction l as [|x l IH]; simpl; [done|].
  rewrite insert_desc_perm. by constructor.
Qed.

Lemma order_by_desc_In (x : A) (l : list A) :
  In x (order_by_desc key l) <-> In x l.
Proof.
  split; apply Permutation_in;
    [apply order_by_desc_perm | symmetry; apply order_by_desc_perm].
Qed.

Lemma order_by_desc_length (l : list A) :
  length (order_by_desc key l) = length l.
Proof. apply Permutation_length, order_by_desc_perm. Qed.

Lemma order_by_desc_Forall (P : A -> Prop) (l : list A) :
  Forall P (order_by_desc key l) <-> Forall P l.
Proof.
  rewrite !List.Forall_forall. split; intros H x Hx; apply H;
    by apply order_by_desc_In.
Qed.

End QueryFacts.

Lemma eqb_eq_str (a b : string) : String.eqb a b = true <-> a = b.
Proof. apply String.eqb_eq. Qed.

Lemma get_patients_by_clinician_In clinician_id include_inactive db p :
  In p (ClinicalService.get_patients_by_clinician clinician_id include_inactive db)
  <->
  In p (patients db) /\
  (exists cp, In cp (clinician_patients db) /\
     ClinicianPatient.patient_id cp = Patient.id p /\
     ClinicianPatient.clinician_id cp = clinician_id) /\
  (include_inactive = true \/ Patient.status p = ACTIVE).
Proof.
  unfold ClinicalService.get_patients_by_clinician.
  rewrite order_by_desc_In.
  set (joined := flat_map _ _).
  assert (Hj : forall q, In q joined <->
            In q (patients db) /\
            exists cp, In cp (clinician_patients db) /\
              ClinicianPatient.patient_id cp = Patient.id q /\
              ClinicianPatient.clinician_id cp = clinician_id).
  { intros q. unfold joined. rewrite in_flat_map. split.
    - intros (p' & Hp' & Hin). apply in_map_iff in Hin as (cp & <- & Hcp).
      apply filter_In in Hcp as [Hcp Hb].
      apply andb_true_iff in Hb as [H1 H2].
      apply eqb_eq_str in H1, H2. split; [done|]. by exists cp.
    - intros (Hq & cp & Hcp & H1 & H2). exists q. split; [done|].
      apply in_map_iff. exists cp. split; [done|].
      apply filter_In. split; [done|].
      apply andb_true_iff. split; by apply eqb_eq_str. }
  destruct include_inactive; simpl.
  - rewrite Hj. intuition.
  - rewrite filter_In, Hj, bool_decide_eq_true. intuition. discriminate.
Qed.

Lemma count_up_other `{Countable K} (k k' : K) (d : gmap K nat) :
  k <> k' -> ClinicalService.count_up k d !! k' = d !! k'.
Proof. intros Hne. unfold ClinicalService.count_up. by rewrite lookup_insert_ne. Qed.

Lemma count_up_same `{Countable K} (k : K) (d : gmap K nat) :
  ClinicalService.count_up k d !! k = Some (default 0 (d !! k) + 1).
Proof. unfold ClinicalService.count_up. by rewrite lookup_insert_eq. Qed.

Lemma status_counts_only_active (l : list Patient.t) (d : gmap PatientStatus nat) :
  Forall (fun p => Patient.status p = ACTIVE) l ->
  let d' := fold_left (fun d p => ClinicalService.count_up (Patient.status p) d) l d in
  (forall k, k <> ACTIVE -> d' !! k = d !! k) /\
  d' !! ACTIVE =
    match l with
    | [] => d !! ACTIVE
    | _ :: _ => Some (default 0 (d !! ACTIVE) + length l)
    end.
Proof.
  intros Hall. revert d. induction Hall as [|p l Hp Hall IH]; intros d; simpl.
  - done.
  - specialize (IH (ClinicalService.count_up (Patient.status p) d)) as [IH1 IH2].
    rewrite Hp in *. split.
    + intros k Hk. rewrite IH1 by done. by apply count_up_other.
    + rewrite IH2. destruct l as [|q l]; rewrite count_up_same; simpl; f_equal; lia.
Qed.

(** C10. The default patient list of a clinician holds only patients whose
    status is exactly ACTIVE, and exactly those ACTIVE patients that the
    list with [include_inactive=True] holds; so no HIGH_RISK, INACTIVE or
    ARCHIVED patient is in it, and the dashboard statistics built on it
    count ACTIVE patients only. *)
Theorem default_patient_list_active_only (utcnow : Z) (clinician_id : string)
    (db : Database) :
  let listed := ClinicalService.get_patients_by_clinician clinician_id false db in
  let everyone := ClinicalService.get_patients_by_clinician clinician_id true db in
  let stats := ClinicalService.get_clinician_dashboard_stats utcnow clinician_id db in
  Forall (fun p => Patient.status p = ACTIVE) listed /\
  Forall (fun p => Patient.status p <> HIGH_RISK /\ Patient.status p <> INACTIVE
                   /\ Patient.status p <> ARCHIVED) listed /\
  (forall p, In p listed <-> In p everyone /\ Patient.status p = ACTIVE) /\
  ClinicalService.total_patients stats = length listed /\
  ClinicalService.status_counts stats !! HIGH_RISK = None /\
  ClinicalService.status_counts stats !! INACTIVE = None /\
  ClinicalService.status_counts stats !! ARCHIVED = None /\
  ClinicalService.status_counts stats !! ACTIVE =
    match listed with [] => None | _ :: _ => Some (length listed) end.
Proof.
  intros listed everyone stats.
  assert (Hact : Forall (fun p => Patient.status p = ACTIVE) listed).
  { apply List.Forall_forall. intros p Hp.
    apply get_patients_by_clinician_In in Hp as (_ & _ & [?|?]); done. }
  destruct (status_counts_only_active listed ∅ Hact) as [Hother Hsame].
  split; [done|]. split.
  { eapply Forall_impl; [|exact Hact]. simpl. intros p ->. done. }
  split.
  { intros p. unfold listed, everyone. rewrite !get_patients_by_clinician_In.
    intuition. discriminate. }
  split; [reflexivity|].
  repeat split; try (cbn [stats ClinicalService.get_clinician_dashboard_stats
                          ClinicalService.status_counts]; rewrite Hother; done).
  change (ClinicalService.status_counts stats)
    with (fold_left (fun d p => ClinicalService.count_up (Patient.status p) d) listed ∅).
  rewrite Hsame. destruct listed; [done|]. by rewrite lookup_empty.
Qed.

(** A clinician with an ACTIVE and a HIGH_RISK patient: only the first is
    in the default list, both are in the full list. *)
Example high_risk_patient_not_listed :
  let maria := Patient.mk "p1" 10 "Maria" "Garcia" ACTIVE (Some "high") in
  let david := Patient.mk "p2" 20 "David" "Chen" HIGH_RISK (Some "high") in
  let db := mkDatabase [maria; david]
              [ClinicianPatient.mk "dr" "p1" true; ClinicianPatient.mk "dr" "p2" true]
              [] [] [] [] [] in
  ClinicalService.get_patients_by_clinician "dr" false db = [maria] /\
  ClinicalService.get_patients_by_clinician "dr" true db = [david; maria] /\
  ClinicalService.total_patients
    (ClinicalService.get_clinician_dashboard_stats 100 "dr" db) = 1.
Proof. repeat split. Qed.

(** ** Alerts *)

Section AlertFacts.
Import ClinicalService.

Lemma get_alert_Some alert_id db a :
  get_alert alert_id db = Some a ->
  In a (alerts db) /\ PatientAlert.id a = alert_id.
Proof.
  unfold get_alert. intros H. apply find_some in H as [Hin Hid].
  by apply eqb_eq_str in Hid.
Qed.

Lemma get_alert_None alert_id db :
  get_alert alert_id db = None ->
  forall a, In a (alerts db) -> PatientAlert.id a <> alert_id.
Proof.
  unfold get_alert. intros H a Hin Hid.
  pose proof (find_none _ _ H a Hin) as Hf. simpl in Hf.
  apply eqb_eq_str in Hid. congruence.
Qed.

Lemma get_alert_app alert_id db a :
  get_alert alert_id (set_alerts (alerts db ++ [a]) db) =
  match get_alert alert_id db with
  | Some x => Some x
  | None => if String.eqb (PatientAlert.id a) alert_id then Some a else None
  end.
Proof.
  unfold get_alert. simpl. induction (alerts db) as [|x l IH]; simpl; [done|].
  by destruct (String.eqb (PatientAlert.id x) alert_id).
Qed.

Lemma open_alerts_for_app patient_id alert_type db a :
  open_alerts_for patient_id alert_type (set_alerts (alerts db ++ [a]) db) =
  open_alerts_for patient_id alert_type db ++
  (if negb (PatientAlert.is_resolved a)
      && String.eqb (PatientAlert.patient_id a) patient_id
      && bool_decide (PatientAlert.alert_type a = alert_type)
   then [a] else []).
Proof. unfold open_alerts_for. simpl. by rewrite filter_app. Qed.

Lemma create_alert_fresh utcnow uuid data db :
  get_alert uuid db = None ->
  create_alert utcnow uuid data db =
  Ok (new_alert utcnow uuid data,
      set_alerts (alerts db ++ [new_alert utcnow uuid data]) db).
Proof. intros H. unfold create_alert, add_alert. simpl. by rewrite H. Qed.

(** One committed call: one more unresolved alert of its key, none of any
    other key, whatever the table holds already. *)
Lemma create_alert_open_count utcnow uuid data db patient_id alert_type :
  get_alert uuid db = None ->
  length (open_alerts_for patient_id alert_type
            (set_alerts (alerts db ++ [new_alert utcnow uuid data]) db)) =
  length (open_alerts_for patient_id alert_type db) +
  (if bool_decide (ad_patient_id data = patient_id /\ ad_alert_type data = alert_type)
   then 1 else 0).
Proof.
  intros _. rewrite open_alerts_for_app, length_app. f_equal. simpl.
  destruct (String.eqb (ad_patient_id data) patient_id) eqn:E1.
  - apply eqb_eq_str in E1. simpl.
    destruct (bool_decide (ad_alert_type data = alert_type)) eqn:E2.
    + apply bool_decide_eq_true in E2. by rewrite bool_decide_eq_true_2.
    + apply bool_decide_eq_false in E2. rewrite bool_decide_eq_false_2; [done|].
      by intros [_ ?].
  - simpl. rewrite bool_decide_eq_false_2; [done|]. intros [H _].
    apply eqb_eq_str in H. congruence.
Qed.

End AlertFacts.

(** C1, counterexample. Two [create_alert] calls for the same patient and
    alert type leave two unresolved alerts of that key, and so does running
    the alert part of the demo-data script twice. *)
Lemma create_alert_breaks_dedup :
  let data := ClinicalService.mkAlertData "p1" HIGH_HEART_RATE (Some "critical")
                "High heart rate" "130 bpm" (Some 130%Q) (Some "60-100") in
  let maria := Patient.mk "p1" 10 "Maria" "Garcia" ACTIVE (Some "high") in
  let db0 := mkDatabase [maria] [] [] [] [] [] [] in
  (exists db2,
     create_alerts [(1%Z, "a1", data); (2%Z, "a2", data)] empty_db = Ok db2 /\
     length (open_alerts_for "p1" HIGH_HEART_RATE db2) = 2 /\
     ~ dedup_invariant db2) /\
  (exists db1 db2,
     DemoData.create_demo_alerts (fun _ => 1%Z) (fun _ => "d1") db0 = Ok db1 /\
     DemoData.create_demo_alerts (fun _ => 2%Z) (fun _ => "d2") db1 = Ok db2 /\
     length (open_alerts_for "p1" HIGH_HEART_RATE db2) = 2 /\
     ~ dedup_invariant db2).
Proof.
  split.
  - eexists. split; [reflexivity|]. split; [reflexivity|].
    intros H. specialize (H "p1" HIGH_HEART_RATE). vm_compute in H. lia.
  - eexists _, _. split; [reflexivity|]. split; [reflexivity|].
    split; [reflexivity|].
    intros H. specialize (H "p1" HIGH_HEART_RATE). vm_compute in H. lia.
Qed.

(** C1, as amended. [create_alert] checks nothing but the primary key: a
    sequence of calls for one patient and alert type, each with a uuid4 that
    is new to the table, commits every call and leaves as many more
    unresolved alerts of that patient and type as there were calls. *)
Theorem create_alert_never_dedups
    (calls : list (Z * string * ClinicalService.AlertData)) (db : Database)
    (patient_id : string) (alert_type : AlertType) :
  List.NoDup (map call_uuid calls) ->
  Forall (fun c => ClinicalService.get_alert (call_uuid c) db = None) calls ->
  Forall (fun c => ClinicalService.ad_patient_id (snd c) = patient_id /\
                   ClinicalService.ad_alert_type (snd c) = alert_type) calls ->
  exists db',
    create_alerts calls db = Ok db' /\
    length (open_alerts_for patient_id alert_type db') =
    length (open_alerts_for patient_id alert_type db) + length calls.
Proof.
  revert db. induction calls as [|[[utcnow uuid] data] calls IH]; intros db Hnd Hfresh Hkey.
  - exists db. split; [reflexivity|]. simpl. lia.
  - apply List.NoDup_cons_iff in Hnd as [Hnotin Hnd].
    apply List.Forall_cons_iff in Hfresh as [Hu Hfresh].
    apply List.Forall_cons_iff in Hkey as [[Hp Ht] Hkey].
    cbn [create_alerts]. unfold call_uuid in Hu. simpl in Hu.
    rewrite create_alert_fresh by done. cbn [bind snd].
    destruct (IH (set_alerts (alerts db ++ [ClinicalService.new_alert utcnow uuid data]) db))
      as (db' & Hrun & Hcount); try done.
    + apply List.Forall_forall. intros c Hc.
      rewrite get_alert_app.
      rewrite List.Forall_forall in Hfresh. rewrite (Hfresh c Hc).
      destruct (String.eqb _ _) eqn:E; [|done].
      apply eqb_eq_str in E. simpl in E. exfalso. apply Hnotin.
      apply in_map_iff. exists c. split; [|done].
      unfold call_uuid at 1. simpl. done.
    + exists db'. split; [exact Hrun|]. rewrite Hcount.
      rewrite create_alert_open_count by done.
      rewrite bool_decide_eq_true_2 by done. simpl. lia.
Qed.

(** The amended C1 at two calls on the empty store. *)
Lemma create_alert_never_dedups_witness :
  let data := ClinicalService.mkAlertData "p1" HIGH_HEART_RATE (Some "critical")
                "High heart rate" "130 bpm" (Some 130%Q) (Some "60-100") in
  exists db',
    create_alerts [(1%Z, "a1", data); (2%Z, "a2", data)] empty_db = Ok db' /\
    length (open_alerts_for "p1" HIGH_HEART_RATE db') = 0 + 2.
Proof.
  intros data.
  apply (create_alert_never_dedups [(1%Z, "a1", data); (2%Z, "a2", data)] empty_db
           "p1" HIGH_HEART_RATE).
  - apply List.NoDup_cons_iff. split; [by intros [[=]|[]]|].
    apply List.NoDup_cons_iff. split; [by intros []|]. constructor.
  - repeat constructor.
  - repeat constructor.
Defined.

Section ResolveFacts.
Import ClinicalService.

Lemma update_alert_alerts alert_id a' db :
  alerts (update_alert alert_id a' db) =
  map (fun a => if String.eqb (PatientAlert.id a) alert_id then a' else a) (alerts db).
Proof. reflexivity. Qed.

Lemma get_alert_update alert_id a a' db :
  get_alert alert_id db = Some a ->
  PatientAlert.id a' = alert_id ->
  get_alert alert_id (update_alert alert_id a' db) = Some a'.
Proof.
  unfold get_alert. rewrite update_alert_alerts. intros Hfind Hid.
  induction (alerts db) as [|x l IH]; simpl in *; [discriminate|].
  destruct (String.eqb (PatientAlert.id x) alert_id) eqn:E.
  - apply eqb_eq_str in Hid. by rewrite Hid.
  - rewrite E. by apply IH.
Qed.

(** Membership in the result of [get_active_alerts]. *)
Lemma get_active_alerts_In clinician_id db a :
  In a (get_active_alerts clinician_id db) <->
  In a (alerts db) /\ PatientAlert.is_resolved a = false /\
  (truthy_str clinician_id = false \/
   exists p cp, In p (patients db) /\ In cp (clinician_patients db) /\
     Patient.id p = PatientAlert.patient_id a /\
     ClinicianPatient.patient_id cp = Patient.id p /\
     Some (ClinicianPatient.clinician_id cp) = clinician_id).
Proof.
  unfold get_active_alerts. rewrite order_by_desc_In.
  destruct (truthy_str clinician_id) eqn:Ht.
  - destruct clinician_id as [c|]; [|discriminate]. simpl.
    rewrite in_flat_map. split.
    + intros (a0 & Ha0 & Hin). apply in_flat_map in Hin as (p & Hp & Hin).
      apply in_map_iff in Hin as (cp & <- & Hcp).
      apply filter_In in Hp as [Hp Hpid]. apply filter_In in Hcp as [Hcp Hb].
      apply andb_true_iff in Hb as [Hb Hres]. apply andb_true_iff in Hb as [H1 H2].
      apply eqb_eq_str in Hpid, H1, H2. apply negb_true_iff in Hres.
      split; [done|]. split; [done|]. right. exists p, cp. by rewrite H2.
    + intros (Ha & Hres & [?|(p & cp & Hp & Hcp & Hpid & H1 & [= H2])]); [done|].
      exists a. split; [done|]. apply in_flat_map. exists p. split.
      * apply filter_In. split; [done|]. by apply eqb_eq_str.
      * apply in_map_iff. exists cp. split; [done|]. apply filter_In. split; [done|].
        rewrite Hres. simpl. rewrite andb_true_r.
        apply andb_true_iff. split; by apply eqb_eq_str.
  - rewrite filter_In, negb_true_iff. intuition.
Qed.

(** The unresolved rows after a resolution: the unresolved rows before it,
    the resolved one left out. *)
Lemma unresolved_after_resolve utcnow alert_id resolved_by notes db a :
  let db' := snd (resolve_alert utcnow alert_id resolved_by notes db) in
  In a (alerts db') /\ PatientAlert.is_resolved a = false <->
  In a (alerts db) /\ PatientAlert.is_resolved a = false /\
  PatientAlert.id a <> alert_id.
Proof.
  unfold resolve_alert. destruct (get_alert alert_id db) as [found|] eqn:Hget;
    cbn [snd].
  - rewrite update_alert_alerts, in_map_iff. split.
    + intros [(x & Hx & Hin) Hres].
      destruct (String.eqb (PatientAlert.id x) alert_id) eqn:E.
      * subst a. discriminate.
      * subst a. repeat split; try done. intros Hid. apply eqb_eq_str in Hid. congruence.
    + intros (Hin & Hres & Hid). split; [|done]. exists a. split; [|done].
      destruct (String.eqb (PatientAlert.id a) alert_id) eqn:E; [|done].
      apply eqb_eq_str in E. contradiction.
  - pose proof (get_alert_None _ _ Hget a). intuition.
Qed.

Lemma resolve_alert_keeps_people utcnow alert_id resolved_by notes db :
  let db' := snd (resolve_alert utcnow alert_id resolved_by notes db) in
  patients db' = patients db /\ clinician_patients db' = clinician_patients db.
Proof. unfold resolve_alert. by destruct (get_alert alert_id db). Qed.

End ResolveFacts.

(** C2, counterexample. An alert resolved by one clinician is resolved
    again by another: the second call returns the alert as the first did,
    with [resolved_at], [resolved_by] and [resolution_notes] overwritten;
    and resolving an id that no row has returns [None] and changes
    nothing. *)
Lemma resolve_alert_twice_overwrites :
  let data := ClinicalService.mkAlertData "p1" HIGH_HEART_RATE (Some "high")
                "High heart rate" "130 bpm" (Some 130%Q) (Some "60-100") in
  let db0 := set_alerts [ClinicalService.new_alert 1 "a1" data] empty_db in
  let first := ClinicalService.resolve_alert 100 "a1" "alice" (Some "seen") db0 in
  let second := ClinicalService.resolve_alert 200 "a1" "bob" None (snd first) in
  create_alerts [(1%Z, "a1", data)] empty_db = Ok db0 /\
  option_map PatientAlert.resolved_by (fst first) = Some (Some "alice") /\
  option_map PatientAlert.is_resolved (fst second) = Some true /\
  option_map PatientAlert.resolved_by (fst second) = Some (Some "bob") /\
  option_map PatientAlert.resolved_at (fst second) = Some (Some 200%Z) /\
  option_map PatientAlert.resolution_notes (fst second) = Some None /\
  option_map PatientAlert.resolved_by
    (ClinicalService.get_alert "a1" (snd second)) = Some (Some "bob") /\
  ClinicalService.resolve_alert 300 "a9" "bob" None (snd second) = (None, snd second).
Proof. repeat split. Qed.

(** C2, as amended. [resolve_alert] raises nothing. For an id that no row
    has it returns [None] and leaves the store as it is. For the id of an
    existing alert, resolved already or not, it succeeds: the alert comes
    back with [is_resolved] set, [resolved_at], [resolved_by] and
    [resolution_notes] replaced by the values of this call and every other
    column kept, and that is the row the store now holds. *)
Theorem resolve_alert_returns_or_overwrites (utcnow : Z) (alert_id resolved_by : string)
    (notes : option string) (db : Database) :
  match ClinicalService.get_alert alert_id db with
  | None =>
      ClinicalService.resolve_alert utcnow alert_id resolved_by notes db = (None, db)
  | Some a =>
      exists a' db',
        ClinicalService.resolve_alert utcnow alert_id resolved_by notes db
          = (Some a', db') /\
        PatientAlert.is_resolved a' = true /\
        PatientAlert.resolved_at a' = Some utcnow /\
        PatientAlert.resolved_by a' = Some resolved_by /\
        PatientAlert.resolution_notes a' = notes /\
        PatientAlert.id a' = alert_id /\
        (PatientAlert.created_at a', PatientAlert.patient_id a',
         PatientAlert.alert_type a', PatientAlert.severity a',
         PatientAlert.title a', PatientAlert.description a',
         PatientAlert.trigger_value a', PatientAlert.normal_range a')
        = (PatientAlert.created_at a, PatientAlert.patient_id a,
           PatientAlert.alert_type a, PatientAlert.severity a,
           PatientAlert.title a, PatientAlert.description a,
           PatientAlert.trigger_value a, PatientAlert.normal_range a) /\
        ClinicalService.get_alert alert_id db' = Some a' /\
        length (alerts db') = length (alerts db)
  end.
Proof.
  destruct (ClinicalService.get_alert alert_id db) as [a|] eqn:Hget.
  - unfold ClinicalService.resolve_alert. rewrite Hget.
    destruct (get_alert_Some _ _ _ Hget) as [_ Hid].
    eexists _, _. split; [reflexivity|]. repeat split; try done.
    + by eapply get_alert_update.
    + rewrite update_alert_alerts. apply length_map.
  - unfold ClinicalService.resolve_alert. by rewrite Hget.
Qed.

(** C9. After [resolve_alert] for an alert id, no query for active alerts,
    for any clinician or for none, returns an alert with that id; the
    query returns what it returned before, that alert left out. *)
Theorem resolved_alert_never_active (utcnow : Z) (alert_id resolved_by : string)
    (notes : option string) (clinician_id : option string) (db : Database) :
  let db' := snd (ClinicalService.resolve_alert utcnow alert_id resolved_by notes db) in
  Forall (fun a => PatientAlert.id a <> alert_id)
         (ClinicalService.get_active_alerts clinician_id db') /\
  forall a,
    In a (ClinicalService.get_active_alerts clinician_id db') <->
    In a (ClinicalService.get_active_alerts clinician_id db) /\
    PatientAlert.id a <> alert_id.
Proof.
  intros db'.
  assert (Hiff : forall a,
    In a (ClinicalService.get_active_alerts clinician_id db') <->
    In a (ClinicalService.get_active_alerts clinician_id db) /\
    PatientAlert.id a <> alert_id).
  { intros a. rewrite !get_active_alerts_In.
    destruct (resolve_alert_keeps_people utcnow alert_id resolved_by notes db)
      as [Hp Hcp].
    fold db' in Hp, Hcp. rewrite Hp, Hcp.
    pose proof (unresolved_after_resolve utcnow alert_id resolved_by notes db a) as Hu.
    fold db' in Hu. simpl in Hu. tauto. }
  split; [|exact Hiff].
  apply List.Forall_forall. intros a Ha. by apply Hiff in Ha as [_ ?].
Qed.

(** ** Summaries *)

Section SummaryFacts.

Lemma inject_Z_nonzero (z : Z) : z <> 0%Z -> Qeq_bool (inject_Z z) 0 = false.
Proof.
  intros Hz. destruct (Qeq_bool (inject_Z z) 0) eqn:E; [|reflexivity].
  apply Qeq_bool_eq in E. unfold Qeq in E. simpl in E. lia.
Qed.

Lemma py_truediv_ok (a : Q) (z : Z) :
  z <> 0%Z -> py_truediv a (inject_Z z) = Ok (a / inject_Z z)%Q.
Proof. intros Hz. unfold py_truediv. by rewrite inject_Z_nonzero. Qed.

(** The guarded mean never divides by zero. *)
Lemma mean_if_any_ok (values : list Q) :
  mean_if_any values =
  Ok (match values with
      | [] => None
      | _ :: _ => Some (Qsum values / len values)%Q
      end).
Proof.
  destruct values as [|v values]; [reflexivity|].
  unfold mean_if_any, len. rewrite py_truediv_ok; [reflexivity|].
  simpl length. lia.
Qed.

End SummaryFacts.

(** ** Windows and the range of datetime *)

Lemma checked_minus_days_Ok (t n start : Z) :
  checked_minus_days t n = Ok start ->
  start = minus_days t n /\ (DATETIME_MIN <= start <= DATETIME_MAX)%Z.
Proof.
  unfold checked_minus_days, timedelta_days, datetime_sub, minus_days.
  destruct (Z.abs n <=? 999999999)%Z; [|discriminate]. cbn [bind].
  destruct (DATETIME_MIN <=? t - n * DAY_US)%Z eqn:Hlo; [|discriminate].
  destruct (t - n * DAY_US <=? DATETIME_MAX)%Z eqn:Hhi; [|discriminate].
  intros [= <-]. apply Z.leb_le in Hlo, Hhi. lia.
Qed.

Lemma checked_minus_days_raises (t n : Z) (e : Exn) :
  checked_minus_days t n = Raise e -> e = OverflowError.
Proof.
  unfold checked_minus_days, timedelta_days, datetime_sub.
  destruct (Z.abs n <=? 999999999)%Z; cbn [bind]; [|by intros [= <-]].
  destruct ((DATETIME_MIN <=? t - n * DAY_US)%Z && (t - n * DAY_US <=? DATETIME_MAX)%Z);
    [discriminate|by intros [= <-]].
Qed.

Lemma checked_minus_days_in_range (t n : Z) :
  (Z.abs n <= 999999999)%Z ->
  (DATETIME_MIN <= minus_days t n <= DATETIME_MAX)%Z ->
  checked_minus_days t n = Ok (minus_days t n).
Proof.
  unfold checked_minus_days, timedelta_days, datetime_sub, minus_days.
  intros Hn [Hlo Hhi].
  rewrite (proj2 (Z.leb_le _ _) Hn). cbn [bind].
  by rewrite (proj2 (Z.leb_le _ _) Hlo), (proj2 (Z.leb_le _ _) Hhi).
Qed.

(** The report as called is the report of the window, or the overflow of
    its start. *)
Lemma generate_patient_report_checked_cases utcnow patient_id days db :
  match List.find (fun p => String.eqb (Patient.id p) patient_id) (patients db) with
  | None => ClinicalService.generate_patient_report_checked utcnow patient_id days db
            = Ok None
  | Some _ =>
      match checked_minus_days utcnow days with
      | Ok _ =>
          checked_minus_days utcnow days = Ok (minus_days utcnow days) /\
          ClinicalService.generate_patient_report_checked utcnow patient_id days db
          = ClinicalService.generate_patient_report utcnow patient_id days db
      | Raise e =>
          e = OverflowError /\
          ClinicalService.generate_patient_report_checked utcnow patient_id days db
          = Raise OverflowError
      end
  end.
Proof.
  unfold ClinicalService.generate_patient_report_checked.
  destruct (List.find _ (patients db)); [|reflexivity].
  destruct (checked_minus_days utcnow days) as [start|e] eqn:E.
  - split; [|reflexivity]. by destruct (checked_minus_days_Ok _ _ _ E) as [-> _].
  - pose proof (checked_minus_days_raises _ _ _ E) as ->. by split.
Qed.

(** C8, counterexample. A known patient without any data and a window of
    a million days, which would start before year 1: the report raises
    OverflowError instead of returning the no-data result. *)
Lemma report_raises_on_long_window :
  let maria := Patient.mk "p1" 10 "Maria" "Garcia" ACTIVE (Some "high") in
  let db := mkDatabase [maria] [] [] [] [] [] [] in
  wearable_since (minus_days (noon 20000) 1000000) "p1" db = [] /\
  ClinicalService.generate_patient_report_checked (noon 20000) "p1" 1000000 db
  = Raise OverflowError /\
  ~ (forall utcnow patient_id days db,
       exists report,
         ClinicalService.generate_patient_report_checked utcnow patient_id days db
         = Ok report).
Proof.
  split; [reflexivity|]. split; [vm_compute; reflexivity|].
  intros Hall.
  destruct (Hall (noon 20000) "p1" 1000000%Z
              (mkDatabase [Patient.mk "p1" 10 "Maria" "Garcia" ACTIVE (Some "high")]
                          [] [] [] [] [] [])) as [report Hreport].
  vm_compute in Hreport. discriminate.
Qed.

(** C8, as amended. The patient report and the dashboard health summary
    never divide by zero, and the only exception the report raises is the
    OverflowError of a window whose start is not a datetime, raised for a
    known patient before anything is read; for every window whose start is
    a datetime the report returns. Over an empty window the report (of a
    known patient) has zero data points and [None] for both averages; the
    health summary never raises, has zero data points and zero average
    steps, which the dashboard prints as "No data", and no latest heart
    rate when the patient has no resting-heart-rate biomarker. *)
Theorem summaries_tolerate_missing_data (utcnow : Z) (patient_id : string)
    (days : Z) (db : Database) :
  match ClinicalService.generate_patient_report_checked utcnow patient_id days db with
  | Ok None =>
      List.find (fun p => String.eqb (Patient.id p) patient_id) (patients db) = None
  | Ok (Some r) =>
      checked_minus_days utcnow days = Ok (minus_days utcnow days) /\
      let window := wearable_since (minus_days utcnow days) patient_id db in
      ClinicalService.data_points (ClinicalService.summary r) = length window /\
      (window = [] ->
       ClinicalService.average_heart_rate (ClinicalService.summary r) = None /\
       ClinicalService.average_hrv (ClinicalService.summary r) = None)
  | Raise e =>
      e = OverflowError /\
      List.find (fun p => String.eqb (Patient.id p) patient_id) (patients db) <> None /\
      checked_minus_days utcnow days = Raise OverflowError
  end /\
  ((Z.abs days <= 999999999)%Z ->
   (DATETIME_MIN <= minus_days utcnow days <= DATETIME_MAX)%Z ->
   exists report,
     ClinicalService.generate_patient_report_checked utcnow patient_id days db
     = Ok report) /\
  (exists s,
     DatabaseService.get_patient_health_summary utcnow patient_id db = Ok s /\
     let week := DatabaseService.get_patient_wearable_data utcnow patient_id 7 db in
     DatabaseService.data_points_count s = length week /\
     (week = [] ->
      DatabaseService.recent_activity s = 0%Q /\
      DatabaseService.shown_avg_steps s = None) /\
     (Forall (fun b => CalculatedBiomarker.patient_id b <> patient_id) (biomarkers db) ->
      DatabaseService.latest_heart_rate s = None /\
      DatabaseService.shown_resting_hr s = None)).
Proof.
  assert (Hreport : exists report,
    ClinicalService.generate_patient_report utcnow patient_id days db = Ok report /\
    match report with
    | None =>
        List.find (fun p => String.eqb (Patient.id p) patient_id) (patients db) = None
    | Some r =>
        let window := wearable_since (minus_days utcnow days) patient_id db in
        ClinicalService.data_points (ClinicalService.summary r) = length window /\
        (window = [] ->
         ClinicalService.average_heart_rate (ClinicalService.summary r) = None /\
         ClinicalService.average_hrv (ClinicalService.summary r) = None)
    end).
  { unfold ClinicalService.generate_patient_report.
    destruct (List.find _ (patients db)) as [patient|] eqn:Hfind.
    + fold (wearable_since (minus_days utcnow days) patient_id db).
      destruct (wearable_since (minus_days utcnow days) patient_id db) as [|w ws] eqn:Hw.
      * eexists. split; [reflexivity|]. simpl. done.
      * rewrite !mean_if_any_ok. eexists. split; [reflexivity|]. simpl. done.
    + eexists. split; [reflexivity|]. done. }
  destruct Hreport as (report & Hrun & Hshape).
  pose proof (generate_patient_report_checked_cases utcnow patient_id days db) as Hcases.
  split; [|split].
  - destruct (List.find (fun p => String.eqb (Patient.id p) patient_id) (patients db))
      as [patient|] eqn:Hfind.
    + destruct (checked_minus_days utcnow days) as [start|e] eqn:E.
      * destruct Hcases as [Hstart ->]. rewrite Hrun.
        destruct report as [r|]; [|discriminate]. by split.
      * destruct Hcases as [-> ->]. by split.
    + by rewrite Hcases.
  - intros Hdays Hrange.
    rewrite (checked_minus_days_in_range utcnow days Hdays Hrange) in Hcases.
    destruct (List.find (fun p => String.eqb (Patient.id p) patient_id) (patients db)).
    + destruct Hcases as [_ ->]. by exists report.
    + by exists None.
  - unfold DatabaseService.get_patient_health_summary.
    rewrite py_truediv_ok by lia.
    eexists. split; [reflexivity|]. cbn zeta. split; [reflexivity|]. split.
    + intros Hweek. cbn [DatabaseService.recent_activity DatabaseService.shown_avg_steps].
      rewrite Hweek. split; reflexivity.
    + intros Hnone. cbn [DatabaseService.latest_heart_rate DatabaseService.shown_resting_hr].
      assert (Hf : List.filter (fun b =>
                String.eqb (CalculatedBiomarker.patient_id b) patient_id
                && bool_decide (CalculatedBiomarker.biomarker_type b = RESTING_HR))
                (biomarkers db) = []).
      { induction Hnone as [|b bs Hb _ IH]; [reflexivity|]. simpl.
        destruct (String.eqb (CalculatedBiomarker.patient_id b) patient_id) eqn:E.
        - apply eqb_eq_str in E. contradiction.
        - exact IH. }
      rewrite Hf. split; reflexivity.
Qed.

(** A known patient without any data: the report and the summary are the
    explicit "no data" values. *)
Example summaries_of_patient_without_data :
  let maria := Patient.mk "p1" 10 "Maria" "Garcia" ACTIVE (Some "high") in
  let db := mkDatabase [maria] [] [] [] [] [] [] in
  ClinicalService.generate_patient_report (noon 20000) "p1" 30 db =
    Ok (Some (ClinicalService.mkPatientReport maria
                (ClinicalService.mkReportSummary 30 0 0 None None 0) [] [])) /\
  DatabaseService.get_patient_health_summary (noon 20000) "p1" db =
    Ok (DatabaseService.mkHealthSummary None None 0%Q 0) /\
  ClinicalService.generate_patient_report (noon 20000) "p7" 30 db = Ok None /\
  ClinicalService.generate_patient_report_checked (noon 20000) "p1" 30 db =
    ClinicalService.generate_patient_report (noon 20000) "p1" 30 db /\
  ClinicalService.generate_patient_report_checked (noon 20000) "p7" 1000000 db = Ok None.
Proof. repeat split. Qed.

(** ** The OAuth session *)

Section AuthFacts.
Import FitbitAuth.

(** A refresh the provider answers with a status other than 200 fails and
    leaves the session as it was. *)
Lemma refresh_token_rejected env w token refresh status_code body :
  fitbit_token (session w) = Some token ->
  token !! "refresh_token" = Some refresh ->
  token_endpoint env refresh = Status status_code body ->
  status_code <> 200%Z ->
  refresh_token env w =
  (None, if truthy_J (Some refresh)
         then st_message (TokenRefreshFailed status_code) w else w).
Proof.
  intros Htok Hrefresh Hpost Hcode. unfold refresh_token.
  rewrite Htok, Hrefresh. destruct (truthy_J (Some refresh)); [|reflexivity].
  simpl negb. cbv iota. rewrite Hpost.
  destruct (status_code =? 200)%Z eqn:E; [|reflexivity].
  apply Z.eqb_eq in E. contradiction.
Qed.

(** The test of [get_valid_token], as an inequality. *)
Lemma expires_soon_lt env s :
  expires_soon env s = true <->
  (default 0 (token_expires_at s) - 300 < time_time env)%Q.
Proof. unfold expires_soon. apply Qltb_lt. Qed.

End AuthFacts.

(** C3, counterexample. The cached token expired 1000 seconds ago and the
    provider rejects the refresh with status 400: [get_valid_token] returns
    the expired token, and [get_headers] builds the request headers from
    it; nothing is raised. *)
Lemma stale_token_after_failed_refresh :
  let token : Token :=
    <["access_token" := JStr "old"]> (<["refresh_token" := JStr "r1"]> ∅) in
  let s := mkSessionState (Some token) (Some 1000%Q) (Some true) in
  let env := mkEnv 2000%Q (fun _ => 0%Z) (fun _ => Status 400 None)
                   (fun _ _ => Raised) in
  let w := mkWorld s empty_db [] in
  FitbitAuth.expires_soon env s = true /\
  fst (FitbitAuth.refresh_token env w) = None /\
  fst (FitbitAuth.get_valid_token env w) = Some token /\
  fst (FitbitAuth.get_headers env w) = Ok (Some (JStr "old")) /\
  ui (snd (FitbitAuth.get_valid_token env w)) = [TokenRefreshFailed 400].
Proof. repeat split; vm_compute; reflexivity. Qed.

(** C3, as amended. When the cached token expires in less than 300 seconds
    ([time.time() > expires_at - 300]), [get_valid_token] performs a
    refresh first; if that refresh fails (returns [None]) the cached,
    stale token is what [get_valid_token] returns, in the world the refresh
    left, and no error is raised. A refresh the provider answers with a
    status other than 200 is such a failure. *)
Theorem get_valid_token_falls_back_to_stale (env : Env) (w : World) (token : Token) :
  fitbit_token (session w) = Some token ->
  (default 0 (token_expires_at (session w)) - 300 < time_time env)%Q ->
  (fst (FitbitAuth.refresh_token env w) = None ->
   FitbitAuth.get_valid_token env w
   = (Some token, snd (FitbitAuth.refresh_token env w))) /\
  (forall refresh status_code body,
     token !! "refresh_token" = Some refresh ->
     token_endpoint env refresh = Status status_code body ->
     status_code <> 200%Z ->
     fst (FitbitAuth.get_valid_token env w) = Some token /\
     session (snd (FitbitAuth.get_valid_token env w)) = session w).
Proof.
  intros Htok Hsoon. apply expires_soon_lt in Hsoon.
  assert (Hfall : fst (FitbitAuth.refresh_token env w) = None ->
                  FitbitAuth.get_valid_token env w
                  = (Some token, snd (FitbitAuth.refresh_token env w))).
  { intros Hfail. unfold FitbitAuth.get_valid_token. rewrite Htok, Hsoon.
    destruct (FitbitAuth.refresh_token env w) as [refreshed w'].
    simpl in Hfail. subst refreshed. reflexivity. }
  split; [exact Hfall|].
  intros refresh status_code body Hrefresh Hpost Hcode.
  pose proof (refresh_token_rejected env w token refresh status_code body
                Htok Hrefresh Hpost Hcode) as Hrej.
  rewrite Hfall; rewrite Hrej; [|reflexivity]. cbn [fst snd].
  split; [reflexivity|]. by destruct (truthy_J (Some refresh)).
Qed.

(** The amended C3 at the session of the counterexample. *)
Lemma get_valid_token_falls_back_to_stale_witness :
  let token : Token :=
    <["access_token" := JStr "old"]> (<["refresh_token" := JStr "r1"]> ∅) in
  let s := mkSessionState (Some token) (Some 1000%Q) (Some true) in
  let env := mkEnv 2000%Q (fun _ => 0%Z) (fun _ => Status 400 None)
                   (fun _ _ => Raised) in
  let w := mkWorld s empty_db [] in
  fst (FitbitAuth.get_valid_token env w) = Some token /\
  session (snd (FitbitAuth.get_valid_token env w)) = session w.
Proof.
  intros token s env w.
  assert (Hsoon : (default 0 (token_expires_at (session w)) - 300 < time_time env)%Q)
    by (vm_compute; reflexivity).
  apply (proj2 (get_valid_token_falls_back_to_stale env w token eq_refl Hsoon)
           (JStr "r1") 400%Z None).
  - vm_compute. reflexivity.
  - reflexivity.
  - discriminate.
Defined.

(** ** The days a sync visits *)

Section SyncDateFacts.







End SyncDateFacts.




(** ** Fetching with a valid session *)

Section FetchFacts.
Import FitbitAuth FitbitDataService.


Lemma get_valid_token_settled env w :
  settled env (session w) = true ->
  get_valid_token env w = (fitbit_token (session w), w).
Proof.
  unfold settled, get_valid_token.
  destruct (fitbit_token (session w)) as [token|]; [|reflexivity].
  intros H. apply negb_true_iff in H. by rewrite H.
Qed.

Lemma authorized_settled env s bearer :
  authorized_as env s = Some bearer -> settled env s = true.
Proof.
  unfold authorized_as, settled. destruct (fitbit_token s); [|discriminate].
  destruct (negb (expires_soon env s)); simpl; [reflexivity|discriminate].
Qed.

Lemma get_headers_authorized env w bearer :
  authorized_as env (session w) = Some bearer ->
  get_headers env w = (Ok (Some bearer), w).
Proof.
  intros Hauth. unfold get_headers.
  rewrite get_valid_token_settled by (by eapply authorized_settled).
  unfold authorized_as in Hauth.
  destruct (fitbit_token (session w)) as [token|]; [|discriminate].
  destruct (negb (expires_soon env (session w))); simpl in Hauth; [|discriminate].
  destruct (negb (bool_decide (token = ∅))) eqn:Ht; [|discriminate].
  simpl. by rewrite Ht, Hauth.
Qed.

(** With a valid session a call raises nothing: it returns the decoded
    body, or prints the message of the failure and returns [None]. *)
Lemma make_api_call_authorized env w bearer endpoint :
  authorized_as env (session w) = Some bearer ->
  make_api_call env endpoint w =
  match failure_message (api env bearer endpoint) with
  | Some m => (Ok None, st_message m w)
  | None =>
      (Ok (match api env bearer endpoint with
           | Status _ body => body
           | Raised => None
           end), w)
  end.
Proof.
  intros Hauth. unfold make_api_call, bindM.
  rewrite (get_headers_authorized _ _ _ Hauth). unfold failure_message.
  destruct (api env bearer endpoint) as [|code body]; [reflexivity|].
  destruct (code =? 200)%Z; [by destruct body|].
  destruct (code =? 401)%Z; [reflexivity|].
  by destruct (code =? 429)%Z.
Qed.

Lemma make_api_call_failure env w bearer endpoint m :
  authorized_as env (session w) = Some bearer ->
  failure_message (api env bearer endpoint) = Some m ->
  make_api_call env endpoint w = (Ok None, st_message m w).
Proof.
  intros Hauth Hfail. rewrite (make_api_call_authorized _ _ bearer) by done.
  by rewrite Hfail.
Qed.

(** Without a token nothing is requested. *)
Lemma make_api_call_no_token env w endpoint :
  fitbit_token (session w) = None ->
  make_api_call env endpoint w = (Ok None, st_message NotAuthenticated w).
Proof.
  intros Hnone. unfold make_api_call, bindM, get_headers, get_valid_token.
  by rewrite Hnone.
Qed.

(** A day on which the three fetches fail: three messages, nothing stored,
    nothing raised, the count unchanged. *)
Lemma sync_date_data_all_failed env patient_id w bearer date now saved m1 m2 m3 :
  authorized_as env (session w) = Some bearer ->
  failure_message (api env bearer (HeartIntraday date)) = Some m1 ->
  failure_message (api env bearer (HeartDaily date)) = Some m2 ->
  failure_message (api env bearer (Activities date)) = Some m3 ->
  App.sync_date_data env patient_id date now saved w =
  (Ok saved, mkWorld (session w) (db w) (ui w ++ [m1; m2; m3])).
Proof.
  intros Hauth H1 H2 H3.
  unfold App.sync_date_data, get_heart_rate_intraday, get_resting_heart_rate,
    get_activity_summary, bindM.
  rewrite (make_api_call_failure _ _ bearer _ m1) by done. cbn [ret].
  rewrite (make_api_call_failure _ _ bearer _ m2) by done. cbn [ret].
  rewrite (make_api_call_failure _ _ bearer _ m3) by done. cbn [ret].
  unfold st_message. simpl. by rewrite <- !app_assoc.
Qed.

End FetchFacts.

(** C7, counterexample. Every request about today is answered 401 and the
    other days are served: the sync of two days stores yesterday's rows all
    the same, prints the 401 message three times and ends with its success
    message; nothing is returned besides, and nothing stopped the loop. *)
Lemma sync_continues_after_401 :
  let w := App.sync_real_fitbit_data env_expired_today "p1" 2 sample_world in
  ui w = [AuthenticationExpired; AuthenticationExpired; AuthenticationExpired;
          SyncSuccess 2] /\
  map WearableData.timestamp (wearable_data (db w))
  = [(strptime 19999 + 28800000000)%Z; strptime 19999] /\
  map CalculatedBiomarker.value (biomarkers (db w)) = [62%Q].
Proof. repeat split; vm_compute; reflexivity. Qed.

(** C7, as amended. With a valid session, a fetch that fails, by a 401 as
    by any other status, a network error or an undecodable body, prints its
    message and yields [None] without raising; a day whose three fetches
    fail leaves three messages, stores nothing, and the loop goes on with
    the remaining days as it would have. Without a token a fetch prints
    "Not authenticated" and yields [None] likewise. The message of a 401 is
    its own, different from the one of a 429 or of another status; the sync
    has no collection of errors to return. *)
Theorem fetch_failures_do_not_stop_sync (env : Env) (patient_id : string)
    (w : World) (bearer : JVal) (day_offset : nat) (rest : list nat)
    (saved : nat) (m1 m2 m3 : UiMsg) :
  authorized_as env (session w) = Some bearer ->
  failure_message (api env bearer (HeartIntraday (sync_date env day_offset))) = Some m1 ->
  failure_message (api env bearer (HeartDaily (sync_date env day_offset))) = Some m2 ->
  failure_message (api env bearer (Activities (sync_date env day_offset))) = Some m3 ->
  for_each (App.sync_day env patient_id) (day_offset :: rest) saved w =
  for_each (App.sync_day env patient_id) rest saved
    (mkWorld (session w) (db w) (ui w ++ [m1; m2; m3])) /\
  (forall endpoint m,
     failure_message (api env bearer endpoint) = Some m ->
     FitbitDataService.make_api_call env endpoint w = (Ok None, st_message m w)) /\
  (forall endpoint w0,
     fitbit_token (session w0) = None ->
     FitbitDataService.make_api_call env endpoint w0
     = (Ok None, st_message NotAuthenticated w0)) /\
  (forall body status_code,
     failure_message (Status 401 body) = Some AuthenticationExpired /\
     failure_message (Status 429 body) = Some RateLimitExceeded /\
     (failure_message (Status status_code body) = Some AuthenticationExpired
      <-> status_code = 401%Z)).
Proof.
  intros Hauth H1 H2 H3. split; [|split; [|split]].
  - cbn [for_each]. unfold bindM at 1. unfold App.sync_day at 1.
    by rewrite (sync_date_data_all_failed _ _ _ bearer _ _ _ m1 m2 m3).
  - intros endpoint m Hm. by apply (make_api_call_failure _ _ bearer).
  - intros endpoint w0 Hnone. by apply make_api_call_no_token.
  - intros body status_code. split; [reflexivity|]. split; [reflexivity|].
    unfold failure_message.
    destruct (status_code =? 200)%Z eqn:E200.
    { apply Z.eqb_eq in E200. subst. destruct body; split; intros; discriminate. }
    destruct (status_code =? 401)%Z eqn:E401.
    { apply Z.eqb_eq in E401. by subst. }
    apply Z.eqb_neq in E401.
    destruct (status_code =? 429)%Z; split; intros; (discriminate || contradiction).
Qed.

(** The amended C7 where today's requests are answered 401. *)
Lemma fetch_failures_do_not_stop_sync_witness :
  for_each (App.sync_day env_expired_today "p1") [0; 1] 0 sample_world =
  for_each (App.sync_day env_expired_today "p1") [1] 0
    (mkWorld (session sample_world) (db sample_world)
       (ui sample_world ++ [AuthenticationExpired; AuthenticationExpired;
                            AuthenticationExpired])).
Proof.
  apply (fetch_failures_do_not_stop_sync env_expired_today "p1" sample_world
           (JStr "bearer-1") 0 [1] 0
           AuthenticationExpired AuthenticationExpired AuthenticationExpired).
  - vm_compute. reflexivity.
  - vm_compute. reflexivity.
  - vm_compute. reflexivity.
  - vm_compute. reflexivity.
Defined.

(** ** What a sync writes *)

Section AppendFacts.
Import FitbitAuth FitbitDataService.

Lemma append_rows_nil (d : Database) : append_rows [] [] d = d.
Proof. destruct d. unfold append_rows. simpl. by rewrite !app_nil_r. Qed.

Lemma append_rows_app rw1 rb1 rw2 rb2 (d : Database) :
  append_rows rw2 rb2 (append_rows rw1 rb1 d) = append_rows (rw1 ++ rw2) (rb1 ++ rb2) d.
Proof. unfold append_rows. simpl. by rewrite !app_assoc. Qed.

(** The token functions read the session only. *)
Lemma refresh_token_frame env s d u :
  refresh_token env (mkWorld s d u) =
  let base := refresh_token env (mkWorld s empty_db []) in
  (fst base, mkWorld (session (snd base)) d (u ++ ui (snd base))).
Proof.
  unfold refresh_token. cbn [session].
  destruct (fitbit_token s) as [token|]; [|by cbn; rewrite app_nil_r].
  destruct (token !! "refresh_token") as [refresh|]; [|by cbn; rewrite app_nil_r].
  destruct (negb (truthy_J (Some refresh))); [by cbn; rewrite app_nil_r|].
  destruct (token_endpoint env refresh) as [|code body]; [reflexivity|].
  destruct (code =? 200)%Z; [|reflexivity].
  destruct body as [new_token|]; [|reflexivity].
  destruct (expiry_after (time_time env) new_token);
    cbn; rewrite ?app_nil_r; reflexivity.
Qed.

Lemma get_valid_token_frame env s d u :
  get_valid_token env (mkWorld s d u) =
  let base := get_valid_token env (mkWorld s empty_db []) in
  (fst base, mkWorld (session (snd base)) d (u ++ ui (snd base))).
Proof.
  unfold get_valid_token. cbn [session].
  destruct (fitbit_token s) as [token|]; [|by cbn; rewrite app_nil_r].
  destruct (expires_soon env s); [|by cbn; rewrite app_nil_r].
  rewrite (refresh_token_frame env s d u). cbv zeta.
  destruct (refresh_token env (mkWorld s empty_db [])) as [refreshed w']. reflexivity.
Qed.

Lemma get_headers_frame env s d u :
  get_headers env (mkWorld s d u) =
  let base := get_headers env (mkWorld s empty_db []) in
  (fst base, mkWorld (session (snd base)) d (u ++ ui (snd base))).
Proof.
  unfold get_headers. rewrite (get_valid_token_frame env s d u). cbv zeta.
  destruct (get_valid_token env (mkWorld s empty_db [])) as [token w']. simpl.
  destruct (truthy_token token); [|reflexivity].
  destruct (default ∅ token !! "access_token"); reflexivity.
Qed.

Context (env : Env).

Lemma appends_ret {A : Type} (a : A) : appends_only env (ret a).
Proof.
  intros s. exists (Ok a), s, [], [], []. split; [|done].
  intros d u. unfold ret. by rewrite append_rows_nil, app_nil_r.
Qed.

Lemma appends_raise {A : Type} (e : Exn) : appends_only env (@raise A e).
Proof.
  intros s. exists (Raise e), s, [], [], []. split; [|done].
  intros d u. unfold raise. by rewrite append_rows_nil, app_nil_r.
Qed.

Lemma appends_message (m : UiMsg) : appends_only env (modify (st_message m)).
Proof.
  intros s. exists (Ok tt), s, [], [], [m]. split; [|done].
  intros d u. unfold modify, st_message. simpl. by rewrite append_rows_nil.
Qed.

Lemma appends_save_wearable (row : WearableData.t) :
  appends_only env (App.save_wearable row).
Proof.
  intros s. exists (Ok tt), s, [row], [], []. split; [|done].
  intros [] u. unfold App.save_wearable, modify, set_db, append_rows. simpl.
  by rewrite !app_nil_r.
Qed.

Lemma appends_save_biomarker (row : CalculatedBiomarker.t) :
  appends_only env (App.save_biomarker row).
Proof.
  intros s. exists (Ok tt), s, [], [row], []. split; [|done].
  intros [] u. unfold App.save_biomarker, modify, set_db, append_rows. simpl.
  by rewrite !app_nil_r.
Qed.

Lemma appends_get_headers : appends_only env (get_headers env).
Proof.
  intros s.
  exists (fst (get_headers env (mkWorld s empty_db []))),
         (session (snd (get_headers env (mkWorld s empty_db [])))), [], [],
         (ui (snd (get_headers env (mkWorld s empty_db [])))).
  split.
  - intros d u. rewrite (get_headers_frame env s d u). cbv zeta.
    by rewrite append_rows_nil.
  - intros Hs. unfold get_headers.
    rewrite (get_valid_token_settled env (mkWorld s empty_db [])) by done. simpl.
    destruct (truthy_token (fitbit_token s)); [|reflexivity].
    by destruct (default ∅ (fitbit_token s) !! "access_token").
Qed.

Lemma appends_bind {A B : Type} (m : M A) (k : A -> M B) :
  appends_only env m -> (forall a, appends_only env (k a)) ->
  appends_only env (bindM m k).
Proof.
  intros Hm Hk s. destruct (Hm s) as (r & s1 & rw1 & rb1 & msgs1 & Hrun1 & Hs1).
  destruct r as [a|e].
  - destruct (Hk a s1) as (r2 & s2 & rw2 & rb2 & msgs2 & Hrun2 & Hs2).
    exists r2, s2, (rw1 ++ rw2), (rb1 ++ rb2), (msgs1 ++ msgs2). split.
    + intros d u. unfold bindM. rewrite Hrun1, Hrun2.
      by rewrite append_rows_app, app_assoc.
    + intros Hs. rewrite Hs2; rewrite (Hs1 Hs); done.
  - exists (Raise e), s1, rw1, rb1, msgs1. split; [|done].
    intros d u. unfold bindM. by rewrite Hrun1.
Qed.

Lemma appends_for_each {A S : Type} (body : S -> A -> M S) (l : list A) (acc : S) :
  (forall acc x, appends_only env (body acc x)) ->
  appends_only env (for_each body l acc).
Proof.
  intros Hbody. revert acc. induction l as [|x l IH]; intros acc; simpl.
  - apply appends_ret.
  - apply appends_bind; [apply Hbody|apply IH].
Qed.

End AppendFacts.

(** Decompose a computation along its binds and case distinctions. *)
Ltac appends :=
  repeat first
    [ apply appends_ret
    | apply appends_raise
    | apply appends_message
    | apply appends_save_wearable
    | apply appends_save_biomarker
    | apply appends_get_headers
    | apply appends_for_each; intros ? ?
    | apply appends_bind; [|intros ?]
    | match goal with
      | |- appends_only _ (match ?x with _ => _ end) => destruct x
      end ].

Section SyncAppendFacts.
Import FitbitDataService.

Context (env : Env).

Lemma appends_make_api_call endpoint : appends_only env (make_api_call env endpoint).
Proof. unfold make_api_call. appends. Qed.

Lemma appends_get_heart_rate_intraday date :
  appends_only env (get_heart_rate_intraday env date).
Proof.
  unfold get_heart_rate_intraday, _parse_heart_rate_data.
  apply appends_bind; [apply appends_make_api_call|intros ?]. appends.
Qed.

Lemma appends_get_resting_heart_rate date :
  appends_only env (get_resting_heart_rate env date).
Proof.
  unfold get_resting_heart_rate.
  apply appends_bind; [apply appends_make_api_call|intros ?]. appends.
Qed.

Lemma appends_sync_date_data patient_id date now saved :
  appends_only env (App.sync_date_data env patient_id date now saved).
Proof.
  unfold App.sync_date_data, get_activity_summary.
  apply appends_bind; [apply appends_get_heart_rate_intraday|intros hr_data].
  apply appends_bind; [appends|intros saved'].
  apply appends_bind; [apply appends_get_resting_heart_rate|intros resting_hr].
  apply appends_bind; [appends|intros _].
  apply appends_bind; [apply appends_make_api_call|intros activity]. appends.
Qed.

Lemma appends_sync_loop patient_id days :
  appends_only env (for_each (App.sync_day env patient_id) (range days) 0).
Proof.
  apply appends_for_each. intros acc i. apply appends_sync_date_data.
Qed.

End SyncAppendFacts.

Section SyncTwice.

(** One run, seen from the store: it appends, and what it appends is what
    it would write to an empty store. A settled session comes back as it
    was. *)
Lemma sync_appends env patient_id days w :
  let batch :=
    db (App.sync_real_fitbit_data env patient_id days
          (mkWorld (session w) empty_db [])) in
  let w1 := App.sync_real_fitbit_data env patient_id days w in
  db w1 = append_rows (wearable_data batch) (biomarkers batch) (db w) /\
  (settled env (session w) = true -> session w1 = session w).
Proof.
  destruct w as [s d u]. cbn [session db].
  destruct (appends_sync_loop env patient_id days s)
    as (r & s' & rw & rb & msgs & Hrun & Hs).
  unfold App.sync_real_fitbit_data. rewrite !Hrun.
  destruct r as [saved|e]; (split; [reflexivity|exact Hs]).
Qed.

Lemma NoDup_app_twice {A : Type} (l r : list A) :
  r <> [] -> ~ List.NoDup (l ++ r ++ r).
Proof.
  destruct r as [|x r]; [done|]. intros _ Hnd.
  apply List.NoDup_app_remove_l in Hnd. simpl in Hnd.
  apply List.NoDup_cons_iff in Hnd as [Hnotin _].
  apply Hnotin. apply in_or_app. right. by left.
Qed.

End SyncTwice.

(** ** Two runs against the same provider *)

Section RunsAlike.
Import FitbitAuth FitbitDataService.

Context (env1 env2 : Env).
Hypothesis same_api : api env2 = api env1.

(** A computation that appends, run in the second environment as in the
    first. *)
Lemma alike_same {A : Type} (m1 m2 : M A) :
  appends_only env1 m1 ->
  (forall s d u, settled env1 s = true -> settled env2 s = true ->
     m2 (mkWorld s d u) = m1 (mkWorld s d u)) ->
  runs_alike env1 env2 m1 m2.
Proof.
  intros Hm Heq s Hs1 Hs2.
  destruct (Hm s) as (r & s' & rw & rb & msgs & Hrun & Hs).
  rewrite (Hs Hs1) in Hrun.
  exists r, rw, rb, rb, msgs. split; [exact Hrun|]. split; [|reflexivity].
  intros d u. rewrite Heq by done. apply Hrun.
Qed.

Lemma alike_refl {A : Type} (m : M A) :
  appends_only env1 m -> runs_alike env1 env2 m m.
Proof. intros Hm. apply alike_same; [exact Hm|done]. Qed.

Lemma alike_bind {A B : Type} (m1 m2 : M A) (k1 k2 : A -> M B) :
  runs_alike env1 env2 m1 m2 ->
  (forall a, runs_alike env1 env2 (k1 a) (k2 a)) ->
  runs_alike env1 env2 (bindM m1 k1) (bindM m2 k2).
Proof.
  intros Hm Hk s Hs1 Hs2.
  destruct (Hm s Hs1 Hs2) as (r & rw & rb1 & rb2 & msgs & Hrun1 & Hrun2 & Hrb).
  destruct r as [a|e].
  - destruct (Hk a s Hs1 Hs2) as (r' & rw' & rb1' & rb2' & msgs' & Hk1 & Hk2 & Hrb').
    exists r', (rw ++ rw'), (rb1 ++ rb1'), (rb2 ++ rb2'), (msgs ++ msgs').
    split; [|split].
    + intros d u. unfold bindM. rewrite Hrun1, Hk1.
      by rewrite append_rows_app, app_assoc.
    + intros d u. unfold bindM. rewrite Hrun2, Hk2.
      by rewrite append_rows_app, app_assoc.
    + by rewrite !map_app, Hrb, Hrb'.
  - exists (Raise e), rw, rb1, rb2, msgs. split; [|split; [|exact Hrb]].
    + intros d u. unfold bindM. by rewrite Hrun1.
    + intros d u. unfold bindM. by rewrite Hrun2.
Qed.

Lemma alike_for_each {A S : Type} (body1 body2 : S -> A -> M S) (l : list A) (acc : S) :
  (forall acc x, In x l -> runs_alike env1 env2 (body1 acc x) (body2 acc x)) ->
  runs_alike env1 env2 (for_each body1 l acc) (for_each body2 l acc).
Proof.
  revert acc. induction l as [|x l IH]; intros acc Hbody; simpl.
  - apply alike_refl, appends_ret.
  - apply alike_bind; [apply Hbody; by left|].
    intros acc'. apply IH. intros acc'' y Hy. apply Hbody. by right.
Qed.

(** A session that needs no refresh yields the same headers in both
    runs, and the provider then gives the same answer. *)
Lemma make_api_call_same_answers endpoint s d u :
  settled env1 s = true -> settled env2 s = true ->
  make_api_call env2 endpoint (mkWorld s d u)
  = make_api_call env1 endpoint (mkWorld s d u).
Proof.
  intros Hs1 Hs2. unfold make_api_call, bindM, get_headers.
  rewrite (get_valid_token_settled env1 (mkWorld s d u)) by done.
  rewrite (get_valid_token_settled env2 (mkWorld s d u)) by done.
  by rewrite same_api.
Qed.

Lemma alike_make_api_call endpoint :
  runs_alike env1 env2 (make_api_call env1 endpoint) (make_api_call env2 endpoint).
Proof.
  apply alike_same; [apply appends_make_api_call|].
  intros s d u Hs1 Hs2. by apply make_api_call_same_answers.
Qed.

Lemma alike_get_heart_rate_intraday date :
  runs_alike env1 env2 (get_heart_rate_intraday env1 date)
                       (get_heart_rate_intraday env2 date).
Proof.
  unfold get_heart_rate_intraday.
  apply alike_bind; [apply alike_make_api_call|intros data].
  apply alike_refl. unfold _parse_heart_rate_data. appends.
Qed.

Lemma alike_get_resting_heart_rate date :
  runs_alike env1 env2 (get_resting_heart_rate env1 date)
                       (get_resting_heart_rate env2 date).
Proof.
  unfold get_resting_heart_rate.
  apply alike_bind; [apply alike_make_api_call|intros data].
  apply alike_refl. appends.
Qed.

Lemma alike_save_biomarker (b1 b2 : CalculatedBiomarker.t) :
  biomarker_content b2 = biomarker_content b1 ->
  runs_alike env1 env2 (App.save_biomarker b1) (App.save_biomarker b2).
Proof.
  intros Hb s _ _. exists (Ok tt), [], [b1], [b2], [].
  split; [|split].
  - intros [] u. unfold App.save_biomarker, modify, set_db, append_rows. simpl.
    by rewrite !app_nil_r.
  - intros [] u. unfold App.save_biomarker, modify, set_db, append_rows. simpl.
    by rewrite !app_nil_r.
  - simpl. by rewrite Hb.
Qed.

(** The body of the loop for one day: the two runs differ in the stamp of
    the resting heart rate only. *)
Lemma alike_sync_date_data patient_id date now1 now2 saved :
  runs_alike env1 env2 (App.sync_date_data env1 patient_id date now1 saved)
                       (App.sync_date_data env2 patient_id date now2 saved).
Proof.
  unfold App.sync_date_data, get_activity_summary.
  apply alike_bind; [apply alike_get_heart_rate_intraday|intros hr_data].
  apply alike_bind; [apply alike_refl; appends|intros saved'].
  apply alike_bind; [apply alike_get_resting_heart_rate|intros resting_hr].
  apply alike_bind.
  - destruct resting_hr as [v|]; [|apply alike_refl, appends_ret].
    destruct (truthy_Q (Some v)); [|apply alike_refl, appends_ret].
    by apply alike_save_biomarker.
  - intros _. apply alike_bind; [apply alike_make_api_call|intros activity].
    apply alike_refl. appends.
Qed.

Lemma alike_sync_loop patient_id days :
  (forall i, i < Z.to_nat days -> sync_date env2 i = sync_date env1 i) ->
  runs_alike env1 env2 (for_each (App.sync_day env1 patient_id) (range days) 0)
                       (for_each (App.sync_day env2 patient_id) (range days) 0).
Proof.
  intros Hdates. apply alike_for_each. intros acc i Hi.
  unfold App.sync_day. rewrite (Hdates i); [apply alike_sync_date_data|].
  unfold range in Hi. apply in_seq in Hi. lia.
Qed.

(** The second of two runs, seen from the empty store. *)
Lemma second_run_alike patient_id days s :
  settled env1 s = true -> settled env2 s = true ->
  (forall i, i < Z.to_nat days -> sync_date env2 i = sync_date env1 i) ->
  let batch1 := db (App.sync_real_fitbit_data env1 patient_id days
                      (mkWorld s empty_db [])) in
  let batch2 := db (App.sync_real_fitbit_data env2 patient_id days
                      (mkWorld s empty_db [])) in
  wearable_data batch2 = wearable_data batch1 /\
  map biomarker_content (biomarkers batch2) = map biomarker_content (biomarkers batch1).
Proof.
  intros Hs1 Hs2 Hdates.
  destruct (alike_sync_loop patient_id days Hdates s Hs1 Hs2)
    as (r & rw & rb1 & rb2 & msgs & Hrun1 & Hrun2 & Hrb).
  unfold App.sync_real_fitbit_data. rewrite Hrun1, Hrun2.
  destruct r as [saved|e]; (split; [reflexivity|exact Hrb]).
Qed.

End RunsAlike.

(** C6, counterexample. Two syncs of the same day against the same
    provider answers, the second a minute after the first: the first
    stores two wearable rows and a biomarker, the second stores them again;
    the wearable table then has four rows, two for each natural key. *)
Lemma sync_twice_duplicates_rows :
  let w1 := App.sync_real_fitbit_data sample_env "p1" 1 sample_world in
  let w2 := App.sync_real_fitbit_data sample_env_later "p1" 1 w1 in
  length (wearable_data (db w1)) = 2 /\
  length (wearable_data (db w2)) = 4 /\
  wearable_data (db w2) = wearable_data (db w1) ++ wearable_data (db w1) /\
  length (biomarkers (db w1)) = 1 /\
  length (biomarkers (db w2)) = 2 /\
  ~ List.NoDup (map natural_key (wearable_data (db w2))).
Proof.
  repeat split; try (vm_compute; reflexivity).
  intros Hnd.
  assert (Hrows : map natural_key
            (wearable_data (db (App.sync_real_fitbit_data sample_env_later "p1" 1
               (App.sync_real_fitbit_data sample_env "p1" 1 sample_world))))
          = [] ++ map natural_key
                 (wearable_data (db (App.sync_real_fitbit_data sample_env "p1" 1
                                       sample_world)))
               ++ map natural_key
                    (wearable_data (db (App.sync_real_fitbit_data sample_env "p1" 1
                                          sample_world))))
    by (vm_compute; reflexivity).
  rewrite Hrows in Hnd. revert Hnd. apply NoDup_app_twice. vm_compute. discriminate.
Qed.

(** C6, as amended. A sync inserts without looking at the store: a run
    appends to the wearable and biomarker tables the rows it would write to
    an empty store. A second run, at another time, with the same provider
    answers, over the same days and with a session that neither run has to
    refresh, appends the same wearable rows again and the same biomarker
    rows but for their timestamps, which are read from the clock of the
    run; unless nothing was fetched, the wearable table then holds rows
    that agree on their natural key. *)
Theorem sync_twice_stores_rows_twice (env1 env2 : Env) (patient_id : string)
    (days : Z) (w : World) :
  settled env1 (session w) = true ->
  settled env2 (session w) = true ->
  api env2 = api env1 ->
  (forall i, i < Z.to_nat days -> sync_date env2 i = sync_date env1 i) ->
  let batch1 :=
    db (App.sync_real_fitbit_data env1 patient_id days
          (mkWorld (session w) empty_db [])) in
  let batch2 :=
    db (App.sync_real_fitbit_data env2 patient_id days
          (mkWorld (session w) empty_db [])) in
  let w1 := App.sync_real_fitbit_data env1 patient_id days w in
  let w2 := App.sync_real_fitbit_data env2 patient_id days w1 in
  wearable_data (db w1) = wearable_data (db w) ++ wearable_data batch1 /\
  biomarkers (db w1) = biomarkers (db w) ++ biomarkers batch1 /\
  wearable_data (db w2)
  = wearable_data (db w) ++ wearable_data batch1 ++ wearable_data batch1 /\
  biomarkers (db w2) = biomarkers (db w) ++ biomarkers batch1 ++ biomarkers batch2 /\
  map biomarker_content (biomarkers batch2)
  = map biomarker_content (biomarkers batch1) /\
  (wearable_data batch1 <> [] ->
   ~ List.NoDup (map natural_key (wearable_data (db w2)))).
Proof.
  intros Hs1 Hs2 Hapi Hdates batch1 batch2 w1 w2.
  destruct (sync_appends env1 patient_id days w) as [Hdb1 Hsession].
  destruct (sync_appends env2 patient_id days w1) as [Hdb2 _].
  fold w1 in Hdb1, Hsession, Hdb2. fold w2 in Hdb2.
  rewrite (Hsession Hs1) in Hdb2. fold batch1 in Hdb1. fold batch2 in Hdb2.
  destruct (second_run_alike env1 env2 Hapi patient_id days (session w) Hs1 Hs2 Hdates)
    as [Hrw Hrb].
  fold batch1 batch2 in Hrw, Hrb.
  assert (Hw2 : wearable_data (db w2)
                = wearable_data (db w) ++ wearable_data batch1 ++ wearable_data batch1).
  { rewrite Hdb2, Hdb1. simpl. by rewrite Hrw, app_assoc. }
  split; [by rewrite Hdb1|]. split; [by rewrite Hdb1|]. split; [exact Hw2|].
  split; [rewrite Hdb2, Hdb1; simpl; by rewrite app_assoc|].
  split; [exact Hrb|].
  intros Hbatch. rewrite Hw2, !map_app. apply NoDup_app_twice.
  by destruct (wearable_data batch1).
Qed.

(** The amended C6 for one day of the sample provider, the second run a
    minute after the first: the two biomarker rows differ in their
    timestamps. *)
Lemma sync_twice_stores_rows_twice_witness :
  let batch1 := db (App.sync_real_fitbit_data sample_env "p1" 1 sample_world) in
  let w2 := App.sync_real_fitbit_data sample_env_later "p1" 1
              (App.sync_real_fitbit_data sample_env "p1" 1 sample_world) in
  wearable_data (db w2) = [] ++ wearable_data batch1 ++ wearable_data batch1 /\
  map CalculatedBiomarker.timestamp (biomarkers (db w2))
  = [noon 20000; (noon 20000 + 60000000)%Z] /\
  ~ List.NoDup (map natural_key (wearable_data (db w2))).
Proof.
  assert (Hs1 : settled sample_env (session sample_world) = true)
    by (vm_compute; reflexivity).
  assert (Hs2 : settled sample_env_later (session sample_world) = true)
    by (vm_compute; reflexivity).
  assert (Hdates : forall i, i < Z.to_nat 1 ->
            sync_date sample_env_later i = sync_date sample_env i).
  { intros i Hi. assert (i = 0) as -> by (simpl in Hi; lia). vm_compute. reflexivity. }
  pose proof (sync_twice_stores_rows_twice sample_env sample_env_later "p1" 1
                sample_world Hs1 Hs2 eq_refl Hdates)
    as (_ & _ & Hw2 & _ & _ & Hdup).
  split; [exact Hw2|]. split; [vm_compute; reflexivity|].
  apply Hdup. vm_compute. discriminate.
Defined.

(** * Further properties of the embedded code *)

(** ** The OAuth session, continued *)

Section MoreAuthFacts.
Import FitbitAuth.

(** [get_valid_token] yields a token whenever one is cached. *)
Lemma get_valid_token_present env w :
  present (fst (get_valid_token env w)) = present (fitbit_token (session w)).
Proof.
  unfold get_valid_token.
  destruct (fitbit_token (session w)) as [token|]; [|reflexivity].
  destruct (expires_soon env (session w)); [|reflexivity].
  destruct (refresh_token env w) as [[refreshed|] w']; simpl; [|reflexivity].
  by destruct (negb (bool_decide (refreshed = ∅))).
Qed.

Lemma refresh_token_accepted env w token refresh new_token e :
  fitbit_token (session w) = Some token ->
  token !! "refresh_token" = Some refresh ->
  truthy_J (Some refresh) = true ->
  token_endpoint env refresh = Status 200 (Some new_token) ->
  expiry_after (time_time env) new_token = Ok e ->
  refresh_token env w =
  (Some new_token,
   mkWorld (mkSessionState (Some new_token) (Some e) (fitbit_connected (session w)))
           (db w) (ui w)).
Proof.
  intros Htok Hrefresh Htruthy Hpost He. unfold refresh_token.
  rewrite Htok, Hrefresh, Htruthy. simpl negb. cbv iota. rewrite Hpost.
  simpl Z.eqb. cbv iota. rewrite He. reflexivity.
Qed.

Lemma refresh_token_bad_expiry env w token refresh new_token x :
  fitbit_token (session w) = Some token ->
  token !! "refresh_token" = Some refresh ->
  truthy_J (Some refresh) = true ->
  token_endpoint env refresh = Status 200 (Some new_token) ->
  new_token !! "expires_in" = Some (JStr x) ->
  refresh_token env w =
  (None,
   mkWorld (mkSessionState (Some new_token) (token_expires_at (session w))
              (fitbit_connected (session w)))
           (db w) (ui w ++ [ErrorRefreshingToken])).
Proof.
  intros Htok Hrefresh Htruthy Hpost Hx. unfold refresh_token.
  rewrite Htok, Hrefresh, Htruthy. simpl negb. cbv iota. rewrite Hpost.
  simpl Z.eqb. cbv iota. unfold expiry_after. rewrite Hx. reflexivity.
Qed.

End MoreAuthFacts.

(** X1. [is_authenticated] answers True exactly when the connected flag is
    set and a token is cached: neither the expiry of the token nor the
    outcome of a refresh it triggers changes the answer. *)
Theorem is_authenticated_iff_token_cached (env : Env) (w : World) :
  fst (FitbitAuth.is_authenticated env w) =
  match fitbit_connected (session w) with
  | Some true => present (fitbit_token (session w))
  | _ => false
  end.
Proof.
  unfold FitbitAuth.is_authenticated.
  destruct (fitbit_connected (session w)) as [[|]|]; try reflexivity.
  pose proof (get_valid_token_present env w) as H.
  destruct (FitbitAuth.get_valid_token env w) as [token w']. exact H.
Qed.

(** X2. A refresh the provider accepts (status 200, a token bundle whose
    [expires_in] is a number or is missing) returns the new bundle, stores
    it with the expiry [time.time() + expires_in] (28800 seconds when the
    key is missing) and touches nothing else; if that expiry is at least
    300 seconds away, the next [get_valid_token] returns the new bundle
    without another refresh. *)
Theorem refresh_then_valid (env : Env) (w : World) (token new_token : Token)
    (refresh : JVal) (e : Q) :
  fitbit_token (session w) = Some token ->
  token !! "refresh_token" = Some refresh ->
  truthy_J (Some refresh) = true ->
  token_endpoint env refresh = Status 200 (Some new_token) ->
  FitbitAuth.expiry_after (time_time env) new_token = Ok e ->
  let w' := snd (FitbitAuth.refresh_token env w) in
  fst (FitbitAuth.refresh_token env w) = Some new_token /\
  fitbit_token (session w') = Some new_token /\
  token_expires_at (session w') = Some e /\
  fitbit_connected (session w') = fitbit_connected (session w) /\
  db w' = db w /\ ui w' = ui w /\
  (new_token !! "expires_in" = None -> e = (time_time env + 28800)%Q) /\
  ((time_time env <= e - 300)%Q ->
   FitbitAuth.get_valid_token env w' = (Some new_token, w')).
Proof.
  intros Htok Hrefresh Htruthy Hpost He w'. subst w'.
  rewrite (refresh_token_accepted env w token refresh new_token e) by done.
  cbn [fst snd session db ui fitbit_token token_expires_at fitbit_connected].
  repeat (split; [reflexivity|]). split.
  - intros Hnone. unfold FitbitAuth.expiry_after in He. rewrite Hnone in He.
    simpl in He. congruence.
  - intros Hfar. unfold FitbitAuth.get_valid_token.
    cbn [session fitbit_token].
    destruct (FitbitAuth.expires_soon env _) eqn:Hsoon; [|reflexivity].
    apply expires_soon_lt in Hsoon. simpl in Hsoon.
    exfalso. eapply Qlt_not_le; eassumption.
Qed.

(** X2 at the sample session, one second before the 300-second window of
    its token opens, with a provider that grants a new bundle for an hour. *)
Lemma refresh_then_valid_witness :
  let new_token : Token :=
    <["access_token" := JStr "bearer-2"]> (<["expires_in" := JNum 3600]> ∅) in
  let env := mkEnv 89701%Q (fun _ => noon 20000)
                   (fun _ => Status 200 (Some new_token)) sample_api in
  let w' := snd (FitbitAuth.refresh_token env sample_world) in
  fst (FitbitAuth.refresh_token env sample_world) = Some new_token /\
  token_expires_at (session w') = Some (89701 + 3600)%Q /\
  FitbitAuth.get_valid_token env w' = (Some new_token, w').
Proof.
  intros new_token env.
  assert (He : FitbitAuth.expiry_after (time_time env) new_token
               = Ok (89701 + 3600)%Q) by reflexivity.
  pose proof (refresh_then_valid env sample_world sample_token new_token
                (JStr "refresh-1") (89701 + 3600)%Q
                eq_refl eq_refl eq_refl eq_refl He)
    as (H1 & _ & H3 & _ & _ & _ & _ & H8).
  split; [exact H1|]. split; [exact H3|]. apply H8. vm_compute. discriminate.
Defined.

(** X3. A refresh answered with status 200 and a bundle whose [expires_in]
    is a string fails half-way: it returns [None] and prints the refresh
    error, but the session already holds the new bundle, with the old
    expiry. [get_valid_token] then hands out the old token, which is no
    longer the one the session stores. *)
Theorem refresh_bad_expiry_half_updates (env : Env) (w : World)
    (token new_token : Token) (refresh : JVal) (x : string) :
  fitbit_token (session w) = Some token ->
  token !! "refresh_token" = Some refresh ->
  truthy_J (Some refresh) = true ->
  token_endpoint env refresh = Status 200 (Some new_token) ->
  new_token !! "expires_in" = Some (JStr x) ->
  let w' := snd (FitbitAuth.refresh_token env w) in
  fst (FitbitAuth.refresh_token env w) = None /\
  fitbit_token (session w') = Some new_token /\
  token_expires_at (session w') = token_expires_at (session w) /\
  ui w' = ui w ++ [ErrorRefreshingToken] /\
  (FitbitAuth.expires_soon env (session w) = true ->
   FitbitAuth.get_valid_token env w = (Some token, w')).
Proof.
  intros Htok Hrefresh Htruthy Hpost Hx w'. subst w'.
  rewrite (refresh_token_bad_expiry env w token refresh new_token x) by done.
  cbn [fst snd session ui fitbit_token token_expires_at].
  repeat (split; [reflexivity|]).
  intros Hsoon. unfold FitbitAuth.get_valid_token. rewrite Htok, Hsoon.
  by rewrite (refresh_token_bad_expiry env w token refresh new_token x).
Qed.

(** X3 at the sample session, after its token has expired. *)
Lemma refresh_bad_expiry_half_updates_witness :
  let new_token : Token :=
    <["access_token" := JStr "bearer-2"]> (<["expires_in" := JStr "3600"]> ∅) in
  let env := mkEnv 95000%Q (fun _ => noon 20000)
                   (fun _ => Status 200 (Some new_token)) sample_api in
  fst (FitbitAuth.get_valid_token env sample_world) = Some sample_token /\
  fitbit_token (session (snd (FitbitAuth.get_valid_token env sample_world)))
  = Some new_token.
Proof.
  intros new_token env.
  pose proof (refresh_bad_expiry_half_updates env sample_world sample_token
                new_token (JStr "refresh-1") "3600"
                eq_refl eq_refl eq_refl eq_refl eq_refl)
    as (_ & H2 & _ & _ & H5).
  assert (Hsoon : FitbitAuth.expires_soon env (session sample_world) = true)
    by (vm_compute; reflexivity).
  rewrite (H5 Hsoon). split; [reflexivity|exact H2].
Defined.

(** ** Fetching and the store *)

Section KeepFacts.
Import FitbitAuth FitbitDataService.

Lemma get_headers_db env w : db (snd (get_headers env w)) = db w.
Proof. destruct w as [s d u]. by rewrite (get_headers_frame env s d u). Qed.

Lemma get_headers_raises env w e :
  fst (get_headers env w) = Raise e -> e = KeyError "access_token".
Proof.
  unfold get_headers. destruct (get_valid_token env w) as [token w'].
  destruct (truthy_token token); [|discriminate].
  destruct (default ∅ token !! "access_token"); [discriminate|].
  simpl. congruence.
Qed.

Lemma keeps_ret {A : Type} (a : A) : keeps_db (ret a).
Proof. by intros w. Qed.

Lemma keeps_raise {A : Type} (e : Exn) : keeps_db (@raise A e).
Proof. by intros w. Qed.

Lemma keeps_message (m : UiMsg) : keeps_db (modify (st_message m)).
Proof. by intros w. Qed.

Lemma keeps_get_headers env : keeps_db (get_headers env).
Proof. intros w. apply get_headers_db. Qed.

Lemma keeps_bind {A B : Type} (m : M A) (k : A -> M B) :
  keeps_db m -> (forall a, keeps_db (k a)) -> keeps_db (bindM m k).
Proof.
  intros Hm Hk w. unfold bindM. specialize (Hm w).
  destruct (m w) as [[a|e] w']; simpl in Hm; [|exact Hm].
  by rewrite Hk.
Qed.

Lemma keeps_for_each {A S : Type} (body : S -> A -> M S) (l : list A) (acc : S) :
  (forall acc x, keeps_db (body acc x)) -> keeps_db (for_each body l acc).
Proof.
  intros Hbody. revert acc. induction l as [|x l IH]; intros acc; simpl.
  - apply keeps_ret.
  - apply keeps_bind; [apply Hbody|apply IH].
Qed.

End KeepFacts.

(** Decompose a computation that only fetches and prints. *)
Ltac keeps :=
  repeat first
    [ apply keeps_ret
    | apply keeps_raise
    | apply keeps_message
    | apply keeps_get_headers
    | apply keeps_for_each; intros ? ?
    | apply keeps_bind; [|intros ?]
    | match goal with
      | |- keeps_db (match ?x with _ => _ end) => destruct x
      end ].

Section FetchKeepFacts.
Import FitbitDataService.

Lemma keeps_make_api_call env endpoint : keeps_db (make_api_call env endpoint).
Proof. unfold make_api_call. keeps. Qed.

Lemma keeps_get_heart_rate_intraday env date :
  keeps_db (get_heart_rate_intraday env date).
Proof.
  unfold get_heart_rate_intraday, _parse_heart_rate_data.
  apply keeps_bind; [apply keeps_make_api_call|intros ?]. keeps.
Qed.

Lemma keeps_get_resting_heart_rate env date :
  keeps_db (get_resting_heart_rate env date).
Proof.
  unfold get_resting_heart_rate.
  apply keeps_bind; [apply keeps_make_api_call|intros ?]. keeps.
Qed.

Lemma make_api_call_raises env endpoint w e :
  fst (make_api_call env endpoint w) = Raise e -> e = KeyError "access_token".
Proof.
  unfold make_api_call, bindM. intros H.
  pose proof (get_headers_raises env w) as Hh.
  destruct (FitbitAuth.get_headers env w) as [[headers|e'] w'].
  - exfalso. destruct headers as [bearer|]; [|discriminate].
    destruct (api env bearer endpoint) as [|code [body|]]; simpl in H;
      try discriminate;
      destruct (code =? 200)%Z; try discriminate;
      destruct (code =? 401)%Z; try discriminate;
      destruct (code =? 429)%Z; discriminate.
  - simpl in H. injection H as <-. by apply Hh.
Qed.

End FetchKeepFacts.

(** X4. Fetching never writes: [make_api_call], [get_heart_rate_intraday]
    and [get_resting_heart_rate] leave the store as it is for every session
    and every answer of the provider, and the only exception
    [make_api_call] lets through is the [KeyError] of a token bundle
    without ["access_token"]. *)
Theorem fetches_never_write (env : Env) (endpoint : Endpoint) (date : Z) (w : World) :
  db (snd (FitbitDataService.make_api_call env endpoint w)) = db w /\
  db (snd (FitbitDataService.get_heart_rate_intraday env date w)) = db w /\
  db (snd (FitbitDataService.get_resting_heart_rate env date w)) = db w /\
  db (snd (FitbitDataService.get_activity_summary env date w)) = db w /\
  match fst (FitbitDataService.make_api_call env endpoint w) with
  | Ok _ => True
  | Raise e => e = KeyError "access_token"
  end.
Proof.
  split; [apply keeps_make_api_call|].
  split; [apply keeps_get_heart_rate_intraday|].
  split; [apply keeps_get_resting_heart_rate|].
  split; [apply keeps_make_api_call|].
  pose proof (make_api_call_raises env endpoint w) as H.
  destruct (fst (FitbitDataService.make_api_call env endpoint w)) as [r|e]; [done|].
  by apply H.
Qed.

(** X5. The pipeline only collects: [sync_fitbit_data] leaves the store as
    it is, whatever it returns or raises. *)
Theorem pipeline_never_writes (env : Env) (days : Z) (w : World) :
  db (snd (EnhancedWearablePipeline.sync_fitbit_data env days w)) = db w.
Proof.
  revert w. change (keeps_db (EnhancedWearablePipeline.sync_fitbit_data env days)).
  unfold EnhancedWearablePipeline.sync_fitbit_data.
  apply keeps_for_each. intros acc i.
  unfold EnhancedWearablePipeline.sync_day, EnhancedWearablePipeline.sync_date_data,
    EnhancedWearablePipeline.make_wearable.
  apply keeps_bind; [apply keeps_get_heart_rate_intraday|intros hr_data].
  apply keeps_bind; [keeps|intros all_data].
  apply keeps_bind; [apply keeps_get_resting_heart_rate|intros resting_hr]. keeps.
Qed.

(** ** Syncs that fetch nothing *)

Section SyncEdgeFacts.
Import FitbitAuth FitbitDataService.



Lemma get_headers_missing_access_token env w token :
  fitbit_token (session w) = Some token ->
  expires_soon env (session w) = false ->
  truthy_token (Some token) = true ->
  token !! "access_token" = None ->
  get_headers env w = (Raise (KeyError "access_token"), w).
Proof.
  intros Htok Hsoon Htruthy Hkey. unfold get_headers, get_valid_token.
  rewrite Htok, Hsoon, Htruthy. simpl. by rewrite Hkey.
Qed.

End SyncEdgeFacts.


(** X7. A cached token bundle that is not empty but has no
    ["access_token"] makes the first fetch raise [KeyError]; the sync of
    one day or more ends there: it prints the sync error and stores
    nothing. *)
Theorem sync_aborts_without_access_token (env : Env) (patient_id : string)
    (days : Z) (w : World) (token : Token) :
  (1 <= days)%Z ->
  fitbit_token (session w) = Some token ->
  FitbitAuth.expires_soon env (session w) = false ->
  truthy_token (Some token) = true ->
  token !! "access_token" = None ->
  App.sync_real_fitbit_data env patient_id days w
  = st_message (SyncError (KeyError "access_token")) w.
Proof.
  intros Hdays Htok Hsoon Htruthy Hkey.
  unfold App.sync_real_fitbit_data, range.
  destruct (Z.to_nat days) as [|n] eqn:Hn; [lia|].
  cbn [seq for_each]. unfold bindM at 1.
  unfold App.sync_day at 1, App.sync_date_data, bindM at 1.
  unfold FitbitDataService.get_heart_rate_intraday, bindM at 1.
  unfold FitbitDataService.make_api_call, bindM at 1.
  by rewrite (get_headers_missing_access_token env w token).
Qed.

(** X7 for a bundle that holds a refresh token only. *)
Lemma sync_aborts_without_access_token_witness :
  let token : Token := <["refresh_token" := JStr "refresh-1"]> ∅ in
  let w := mkWorld (mkSessionState (Some token) (Some 90000%Q) (Some true))
                   empty_db [] in
  App.sync_real_fitbit_data sample_env "p1" 3 w
  = st_message (SyncError (KeyError "access_token")) w.
Proof.
  intros token w.
  apply (sync_aborts_without_access_token sample_env "p1" 3 w token).
  - lia.
  - reflexivity.
  - vm_compute. reflexivity.
  - vm_compute. reflexivity.
  - reflexivity.
Defined.

(** X8. A sync only appends. For every session, every answer of the
    provider and every way the loop ends, the wearable and biomarker rows
    stored before are still there, unchanged and in front, and no other
    table is touched. *)
Theorem sync_only_appends (env : Env) (patient_id : string) (days : Z) (w : World) :
  let w1 := App.sync_real_fitbit_data env patient_id days w in
  (exists rw rb,
     wearable_data (db w1) = wearable_data (db w) ++ rw /\
     biomarkers (db w1) = biomarkers (db w) ++ rb) /\
  patients (db w1) = patients (db w) /\
  clinician_patients (db w1) = clinician_patients (db w) /\
  symptom_reports (db w1) = symptom_reports (db w) /\
  clinical_notes (db w1) = clinical_notes (db w) /\
  alerts (db w1) = alerts (db w).
Proof.
  intros w1. destruct (sync_appends env patient_id days w) as [Hdb _].
  fold w1 in Hdb. rewrite Hdb. split; [|done].
  eexists _, _. split; reflexivity.
Qed.

(** ** What the success message counts *)

Section CountFacts.
Import FitbitDataService.

Lemma keeps_count {A : Type} (m : M A) (w : World) :
  keeps_db m -> wearable_count (snd (m w)) = wearable_count w.
Proof. intros H. unfold wearable_count. by rewrite H. Qed.

Lemma save_rows_count patient_id (rows : list (Z * Q)) saved w :
  exists w',
    for_each (fun n row =>
                let* _ := App.save_wearable (App.heart_rate_row patient_id row) in
                ret (n + 1)) rows saved w = (Ok (saved + length rows), w') /\
    wearable_count w' = wearable_count w + length rows.
Proof.
  revert saved w. induction rows as [|row rows IH]; intros saved w.
  - exists w. simpl. unfold ret. split; [f_equal; f_equal; lia|lia].
  - cbn [for_each]. unfold bindM at 1. unfold bindM at 1.
    unfold App.save_wearable at 1, modify. cbn [ret].
    destruct (IH (saved + 1)
                (set_db (DatabaseService.add_wearable_data
                           (App.heart_rate_row patient_id row) (db w)) w))
      as (w' & Hrun & Hcount).
    exists w'. rewrite Hrun. split; [f_equal; f_equal; simpl; lia|].
    rewrite Hcount. unfold wearable_count. simpl. rewrite length_app. simpl. lia.
Qed.

(** One day: the count grows by the wearable rows stored, and rows stored
    before a raise stay. *)
Lemma sync_date_data_count env patient_id date now saved w :
  match App.sync_date_data env patient_id date now saved w with
  | (Ok n, w') => wearable_count w' + saved = wearable_count w + n /\ saved <= n
  | (Raise _, w') => wearable_count w <= wearable_count w'
  end.
Proof.
  unfold App.sync_date_data.
  unfold bindM at 1.
  pose proof (keeps_count _ w (keeps_get_heart_rate_intraday env date)) as H1.
  destruct (get_heart_rate_intraday env date w) as [[hr_data|e] w1];
    cbn [snd] in H1; [|lia].
  unfold bindM at 1.
  assert (Hrows : exists n2 w2,
            (match hr_data with
             | Some (r :: rows) =>
                 for_each (fun n row =>
                   let* _ := App.save_wearable (App.heart_rate_row patient_id row) in
                   ret (n + 1)) (r :: rows) saved
             | _ => ret saved
             end) w1 = (Ok n2, w2) /\
            wearable_count w2 + saved = wearable_count w1 + n2 /\ saved <= n2).
  { destruct hr_data as [[|r rows]|]; try (by exists saved, w1).
    destruct (save_rows_count patient_id (r :: rows) saved w1) as (w2 & Hrun & Hc).
    exists (saved + length (r :: rows)), w2. split; [exact Hrun|lia]. }
  destruct Hrows as (n2 & w2 & -> & H2 & Hle).
  unfold bindM at 1.
  pose proof (keeps_count _ w2 (keeps_get_resting_heart_rate env date)) as H3.
  destruct (get_resting_heart_rate env date w2) as [[resting_hr|e] w3];
    cbn [snd] in H3; [|lia].
  unfold bindM at 1.
  assert (Hbio : exists w4,
            (match resting_hr with
             | Some v =>
                 if truthy_Q (Some v)
                 then App.save_biomarker (App.resting_hr_row patient_id now v)
                 else ret tt
             | None => ret tt
             end) w3 = (Ok tt, w4) /\
            wearable_count w4 = wearable_count w3).
  { destruct resting_hr as [v|]; [|by exists w3].
    destruct (truthy_Q (Some v)); [|by exists w3].
    eexists. split; reflexivity. }
  destruct Hbio as (w4 & -> & H4).
  unfold bindM at 1. unfold get_activity_summary.
  pose proof (keeps_count _ w4 (keeps_make_api_call env (Activities date))) as H5.
  destruct (make_api_call env (Activities date) w4) as [[activity|e] w5];
    cbn [snd] in H5; [|lia].
  destruct activity as [a|]; [|cbn [ret]; lia].
  destruct (summary a) as [s|]; [|cbn [ret]; lia].
  destruct (0 <? default 0 (steps s))%Z; [|cbn [ret]; lia].
  unfold bindM, App.save_wearable, modify. cbn [ret].
  unfold wearable_count in *. simpl. rewrite length_app. simpl. lia.
Qed.

Lemma sync_loop_count env patient_id (l : list nat) saved w :
  match for_each (App.sync_day env patient_id) l saved w with
  | (Ok n, w') => wearable_count w' + saved = wearable_count w + n /\ saved <= n
  | (Raise _, w') => wearable_count w <= wearable_count w'
  end.
Proof.
  revert saved w. induction l as [|i l IH]; intros saved w.
  - simpl. lia.
  - cbn [for_each]. unfold bindM at 1. unfold App.sync_day at 1.
    pose proof (sync_date_data_count env patient_id (sync_date env i)
                  (datetime_now env i) saved w) as Hday.
    destruct (App.sync_date_data env patient_id (sync_date env i)
                (datetime_now env i) saved w) as [[n1|e] w1]; [|exact Hday].
    specialize (IH n1 w1).
    destruct (for_each (App.sync_day env patient_id) l n1 w1) as [[n2|e] w2]; lia.
Qed.

End CountFacts.

(** X9. The number in the closing message "Successfully synced N data
    points" is the number of wearable rows the sync stored (resting heart
    rates go to the biomarker table and are not counted); a sync that ends
    with its error message has kept every row it had stored by then. A sync
    always closes with one of these two messages. *)
Theorem sync_success_counts_wearable_rows (env : Env) (patient_id : string)
    (days : Z) (w : World) :
  let w1 := App.sync_real_fitbit_data env patient_id days w in
  match list.last (ui w1) with
  | Some (SyncSuccess n) => wearable_count w1 = wearable_count w + n
  | Some (SyncError _) => wearable_count w <= wearable_count w1
  | _ => False
  end.
Proof.
  intros w1. subst w1. unfold App.sync_real_fitbit_data.
  pose proof (sync_loop_count env patient_id (range days) 0 w) as H.
  destruct (for_each (App.sync_day env patient_id) (range days) 0 w) as [[n|e] w'];
    unfold st_message; cbn [ui]; rewrite list.last_snoc;
    unfold wearable_count in *; cbn [db]; lia.
Qed.

(** One day of the sample provider: two wearable rows and one biomarker
    are stored, and the message says two. *)
Example sync_counts_two_of_three :
  let w1 := App.sync_real_fitbit_data sample_env "p1" 1 sample_world in
  list.last (ui w1) = Some (SyncSuccess 2) /\
  length (wearable_data (db w1)) = 2 /\ length (biomarkers (db w1)) = 1.
Proof. repeat split; vm_compute; reflexivity. Qed.

(** ** The pipeline and its validation *)

Section PipelineFacts.
Import FitbitDataService EnhancedWearablePipeline.

(** Collecting the rows of a frame: all of them when every reading is
    accepted, [ValidationError] otherwise. *)
Lemma collect_wearables (rows : list (Z * Q)) (acc : list Item) (w : World) :
  for_each (fun (acc : list Item) row =>
              let* item := make_wearable row in ret (acc ++ [item])) rows acc w =
  if forallb (fun row => valid_reading (snd row)) rows
  then (Ok (acc ++ map (fun row => Wearable (fst row) (snd row)) rows), w)
  else (Raise ValidationError, w).
Proof.
  revert acc. induction rows as [|row rows IH]; intros acc.
  - simpl. unfold ret. by rewrite app_nil_r.
  - cbn [for_each forallb]. unfold bindM at 1. unfold bindM at 1.
    unfold make_wearable at 1. fold (valid_reading (snd row)).
    destruct (valid_reading (snd row)); [|reflexivity].
    cbn [ret andb]. rewrite IH.
    destruct (forallb _ rows); [|reflexivity].
    simpl. by rewrite <- app_assoc.
Qed.

Lemma forallb_map_comp {A B : Type} (f : B -> bool) (g : A -> B) (l : list A) :
  forallb f (map g l) = forallb (fun x => f (g x)) l.
Proof. induction l as [|x l IH]; simpl; [reflexivity|]. by rewrite IH. Qed.

Lemma get_heart_rate_intraday_parsed env w bearer date data dataset day more d :
  authorized_as env (session w) = Some bearer ->
  api env bearer (HeartIntraday date) = Status 200 (Some data) ->
  activities_heart_intraday data = Some (Some dataset) ->
  activities_heart data = Some (day :: more) ->
  dateTime day = Some d ->
  dataset <> [] ->
  get_heart_rate_intraday env date w =
  (Ok (Some (map (fun p => (strptime d + point_time p, point_value p)%Z) dataset)), w).
Proof.
  intros Hauth Hapi Hintra Hheart Hdate Hne.
  unfold get_heart_rate_intraday, bindM.
  rewrite (make_api_call_authorized env w bearer) by done.
  rewrite Hapi. cbn [failure_message Z.eqb Pos.eqb].
  unfold truthy_json. rewrite Hheart. cbn [present orb].
  unfold _parse_heart_rate_data. rewrite Hintra, Hheart, Hdate.
  destruct dataset as [|p ps]; [done|]. reflexivity.
Qed.

End PipelineFacts.

(** X10. The pipeline validates what the sync of the application stores
    unchecked: with a valid session, if the intraday answer for the first
    day of a run holds a heart rate below 0 or above 200, the whole
    [sync_fitbit_data] call raises [ValidationError] and returns no data at
    all. *)
Theorem pipeline_rejects_out_of_range (env : Env) (days : Z) (w : World)
    (bearer : JVal) (data : Json) (dataset : list IntradayPoint)
    (day : HeartDay) (more : list HeartDay) (d : Z) :
  (1 <= days)%Z ->
  authorized_as env (session w) = Some bearer ->
  api env bearer (HeartIntraday (sync_date env 0)) = Status 200 (Some data) ->
  activities_heart_intraday data = Some (Some dataset) ->
  activities_heart data = Some (day :: more) ->
  dateTime day = Some d ->
  existsb (fun p => negb (valid_reading (point_value p))) dataset = true ->
  EnhancedWearablePipeline.sync_fitbit_data env days w = (Raise ValidationError, w).
Proof.
  intros Hdays Hauth Hapi Hintra Hheart Hdate Hbad.
  unfold EnhancedWearablePipeline.sync_fitbit_data, range.
  destruct (Z.to_nat days) as [|n] eqn:Hn; [lia|].
  cbn [seq for_each]. unfold bindM at 1.
  unfold EnhancedWearablePipeline.sync_day at 1,
    EnhancedWearablePipeline.sync_date_data, bindM at 1.
  rewrite (get_heart_rate_intraday_parsed env w bearer _ data dataset day more d);
    try done.
  - unfold bindM at 1. rewrite collect_wearables.
    rewrite forallb_map_comp. cbn [snd].
    assert (Hall : forallb (fun p => valid_reading (point_value p)) dataset = false).
    { apply existsb_exists in Hbad as (p & Hp & Hv).
      apply not_true_is_false. intros Hall.
      rewrite forallb_forall in Hall. rewrite (Hall p Hp) in Hv. discriminate. }
    by rewrite Hall.
  - intros ->. discriminate.
Qed.

(** X10 for the provider with a heart racing at 250 bpm. *)
Lemma pipeline_rejects_out_of_range_witness :
  EnhancedWearablePipeline.sync_fitbit_data env_racing 2 sample_world
  = (Raise ValidationError, sample_world).
Proof.
  apply (pipeline_rejects_out_of_range env_racing 2 sample_world (JStr "bearer-1")
           (mkJson (Some [mkHeartDay (Some 20000%Z) (Some (Some 62%Q))])
                   (Some (Some [mkIntradayPoint 28800000000 250%Q])) None)
           [mkIntradayPoint 28800000000 250%Q]
           (mkHeartDay (Some 20000%Z) (Some (Some 62%Q))) [] 20000%Z).
  - lia.
  - vm_compute. reflexivity.
  - vm_compute. reflexivity.
  - reflexivity.
  - reflexivity.
  - reflexivity.
  - vm_compute. reflexivity.
Defined.

(** The same answer goes into the store through the sync of the
    application. *)
Example app_sync_stores_out_of_range :
  map WearableData.heart_rate
    (wearable_data (db (App.sync_real_fitbit_data env_racing "p1" 1 sample_world)))
  = [Some 250%Q; None].
Proof. vm_compute. reflexivity. Qed.

(** X11. The rows parsed from an intraday answer are dated by the day the
    answer itself names, not by the day that was asked for: there is one
    row per observation, with its value, and when the times of day are
    within a day every row falls on the day of the answer. Without a day in
    the answer no row is produced. *)
Theorem parsed_rows_carry_answer_day (data : Json) (w : World) :
  match activities_heart_intraday data, activities_heart data with
  | Some (Some (p :: ps)), Some (day :: _) =>
      match dateTime day with
      | Some d =>
          exists rows,
            FitbitDataService._parse_heart_rate_data data w = (Ok rows, w) /\
            map snd rows = map point_value (p :: ps) /\
            (Forall (fun q => (0 <= point_time q < DAY_US)%Z) (p :: ps) ->
             Forall (fun row => date_of (fst row) = d) rows)
      | None =>
          FitbitDataService._parse_heart_rate_data data w
          = (Ok [], st_message ErrorParsingHeartRate w)
      end
  | _, _ => FitbitDataService._parse_heart_rate_data data w = (Ok [], w)
  end.
Proof.
  unfold FitbitDataService._parse_heart_rate_data.
  destruct (activities_heart_intraday data) as [[[|p ps]|]|]; try reflexivity;
    destruct (activities_heart data) as [[|day more]|]; try reflexivity.
  destruct (dateTime day) as [d|]; [|reflexivity].
  eexists. split; [reflexivity|]. split.
  - rewrite map_map. reflexivity.
  - intros Htimes. apply Forall_map. eapply Forall_impl; [|exact Htimes].
    intros q Hq. cbn [fst]. unfold date_of, strptime.
    rewrite Z.add_comm, Z.div_add by (unfold DAY_US; lia).
    rewrite Z.div_small by exact Hq. lia.
Qed.

(** ** Ordered queries *)

Lemma In_take {A : Type} (n : nat) (l : list A) (y : A) :
  In y (take n l) -> In y l.
Proof.
  revert n. induction l as [|x l IH]; intros [|n]; simpl; try tauto.
  intros [->|Hy]; [by left|right; by eapply IH].
Qed.

Section OrderFacts.

Context {A : Type} (key : A -> Z).

Lemma insert_desc_sorted (x : A) (l : list A) :
  StronglySorted (before key) l -> StronglySorted (before key) (insert_desc key x l).
Proof.
  induction l as [|y l IH]; intros Hs; simpl.
  - repeat constructor.
  - apply StronglySorted_inv in Hs as [Hs Hy].
    destruct (key y <=? key x)%Z eqn:E.
    + apply Z.leb_le in E. constructor; [by constructor|].
      constructor; [unfold before; lia|].
      eapply Forall_impl; [|exact Hy]. unfold before. intros z Hz. lia.
    + apply Z.leb_gt in E. constructor; [by apply IH|].
      apply List.Forall_forall. intros z Hz.
      apply (Permutation_in _ (insert_desc_perm key x l)) in Hz.
      destruct Hz as [<-|Hz]; [unfold before; lia|].
      rewrite List.Forall_forall in Hy. by apply Hy.
Qed.

Lemma order_by_desc_sorted (l : list A) :
  StronglySorted (before key) (order_by_desc key l).
Proof.
  induction l as [|x l IH]; simpl; [constructor|]. by apply insert_desc_sorted.
Qed.

Lemma sorted_take (n : nat) (l : list A) :
  StronglySorted (before key) l -> StronglySorted (before key) (take n l).
Proof.
  revert n. induction l as [|x l IH]; intros [|n] Hs; simpl; try constructor.
  - apply IH. by apply StronglySorted_inv in Hs as [].
  - apply StronglySorted_inv in Hs as [_ Hx].
    apply List.Forall_forall. intros y Hy. rewrite List.Forall_forall in Hx.
    apply Hx. by eapply In_take.
Qed.

End OrderFacts.

Section OrderUseFacts.

Context {A : Type} (key : A -> Z).

Lemma sorted_app_before (l1 l2 : list A) (x y : A) :
  StronglySorted (before key) (l1 ++ l2) -> In x l1 -> In y l2 -> before key x y.
Proof.
  induction l1 as [|z l1 IH]; intros Hs Hx Hy; [done|].
  simpl in Hs. apply StronglySorted_inv in Hs as [Hs Hz].
  destruct Hx as [->|Hx]; [|by apply IH].
  rewrite List.Forall_forall in Hz. apply Hz. apply in_or_app. by right.
Qed.

Lemma head_sorted_max (l : list A) (x : A) :
  StronglySorted (before key) l -> head l = Some x ->
  Forall (fun y => (key y <= key x)%Z) l.
Proof.
  destruct l as [|z l]; [discriminate|]. intros Hs [= ->].
  apply StronglySorted_inv in Hs as [_ Hz]. constructor; [lia|exact Hz].
Qed.

End OrderUseFacts.

Lemma first_limit_1 {A : Type} (l : list A) : first (limit 1 l) = head l.
Proof. by destruct l. Qed.

(** X12. The listing queries answer newest first: patients by creation,
    active alerts by creation, clinical notes by creation, wearable rows
    and biomarkers by timestamp, each in descending order. *)
Theorem queries_newest_first (utcnow : Z) (clinician_id patient_id : string)
    (include_inactive : bool) (alert_clinician : option string) (n : nat)
    (days : Z) (biomarker_type : option CardiacBiomarkerType) (db : Database) :
  StronglySorted (before Patient.created_at)
    (ClinicalService.get_patients_by_clinician clinician_id include_inactive db) /\
  StronglySorted (before PatientAlert.created_at)
    (ClinicalService.get_active_alerts alert_clinician db) /\
  StronglySorted (before ClinicalNote.created_at)
    (ClinicalService.get_patient_notes patient_id n db) /\
  StronglySorted (before WearableData.timestamp)
    (DatabaseService.get_patient_wearable_data utcnow patient_id days db) /\
  StronglySorted (before CalculatedBiomarker.timestamp)
    (DatabaseService.get_patient_biomarkers utcnow patient_id biomarker_type days db) /\
  StronglySorted (before Patient.created_at) (DatabaseService.get_all_patients db).
Proof.
  repeat split; try apply order_by_desc_sorted.
  apply sorted_take, order_by_desc_sorted.
Qed.

(** X13. [get_patient_notes] returns the newest notes of the patient, up to
    the limit: as many as the limit allows, each a note of that patient,
    and no note of the patient that is left out is newer than one that is
    returned. *)
Theorem patient_notes_are_the_newest (patient_id : string) (n : nat) (db : Database) :
  let all :=
    List.filter (fun c => String.eqb (ClinicalNote.patient_id c) patient_id)
      (clinical_notes db) in
  let notes := ClinicalService.get_patient_notes patient_id n db in
  length notes = Nat.min n (length all) /\
  Forall (fun c => ClinicalNote.patient_id c = patient_id /\ In c (clinical_notes db))
         notes /\
  (forall x y, In x notes -> In y all -> ~ In y notes ->
               (ClinicalNote.created_at y <= ClinicalNote.created_at x)%Z).
Proof.
  intros all notes. unfold notes, ClinicalService.get_patient_notes, limit.
  fold all. set (sorted := order_by_desc ClinicalNote.created_at all).
  split; [|split].
  - rewrite length_take. unfold sorted. by rewrite order_by_desc_length.
  - apply List.Forall_forall. intros c Hc. apply In_take in Hc.
    apply order_by_desc_In in Hc. apply filter_In in Hc as [Hin Hp].
    apply eqb_eq_str in Hp. split; assumption.
  - intros x y Hx Hy Hny.
    assert (Hys : In y (take n sorted ++ drop n sorted)).
    { rewrite take_drop. by apply order_by_desc_In. }
    apply in_app_or in Hys as [Hys|Hys]; [contradiction|].
    apply (sorted_app_before ClinicalNote.created_at (take n sorted) (drop n sorted));
      try done.
    rewrite take_drop. apply order_by_desc_sorted.
Qed.

(** X14. What the health summary calls latest is latest: its heart rate is
    the value of a resting-heart-rate biomarker of the patient that no
    other one of them postdates, its symptom report one that no other
    report of the patient postdates; each is [None] exactly when the
    patient has none. *)
Theorem health_summary_latest_is_latest (utcnow : Z) (patient_id : string)
    (db : Database) :
  let resting :=
    List.filter (fun b =>
        String.eqb (CalculatedBiomarker.patient_id b) patient_id
        && bool_decide (CalculatedBiomarker.biomarker_type b = RESTING_HR))
      (biomarkers db) in
  let reports :=
    List.filter (fun s => String.eqb (SymptomReport.patient_id s) patient_id)
      (symptom_reports db) in
  exists s,
    DatabaseService.get_patient_health_summary utcnow patient_id db = Ok s /\
    match resting with
    | [] => DatabaseService.latest_heart_rate s = None
    | _ :: _ =>
        exists b, In b resting /\
          DatabaseService.latest_heart_rate s = Some (CalculatedBiomarker.value b) /\
          Forall (fun b' => (CalculatedBiomarker.timestamp b'
                             <= CalculatedBiomarker.timestamp b)%Z) resting
    end /\
    match reports with
    | [] => DatabaseService.latest_symptoms s = None
    | _ :: _ =>
        exists r, In r reports /\
          DatabaseService.latest_symptoms s = Some r /\
          Forall (fun r' => (SymptomReport.report_date r'
                             <= SymptomReport.report_date r)%Z) reports
    end.
Proof.
  intros resting reports. unfold DatabaseService.get_patient_health_summary.
  rewrite py_truediv_ok by lia. eexists. split; [reflexivity|].
  cbn [DatabaseService.latest_heart_rate DatabaseService.latest_symptoms].
  fold resting. fold reports. rewrite !first_limit_1. split.
  - pose proof (order_by_desc_sorted CalculatedBiomarker.timestamp resting) as Hs.
    pose proof (order_by_desc_perm CalculatedBiomarker.timestamp resting) as Hp.
    destruct (order_by_desc CalculatedBiomarker.timestamp resting) as [|b bs] eqn:E.
    + apply Permutation_nil in Hp. by rewrite Hp.
    + destruct resting as [|b0 bs0] eqn:Er.
      { symmetry in Hp. by apply Permutation_nil in Hp. }
      exists b. split; [|split].
      * eapply Permutation_in; [exact Hp|]. by left.
      * reflexivity.
      * pose proof (head_sorted_max CalculatedBiomarker.timestamp (b :: bs) b Hs eq_refl)
          as Hmax.
        apply List.Forall_forall. intros b' Hb'.
        rewrite List.Forall_forall in Hmax. apply Hmax.
        eapply Permutation_in; [symmetry; exact Hp|exact Hb'].
  - pose proof (order_by_desc_sorted SymptomReport.report_date reports) as Hs.
    pose proof (order_by_desc_perm SymptomReport.report_date reports) as Hp.
    destruct (order_by_desc SymptomReport.report_date reports) as [|r rs] eqn:E.
    + apply Permutation_nil in Hp. by rewrite Hp.
    + destruct reports as [|r0 rs0] eqn:Er.
      { symmetry in Hp. by apply Permutation_nil in Hp. }
      exists r. split; [|split].
      * eapply Permutation_in; [exact Hp|]. by left.
      * reflexivity.
      * pose proof (head_sorted_max SymptomReport.report_date (r :: rs) r Hs eq_refl)
          as Hmax.
        apply List.Forall_forall. intros r' Hr'.
        rewrite List.Forall_forall in Hmax. apply Hmax.
        eapply Permutation_in; [symmetry; exact Hp|exact Hr'].
Qed.

(** ** Averages *)

Section AverageFacts.


(** A quotient by a non-zero number is zero exactly when the dividend
    is. *)
Lemma Qdiv_zero_iff (a b : Q) : ~ (b == 0)%Q -> ((a / b == 0)%Q <-> (a == 0)%Q).
Proof.
  intros Hb. split; intros H.
  - transitivity (b * (a / b))%Q; [symmetry; by apply Qmult_div_r|].
    rewrite H. ring.
  - unfold Qdiv. rewrite H. ring.
Qed.

End AverageFacts.

(** X15. The average-steps tile of the dashboard prints "No data" exactly
    when the steps of the last seven days total zero: without rows, and
    also when rows are there but carry no steps. The health summary never
    raises and counts every row of the week as a data point, with or
    without steps. *)
Theorem health_summary_no_steps_no_data (utcnow : Z) (patient_id : string)
    (db : Database) :
  let week := DatabaseService.get_patient_wearable_data utcnow patient_id 7 db in
  let total :=
    fold_left Z.add (map (fun d => default 0%Z (WearableData.steps d)) week) 0%Z in
  exists s,
    DatabaseService.get_patient_health_summary utcnow patient_id db = Ok s /\
    DatabaseService.data_points_count s = length week /\
    (DatabaseService.shown_avg_steps s = None <-> total = 0%Z) /\
    (DatabaseService.shown_avg_steps s <> None ->
     DatabaseService.shown_avg_steps s = Some (DatabaseService.recent_activity s)).
Proof.
  intros week total. unfold DatabaseService.get_patient_health_summary.
  rewrite py_truediv_ok by lia. eexists. split; [reflexivity|].
  split; [reflexivity|].
  unfold DatabaseService.shown_avg_steps. cbn [DatabaseService.recent_activity truthy_Q].
  fold week. fold total.
  set (q := (inject_Z total / inject_Z (Z.max (Z.of_nat (length week)) 1))%Q).
  assert (Hq : (q == 0)%Q <-> total = 0%Z).
  { unfold q. rewrite Qdiv_zero_iff.
    - unfold Qeq. simpl. lia.
    - unfold Qeq. simpl. lia. }
  destruct (Qeq_bool q 0) eqn:E; cbn [negb].
  - apply Qeq_bool_iff in E. split; [|done]. split; [intros _; by apply Hq|done].
  - split; [|done]. split; [discriminate|].
    intros Htotal. apply Hq in Htotal. apply Qeq_bool_iff in Htotal. congruence.
Qed.

(** A week of rows without steps: two data points, and a tile that prints
    "No data". *)
Example week_without_steps_shows_no_data :
  let db := mkDatabase [] []
              [WearableData.mk (noon 20000) "p1" (Some 60%Q) None None None "fitbit";
               WearableData.mk (noon 19999) "p1" (Some 80%Q) None (Some 0%Z) None "fitbit"]
              [] [] [] [] in
  option_map (fun s => (DatabaseService.data_points_count s,
                        DatabaseService.shown_avg_steps s))
    (match DatabaseService.get_patient_health_summary (noon 20000) "p1" db with
     | Ok s => Some s
     | Raise _ => None
     end)
  = Some (2, None).
Proof. vm_compute. reflexivity. Qed.

(** ** The fields of the report *)

(** The report of a known patient, field by field. *)
Lemma generate_patient_report_known utcnow patient_id days db patient :
  List.find (fun p => String.eqb (Patient.id p) patient_id) (patients db) = Some patient ->
  let window := wearable_since (minus_days utcnow days) patient_id db in
  let mean := fun values : list Q =>
    match values with
    | [] => None
    | _ :: _ => Some (Qsum values / len values)%Q
    end in
  ClinicalService.generate_patient_report utcnow patient_id days db =
  Ok (Some (ClinicalService.mkPatientReport patient
    (ClinicalService.mkReportSummary days (length window)
       (length (List.filter (fun s =>
          String.eqb (SymptomReport.patient_id s) patient_id
          && (date_of (minus_days utcnow days) <=? SymptomReport.report_date s)%Z)
          (symptom_reports db)))
       (mean (truthy_values WearableData.heart_rate window))
       (mean (truthy_values WearableData.hrv_rmssd window))
       (length (ClinicalService.get_patient_notes patient_id 10 db)))
    (ClinicalService.get_patient_notes patient_id 10 db)
    (List.filter (fun a =>
       String.eqb (PatientAlert.patient_id a) patient_id
       && (minus_days utcnow days <=? PatientAlert.created_at a)%Z) (alerts db)))).
Proof.
  intros Hfind window mean. unfold ClinicalService.generate_patient_report.
  rewrite Hfind. fold (wearable_since (minus_days utcnow days) patient_id db).
  fold window. destruct window as [|w ws]; [reflexivity|].
  rewrite !mean_if_any_ok. reflexivity.
Qed.

(** The outcomes of the report as called: a report of a known patient for
    a window that starts at a datetime, the empty dictionary for an unknown
    patient, the overflow otherwise. *)
Lemma generate_patient_report_checked_outcomes utcnow patient_id days db :
  match ClinicalService.generate_patient_report_checked utcnow patient_id days db with
  | Ok (Some r) =>
      exists patient,
        List.find (fun p => String.eqb (Patient.id p) patient_id) (patients db)
        = Some patient /\
        ClinicalService.generate_patient_report utcnow patient_id days db = Ok (Some r)
  | Ok None =>
      List.find (fun p => String.eqb (Patient.id p) patient_id) (patients db) = None
  | Raise e =>
      e = OverflowError /\
      List.find (fun p => String.eqb (Patient.id p) patient_id) (patients db) <> None
  end.
Proof.
  pose proof (generate_patient_report_checked_cases utcnow patient_id days db) as Hcases.
  destruct (List.find (fun p => String.eqb (Patient.id p) patient_id) (patients db))
    as [patient|] eqn:Hfind.
  - destruct (checked_minus_days utcnow days) as [start|e].
    + destruct Hcases as [_ ->].
      rewrite (generate_patient_report_known utcnow patient_id days db patient Hfind).
      cbv zeta. by exists patient.
    + destruct Hcases as [-> ->]. by split.
  - by rewrite Hcases.
Qed.

(** X16. In the patient report the data points, the symptom reports and
    the alerts are those of the monitoring period, but the clinical notes
    are not: the notes listed are the newest ten of the patient and the
    figure [clinical_notes] is the number of all notes of the patient,
    capped at ten, whatever the period. The alerts listed are all alerts of
    the patient created at or after the start of the period, resolved ones
    included. The only exception is the OverflowError of a period whose
    start is not a datetime. *)
Theorem report_notes_ignore_period (utcnow : Z) (patient_id : string) (days : Z)
    (db : Database) :
  match ClinicalService.generate_patient_report_checked utcnow patient_id days db with
  | Ok (Some r) =>
      ClinicalService.monitoring_period_days (ClinicalService.summary r) = days /\
      ClinicalService.recent_notes r = ClinicalService.get_patient_notes patient_id 10 db /\
      ClinicalService.n_clinical_notes (ClinicalService.summary r) =
        Nat.min 10
          (length (List.filter
                     (fun c => String.eqb (ClinicalNote.patient_id c) patient_id)
                     (clinical_notes db))) /\
      ClinicalService.n_symptom_reports (ClinicalService.summary r) =
        length (List.filter (fun s =>
                  String.eqb (SymptomReport.patient_id s) patient_id
                  && (date_of (minus_days utcnow days) <=? SymptomReport.report_date s)%Z)
                  (symptom_reports db)) /\
      (forall a, In a (ClinicalService.report_alerts r) <->
         In a (alerts db) /\ PatientAlert.patient_id a = patient_id /\
         (minus_days utcnow days <= PatientAlert.created_at a)%Z)
  | Ok None =>
      List.find (fun p => String.eqb (Patient.id p) patient_id) (patients db) = None
  | Raise e => e = OverflowError
  end.
Proof.
  pose proof (generate_patient_report_checked_outcomes utcnow patient_id days db) as Hout.
  destruct (ClinicalService.generate_patient_report_checked utcnow patient_id days db)
    as [[r|]|e]; [|exact Hout|apply Hout].
  destruct Hout as (patient & Hfind & Hrun).
  rewrite (generate_patient_report_known utcnow patient_id days db patient Hfind) in Hrun.
  cbv zeta in Hrun. injection Hrun as <-.
  cbn [ClinicalService.summary ClinicalService.monitoring_period_days
       ClinicalService.recent_notes ClinicalService.n_clinical_notes
       ClinicalService.n_symptom_reports ClinicalService.report_alerts].
  split; [reflexivity|]. split; [reflexivity|]. split; [|split; [reflexivity|]].
  - unfold ClinicalService.get_patient_notes, limit.
    by rewrite length_take, order_by_desc_length.
  - intros a. rewrite filter_In, andb_true_iff, eqb_eq_str, Z.leb_le. tauto.
Qed.

(** Twelve notes, a period of a day, and a resolved alert of today. *)
Example report_counts_ten_notes :
  let maria := Patient.mk "p1" 10 "Maria" "Garcia" ACTIVE (Some "high") in
  let note := fun i : nat => ClinicalNote.mk (noon (Z.of_nat i)) "p1" "dr" in
  let alert := PatientAlert.mk "a1" (noon 20000) "p1" HIGH_HEART_RATE "high"
                 "Elevated" "Elevated resting heart rate" true
                 (Some (noon 20000)) (Some "dr") None (Some 85%Q) None in
  let db := mkDatabase [maria] [] [] [] [] (map note (seq 0 12)) [alert] in
  match ClinicalService.generate_patient_report_checked (noon 20000) "p1" 1 db with
  | Ok (Some r) =>
      ClinicalService.n_clinical_notes (ClinicalService.summary r) = 10 /\
      ClinicalService.report_alerts r = [alert]
  | _ => False
  end.
Proof. vm_compute. split; reflexivity. Qed.

(** ** Storing and reading back *)


Section ReportRowFacts.
Import ClinicalService.


End ReportRowFacts.



(** ** Dashboard counts *)

Section CountingFacts.
Import ClinicalService.

Context {A K : Type} `{Countable K} (f : A -> option K).

(** Counting with a dictionary, [d[k] = d.get(k, 0) + 1] over the items
    that have a key: each key ends with the number of its items on top of
    what it had. *)
Lemma count_up_fold (l : list A) (d : gmap K nat) (k : K) :
  fold_left (fun d x => match f x with Some k' => count_up k' d | None => d end) l d
    !! k =
  match length (List.filter (fun x => bool_decide (f x = Some k)) l) with
  | 0 => d !! k
  | S n => Some (default 0 (d !! k) + S n)
  end.
Proof.
  revert d. induction l as [|x l IH]; intros d; [reflexivity|].
  cbn [fold_left List.filter]. rewrite IH.
  destruct (f x) as [k'|] eqn:Hf.
  - destruct (decide (k' = k)) as [->|Hne].
    + rewrite bool_decide_eq_true_2 by reflexivity. cbn [length].
      rewrite count_up_same.
      destruct (length (List.filter _ l)); simpl; f_equal; lia.
    + rewrite bool_decide_eq_false_2 by congruence.
      by rewrite count_up_other.
  - by rewrite bool_decide_eq_false_2.
Qed.

End CountingFacts.

(** X19. In the dashboard statistics of a clinician the risk counts are
    head counts over the default patient list: a risk level is counted once
    for each listed patient that has it, patients without a risk level are
    not counted, [high_risk_patients] is the number of listed patients
    whose risk level is "high", and [active_alerts] is the number of alerts
    the clinician's active-alert query returns. *)
Theorem dashboard_risk_counts (utcnow : Z) (clinician_id : string) (db : Database) :
  let listed := ClinicalService.get_patients_by_clinician clinician_id false db in
  let stats := ClinicalService.get_clinician_dashboard_stats utcnow clinician_id db in
  (forall r,
     ClinicalService.risk_counts stats !! r =
     match length (List.filter (fun p => bool_decide (risk_key p = Some r)) listed) with
     | 0 => None
     | S n => Some (S n)
     end) /\
  ClinicalService.high_risk_patients stats
  = length (List.filter
              (fun p => bool_decide (Patient.risk_level p = Some "high")) listed) /\
  ClinicalService.active_alerts stats
  = length (ClinicalService.get_active_alerts (Some clinician_id) db).
Proof.
  intros listed stats.
  assert (Hrc : forall r,
     ClinicalService.risk_counts stats !! r =
     match length (List.filter (fun p => bool_decide (risk_key p = Some r)) listed) with
     | 0 => None
     | S n => Some (S n)
     end).
  { intros r.
    change (ClinicalService.risk_counts stats) with
      (fold_left (fun d p =>
         if truthy_str (Patient.risk_level p)
         then ClinicalService.count_up (default "" (Patient.risk_level p)) d
         else d) listed ∅).
    transitivity
      (fold_left (fun d p =>
         match risk_key p with
         | Some k => ClinicalService.count_up k d
         | None => d
         end) listed ∅ !! r).
    - f_equal. clear. generalize (∅ : gmap string nat).
      induction listed as [|p l IH]; intros d; [reflexivity|]. simpl.
      rewrite IH. f_equal. unfold risk_key.
      destruct (Patient.risk_level p) as [x|]; simpl; [|reflexivity].
      by destruct (negb (x =? "")%string).
    - rewrite (count_up_fold risk_key listed ∅ r), lookup_empty.
      by destruct (length _). }
  split; [exact Hrc|]. split; [|reflexivity].
  change (ClinicalService.high_risk_patients stats)
    with (default 0 (ClinicalService.risk_counts stats !! "high")).
  rewrite Hrc.
  assert (Hsame : List.filter (fun p => bool_decide (risk_key p = Some "high")) listed
                  = List.filter
                      (fun p => bool_decide (Patient.risk_level p = Some "high")) listed).
  { apply filter_ext. intros p. apply bool_decide_ext. unfold risk_key.
    destruct (Patient.risk_level p) as [x|]; simpl; [|done].
    destruct (x =? "")%string eqn:E; simpl; [|done].
    apply eqb_eq_str in E. subst x. split; discriminate. }
  rewrite Hsame. by destruct (length _).
Qed.

(** ** Patients and assignments *)

Section PatientFacts.
Import ClinicalService.

Lemma update_patient_status_rows patient_id status risk_level db patient p :
  List.find (fun q => String.eqb (Patient.id q) patient_id) (patients db) = Some patient ->
  In p (patients (snd (update_patient_status patient_id status risk_level db))) <->
  (p = with_status status risk_level patient /\
   exists q, In q (patients db) /\ Patient.id q = patient_id) \/
  (In p (patients db) /\ Patient.id p <> patient_id).
Proof.
  intros Hfind. unfold update_patient_status. rewrite Hfind.
  cbn [snd patients set_patients]. rewrite in_map_iff. split.
  - intros (q & Hq & Hin).
    destruct (String.eqb (Patient.id q) patient_id) eqn:E.
    + apply eqb_eq_str in E. left. split; [done|]. by exists q.
    + right. subst p. split; [done|]. intros Hid. apply eqb_eq_str in Hid. congruence.
  - intros [[-> (q & Hq & Hid)]|[Hin Hid]].
    + exists q. split; [|done]. apply eqb_eq_str in Hid. by rewrite Hid.
    + exists p. split; [|done].
      destruct (String.eqb (Patient.id p) patient_id) eqn:E; [|done].
      apply eqb_eq_str in E. contradiction.
Qed.

Lemma find_patient_id patient_id db patient :
  List.find (fun q => String.eqb (Patient.id q) patient_id) (patients db) = Some patient ->
  In patient (patients db) /\ Patient.id patient = patient_id.
Proof.
  intros H. apply find_some in H as [Hin Hid]. by apply eqb_eq_str in Hid.
Qed.

(** The rows the join of [get_patients_by_clinician] is made of. *)
Lemma joined_perm (g : Patient.t -> list ClinicianPatient.t)
    (h : Patient.t -> list ClinicianPatient.t) (ps : list Patient.t) :
  Permutation
    (flat_map (fun p => map (fun _ => p) (g p ++ h p)) ps)
    (flat_map (fun p => map (fun _ => p) (g p)) ps
     ++ flat_map (fun p => map (fun _ => p) (h p)) ps).
Proof.
  induction ps as [|p ps IH]; simpl; [done|].
  rewrite map_app, IH, <- !app_assoc. apply Permutation_app_head.
  rewrite !app_assoc. apply Permutation_app_tail. apply Permutation_app_comm.
Qed.

Lemma filter_perm_length {B : Type} (f : B -> bool) (l1 l2 : list B) :
  Permutation l1 l2 -> length (List.filter f l1) = length (List.filter f l2).
Proof.
  induction 1; simpl; try congruence.
  - destruct (f x); simpl; congruence.
  - destruct (f x), (f y); reflexivity.
Qed.

End PatientFacts.

(** X20. [update_patient_status] on a known patient returns the patient
    with the new status; a missing or empty [risk_level] leaves the stored
    risk level as it is, any other replaces it. If the new status is not
    ACTIVE the patient is gone from the default patient list of every
    clinician, while the lists keep or drop every other patient as
    before. *)
Theorem update_patient_status_hides_patient (patient_id : string)
    (status : PatientStatus) (risk_level : option string) (db : Database)
    (patient : Patient.t) :
  List.find (fun q => String.eqb (Patient.id q) patient_id) (patients db) = Some patient ->
  let result := ClinicalService.update_patient_status patient_id status risk_level db in
  (exists p', fst result = Some p' /\
     Patient.status p' = status /\
     Patient.id p' = patient_id /\
     Patient.risk_level p' =
       (if truthy_str risk_level then risk_level else Patient.risk_level patient)) /\
  (status <> ACTIVE ->
   forall c, Forall (fun p => Patient.id p <> patient_id)
               (ClinicalService.get_patients_by_clinician c false (snd result))) /\
  (forall c include_inactive p,
     Patient.id p <> patient_id ->
     (In p (ClinicalService.get_patients_by_clinician c include_inactive (snd result))
      <-> In p (ClinicalService.get_patients_by_clinician c include_inactive db))).
Proof.
  intros Hfind. cbv zeta.
  destruct (find_patient_id _ _ _ Hfind) as [Hin Hid].
  assert (Hcp : clinician_patients
                  (snd (ClinicalService.update_patient_status patient_id status
                          risk_level db)) = clinician_patients db).
  { unfold ClinicalService.update_patient_status. by rewrite Hfind. }
  split; [|split].
  - unfold ClinicalService.update_patient_status. rewrite Hfind.
    eexists. split; [reflexivity|]. by repeat split.
  - intros Hst c. apply List.Forall_forall. intros p Hp Hpid.
    apply get_patients_by_clinician_In in Hp as (Hrow & _ & [?|Hact]); [done|].
    apply (update_patient_status_rows _ status risk_level _ _ _ Hfind) in Hrow
      as [[-> _]|[_ Hne]]; [|contradiction].
    simpl in Hact. contradiction.
  - intros c inc p Hne. rewrite !get_patients_by_clinician_In, Hcp.
    rewrite (update_patient_status_rows _ status risk_level _ _ _ Hfind).
    split.
    + intros ([[-> _]|[Hrow _]] & Hassign & Hst); [simpl in Hne; contradiction|].
      by repeat split.
    + intros (Hrow & Hassign & Hst). split; [by right|]. by split.
Qed.

(** X20 for a patient set to INACTIVE without a risk level. *)
Lemma update_patient_status_hides_patient_witness :
  let maria := Patient.mk "p1" 10 "Maria" "Garcia" ACTIVE (Some "high") in
  let db := mkDatabase [maria] [ClinicianPatient.mk "dr" "p1" true] [] [] [] [] [] in
  let result := ClinicalService.update_patient_status "p1" INACTIVE None db in
  option_map Patient.risk_level (fst result) = Some (Some "high") /\
  Forall (fun p => Patient.id p <> "p1")
    (ClinicalService.get_patients_by_clinician "dr" false (snd result)).
Proof.
  intros maria db result.
  pose proof (update_patient_status_hides_patient "p1" INACTIVE None db maria eq_refl)
    as (_ & Hgone & _).
  split; [reflexivity|]. apply Hgone. discriminate.
Defined.

(** X21. [assign_patient_to_clinician] checks nothing: each call adds an
    assignment, and the clinician's patient list then has one more entry
    for every stored patient with that id (for the default list, every
    ACTIVE one), even if the patient was assigned to the clinician before;
    the lists of other clinicians do not change. *)
Theorem assign_patient_lists_once_more (patient_id clinician_id : string)
    (is_primary include_inactive : bool) (db : Database) :
  let db' := snd (ClinicalService.assign_patient_to_clinician
                    patient_id clinician_id is_primary db) in
  length (ClinicalService.get_patients_by_clinician clinician_id include_inactive db') =
  length (ClinicalService.get_patients_by_clinician clinician_id include_inactive db)
  + length (List.filter
              (fun p => String.eqb patient_id (Patient.id p)
                        && (include_inactive || bool_decide (Patient.status p = ACTIVE)))
              (patients db)) /\
  (forall c, c <> clinician_id ->
     ClinicalService.get_patients_by_clinician c include_inactive db'
     = ClinicalService.get_patients_by_clinician c include_inactive db).
Proof.
  intros db'. split.
  - unfold ClinicalService.get_patients_by_clinician. rewrite !order_by_desc_length.
    unfold db', ClinicalService.assign_patient_to_clinician.
    cbn [snd patients clinician_patients set_clinician_patients].
    set (g := fun p : Patient.t =>
      List.filter (fun cp =>
        String.eqb (ClinicianPatient.patient_id cp) (Patient.id p)
        && String.eqb (ClinicianPatient.clinician_id cp) clinician_id)
        (clinician_patients db)).
    set (h := fun p : Patient.t =>
      if String.eqb patient_id (Patient.id p)
      then [ClinicianPatient.mk clinician_id patient_id is_primary] else []).
    assert (Hsplit : forall p,
      List.filter (fun cp =>
        String.eqb (ClinicianPatient.patient_id cp) (Patient.id p)
        && String.eqb (ClinicianPatient.clinician_id cp) clinician_id)
        (clinician_patients db ++ [ClinicianPatient.mk clinician_id patient_id is_primary])
      = g p ++ h p).
    { intros p. rewrite filter_app. unfold g, h. simpl.
      rewrite String.eqb_refl, andb_true_r.
      by destruct (String.eqb patient_id (Patient.id p)). }
    assert (Hperm : Permutation
      (flat_map (fun p => map (fun _ => p)
         (List.filter (fun cp =>
            String.eqb (ClinicianPatient.patient_id cp) (Patient.id p)
            && String.eqb (ClinicianPatient.clinician_id cp) clinician_id)
            (clinician_patients db
             ++ [ClinicianPatient.mk clinician_id patient_id is_primary])))
         (patients db))
      (flat_map (fun p => map (fun _ => p) (g p)) (patients db)
       ++ List.filter (fun p => String.eqb patient_id (Patient.id p)) (patients db))).
    { rewrite (flat_map_ext _ (fun p => map (fun _ => p) (g p ++ h p)))
        by (intros p; by rewrite Hsplit).
      rewrite joined_perm. apply Permutation_app_head.
      apply Permutation_refl'. unfold h. clear.
      induction (patients db) as [|p ps IH]; simpl; [reflexivity|].
      destruct (String.eqb patient_id (Patient.id p)); simpl; by rewrite IH. }
    destruct include_inactive; cbn [negb orb].
    + rewrite (Permutation_length Hperm), length_app. f_equal.
      f_equal. apply filter_ext. intros p. by rewrite andb_true_r.
    + rewrite (filter_perm_length _ _ _ Hperm), filter_app, length_app. f_equal.
      f_equal. clear. induction (patients db) as [|p ps IH]; simpl; [reflexivity|].
      destruct (String.eqb patient_id (Patient.id p)); simpl; [|exact IH].
      destruct (bool_decide (Patient.status p = ACTIVE)); simpl; by rewrite IH.
  - intros c Hc. unfold ClinicalService.get_patients_by_clinician.
    unfold db', ClinicalService.assign_patient_to_clinician.
    cbn [snd patients clinician_patients set_clinician_patients].
    assert (Hj :
      flat_map (fun p => map (fun _ : ClinicianPatient.t => p)
        (List.filter (fun cp =>
           String.eqb (ClinicianPatient.patient_id cp) (Patient.id p)
           && String.eqb (ClinicianPatient.clinician_id cp) c)
           (clinician_patients db
            ++ [ClinicianPatient.mk clinician_id patient_id is_primary])))
        (patients db)
      = flat_map (fun p => map (fun _ : ClinicianPatient.t => p)
          (List.filter (fun cp =>
             String.eqb (ClinicianPatient.patient_id cp) (Patient.id p)
             && String.eqb (ClinicianPatient.clinician_id cp) c)
             (clinician_patients db)))
          (patients db)).
    { apply flat_map_ext. intros p. f_equal. rewrite filter_app. simpl.
      destruct (String.eqb clinician_id c) eqn:E.
      - apply eqb_eq_str in E. congruence.
      - by rewrite andb_false_r, app_nil_r. }
    by rewrite Hj.
Qed.

(** A patient assigned twice is listed twice and counted twice. *)
Example patient_assigned_twice_counts_twice :
  let maria := Patient.mk "p1" 10 "Maria" "Garcia" ACTIVE (Some "high") in
  let db0 := mkDatabase [maria] [] [] [] [] [] [] in
  let db1 := snd (ClinicalService.assign_patient_to_clinician "p1" "dr" true db0) in
  let db2 := snd (ClinicalService.assign_patient_to_clinician "p1" "dr" true db1) in
  ClinicalService.get_patients_by_clinician "dr" false db2 = [maria; maria] /\
  ClinicalService.total_patients
    (ClinicalService.get_clinician_dashboard_stats 100 "dr" db2) = 2.
Proof. repeat split. Qed.

(** ** Alerts, created and seen *)

(** X22. [create_alert] either commits or raises [IntegrityError], the
    latter exactly when the uuid4 is already the id of an alert. A
    committed alert is unresolved and is returned by the query for all
    active alerts; the query of a clinician returns it exactly when a
    stored patient with the alert's patient id is assigned to that
    clinician, so an alert for a patient id without a patient row is seen
    by no clinician. *)
Theorem created_alert_visibility (utcnow : Z) (uuid : string)
    (data : ClinicalService.AlertData) (db : Database) :
  match ClinicalService.create_alert utcnow uuid data db with
  | Ok (a, db') =>
      ClinicalService.get_alert uuid db = None /\
      PatientAlert.is_resolved a = false /\
      ClinicalService.get_alert uuid db' = Some a /\
      In a (ClinicalService.get_active_alerts None db') /\
      (forall c, c <> "" ->
         (In a (ClinicalService.get_active_alerts (Some c) db') <->
          exists p cp, In p (patients db) /\ In cp (clinician_patients db) /\
            Patient.id p = ClinicalService.ad_patient_id data /\
            ClinicianPatient.patient_id cp = Patient.id p /\
            ClinicianPatient.clinician_id cp = c))
  | Raise e => e = IntegrityError /\ ClinicalService.get_alert uuid db <> None
  end.
Proof.
  destruct (ClinicalService.get_alert uuid db) as [old|] eqn:Hget.
  - unfold ClinicalService.create_alert, ClinicalService.add_alert. simpl.
    rewrite Hget. simpl. done.
  - rewrite create_alert_fresh by done.
    set (a := ClinicalService.new_alert utcnow uuid data).
    set (db' := set_alerts (alerts db ++ [a]) db).
    assert (Hin : In a (alerts db')) by (apply in_or_app; right; by left).
    split; [reflexivity|]. split; [reflexivity|]. split; [|split].
    + unfold db'. rewrite get_alert_app, Hget. unfold a. simpl.
      by rewrite String.eqb_refl.
    + apply get_active_alerts_In. split; [exact Hin|]. split; [reflexivity|].
      by left.
    + intros c Hc. rewrite get_active_alerts_In.
      assert (Htruthy : truthy_str (Some c) = true).
      { simpl. apply negb_true_iff. destruct (String.eqb c "") eqn:E; [|done].
        apply eqb_eq_str in E. contradiction. }
      split.
      * intros (_ & _ & [Hf|(p & cp & Hp & Hcp & Hpid & Hjoin & [= Hcl])]);
          [congruence|].
        exists p, cp. by repeat split.
      * intros (p & cp & Hp & Hcp & Hpid & Hjoin & Hcl).
        split; [exact Hin|]. split; [reflexivity|]. right.
        exists p, cp. repeat split; try done. by rewrite Hcl.
Qed.

(** An alert for a patient id that no patient row has: in the list of all
    active alerts, in the list of no clinician. *)
Example orphan_alert_unseen :
  let data := ClinicalService.mkAlertData "p9" LOW_HRV None "Low HRV" "18 ms"
                (Some 18%Q) None in
  let db := mkDatabase [Patient.mk "p1" 10 "Maria" "Garcia" ACTIVE None]
              [ClinicianPatient.mk "dr" "p1" true; ClinicianPatient.mk "dr" "p9" true]
              [] [] [] [] [] in
  match ClinicalService.create_alert 5 "a1" data db with
  | Ok (a, db') =>
      ClinicalService.get_active_alerts None db' = [a] /\
      ClinicalService.get_active_alerts (Some "dr") db' = [] /\
      PatientAlert.severity a = "medium"
  | Raise _ => False
  end.
Proof. repeat split. Qed.

(** ** Ages *)

(** X23. [calculate_age] counts completed years: it is not negative when
    the date of birth is not after today, it never decreases as today
    moves on, on the n-th anniversary of the birth it is n, and on any
    earlier day of that year it is n - 1. *)
Theorem calculate_age_counts_completed_years (today dob : App.CivilDate) :
  (civil_le dob today -> (0 <= App.calculate_age today dob)%Z) /\
  (forall later, civil_le today later ->
     (App.calculate_age today dob <= App.calculate_age later dob)%Z) /\
  (forall n,
     App.calculate_age
       (App.mkCivilDate (App.year dob + n) (App.month dob) (App.day dob)) dob = n) /\
  (forall n m d,
     (m < App.month dob \/ (m = App.month dob /\ d < App.day dob))%Z ->
     App.calculate_age (App.mkCivilDate (App.year dob + n) m d) dob = (n - 1)%Z).
Proof.
  unfold App.calculate_age, App.month_day_ltb, civil_le.
  destruct today as [Y M D], dob as [y m d]. cbn [App.year App.month App.day].
  split; [|split; [|split]].
  - intros Hle.
    destruct (M <? m)%Z eqn:E1, (M =? m)%Z eqn:E2, (D <? d)%Z eqn:E3; simpl; lia.
  - intros [Y' M' D']. cbn [App.year App.month App.day]. intros Hle.
    destruct (M <? m)%Z eqn:E1, (M =? m)%Z eqn:E2, (D <? d)%Z eqn:E3,
             (M' <? m)%Z eqn:E4, (M' =? m)%Z eqn:E5, (D' <? d)%Z eqn:E6;
      simpl; lia.
  - intros n. rewrite Z.ltb_irrefl, Z.eqb_refl, Z.ltb_irrefl. simpl. lia.
  - intros n m' d' Hbefore.
    destruct (m' <? m)%Z eqn:E1, (m' =? m)%Z eqn:E2, (d' <? d)%Z eqn:E3; simpl; lia.
Qed.

(** Born on 29 February 2000: still 22 on 28 February 2023, 23 from
    1 March 2023. *)
Example leap_day_birthday :
  let dob := App.mkCivilDate 2000 2 29 in
  App.calculate_age (App.mkCivilDate 2023 2 28) dob = 22%Z /\
  App.calculate_age (App.mkCivilDate 2023 3 1) dob = 23%Z.
Proof. split; reflexivity. Qed.

(** ** Grouping biomarkers *)

Section GroupFacts.
Import VizUtils.

Lemma group_fold (l : list CalculatedBiomarker.t)
    (d : gmap CardiacBiomarkerType (list (Z * Q))) (t : CardiacBiomarkerType) :
  fold_left (fun d b =>
               let k := CalculatedBiomarker.biomarker_type b in
               <[k := default [] (d !! k)
                      ++ [(date_of (CalculatedBiomarker.timestamp b),
                           CalculatedBiomarker.value b)]]> d) l d !! t =
  match List.filter (fun b => bool_decide (CalculatedBiomarker.biomarker_type b = t)) l with
  | [] => d !! t
  | b :: bs => Some (default [] (d !! t) ++ map biomarker_point (b :: bs))
  end.
Proof.
  revert d. induction l as [|b l IH]; intros d; [reflexivity|].
  cbn [fold_left List.filter]. rewrite IH. cbv zeta.
  destruct (decide (CalculatedBiomarker.biomarker_type b = t)) as [Ht|Ht].
  - rewrite bool_decide_eq_true_2 by done. rewrite Ht, lookup_insert_eq.
    destruct (List.filter _ l) as [|b' bs]; simpl.
    + reflexivity.
    + by rewrite <- app_assoc.
  - rewrite bool_decide_eq_false_2 by done. by rewrite lookup_insert_ne.
Qed.

End GroupFacts.

Section FilterSortFacts.

Context {A : Type} (key : A -> Z) (f : A -> bool).

Lemma insert_desc_front (x : A) (l : list A) :
  Forall (fun z => (key z <= key x)%Z) l -> insert_desc key x l = x :: l.
Proof.
  destruct l as [|y l]; [reflexivity|]. intros Hall.
  apply List.Forall_cons_iff in Hall as [Hy _]. simpl.
  by rewrite (proj2 (Z.leb_le _ _) Hy).
Qed.

(** Filtering a sorted list after an insertion is inserting into the
    filtered list. *)
Lemma filter_insert_desc (x : A) (l : list A) :
  StronglySorted (before key) l ->
  List.filter f (insert_desc key x l) =
  if f x then insert_desc key x (List.filter f l) else List.filter f l.
Proof.
  induction l as [|y l IH]; intros Hs.
  - simpl. by destruct (f x).
  - apply StronglySorted_inv in Hs as [Hs Hy]. cbn [insert_desc].
    destruct (key y <=? key x)%Z eqn:E.
    + cbn [List.filter]. destruct (f x); [|reflexivity].
      symmetry. apply Z.leb_le in E.
      destruct (f y).
      * simpl. by rewrite (proj2 (Z.leb_le _ _) E).
      * apply insert_desc_front. apply List.Forall_forall. intros z Hz.
        apply filter_In in Hz as [Hz _]. rewrite List.Forall_forall in Hy.
        specialize (Hy z Hz). unfold before in Hy. lia.
    + cbn [List.filter]. rewrite (IH Hs).
      destruct (f y), (f x); try reflexivity. simpl. by rewrite E.
Qed.

Lemma filter_order_by_desc (l : list A) :
  List.filter f (order_by_desc key l) = order_by_desc key (List.filter f l).
Proof.
  induction l as [|x l IH]; [reflexivity|]. simpl.
  rewrite filter_insert_desc by apply order_by_desc_sorted.
  rewrite IH. by destruct (f x).
Qed.

End FilterSortFacts.

Lemma prepare_biomarker_data_lookup (l : list CalculatedBiomarker.t)
    (t : CardiacBiomarkerType) :
  VizUtils.prepare_biomarker_data l !! t =
  match List.filter
          (fun b => bool_decide (CalculatedBiomarker.biomarker_type b = t)) l with
  | [] => None
  | b :: bs => Some (map biomarker_point (b :: bs))
  end.
Proof.
  unfold VizUtils.prepare_biomarker_data. rewrite group_fold.
  by rewrite lookup_empty.
Qed.

(** X24. [prepare_biomarker_data] groups by type and keeps the order: the
    group of a type holds the day and value of exactly the biomarkers of
    that type, in the order given, and a type without biomarkers has no
    group. Applied to the biomarkers of a patient queried without a type,
    the group of a type is what the query for that type returns, newest
    first. *)
Theorem biomarkers_grouped_by_type (biomarkers : list CalculatedBiomarker.t)
    (t : CardiacBiomarkerType) (utcnow : Z) (patient_id : string) (days : Z)
    (db : Database) :
  VizUtils.prepare_biomarker_data biomarkers !! t =
    match List.filter
            (fun b => bool_decide (CalculatedBiomarker.biomarker_type b = t))
            biomarkers with
    | [] => None
    | b :: bs => Some (map biomarker_point (b :: bs))
    end /\
  VizUtils.prepare_biomarker_data
    (DatabaseService.get_patient_biomarkers utcnow patient_id None days db) !! t =
    match DatabaseService.get_patient_biomarkers utcnow patient_id (Some t) days db with
    | [] => None
    | b :: bs => Some (map biomarker_point (b :: bs))
    end.
Proof.
  split; [apply prepare_biomarker_data_lookup|].
  rewrite prepare_biomarker_data_lookup.
  unfold DatabaseService.get_patient_biomarkers.
  by rewrite filter_order_by_desc.
Qed.

(** X25. The grouping is empty only for no biomarkers at all, so the second
    emptiness check of [show_biomarker_comparison], made after the first
    one on the list, never fires; and the groups never hold more or fewer
    points than there are biomarkers of their type. *)
Theorem biomarker_groups_empty_iff (biomarkers : list CalculatedBiomarker.t) :
  (VizUtils.prepare_biomarker_data biomarkers = ∅ <-> biomarkers = []) /\
  forall t points,
    VizUtils.prepare_biomarker_data biomarkers !! t = Some points ->
    points <> [] /\
    length points =
    length (List.filter
              (fun b => bool_decide (CalculatedBiomarker.biomarker_type b = t))
              biomarkers).
Proof.
  split.
  - split; [|by intros ->].
    destruct biomarkers as [|b bs]; [done|]. intros Hempty. exfalso.
    pose proof (prepare_biomarker_data_lookup (b :: bs)
                  (CalculatedBiomarker.biomarker_type b)) as Hl.
    rewrite Hempty, lookup_empty in Hl. cbn [List.filter] in Hl.
    rewrite bool_decide_eq_true_2 in Hl by reflexivity. discriminate.
  - intros t points. rewrite prepare_biomarker_data_lookup.
    destruct (List.filter _ biomarkers) as [|b bs]; [discriminate|].
    intros [= <-]. split; [discriminate|]. simpl. by rewrite List.length_map.
Qed.

(** ** The HRV frame *)

Lemma truthy_values_nil {A : Type} (f : A -> option Q) (l : list A) :
  truthy_values f l = [] <-> Forall (fun d => truthy_Q (f d) = false) l.
Proof.
  induction l as [|d l IH]; [by split; [constructor|]|].
  unfold truthy_values in *. cbn [omap list_omap].
  rewrite List.Forall_cons_iff, <- IH.
  destruct (f d) as [q|] eqn:E; cbn [truthy_Q].
  - destruct (negb (Qeq_bool q 0)); [|tauto]. split; [discriminate|].
    by intros [? _].
  - tauto.
Qed.

Lemma prepare_hrv_data_values (wearable : list WearableData.t) :
  map VizUtils.hp_hrv (VizUtils.prepare_hrv_data wearable) =
  truthy_values WearableData.hrv_rmssd wearable.
Proof.
  unfold VizUtils.prepare_hrv_data, truthy_values.
  induction wearable as [|d l IH]; [reflexivity|]. cbn [omap list_omap].
  destruct (WearableData.hrv_rmssd d) as [h|]; [|exact IH].
  destruct (truthy_Q (Some h)); [|exact IH].
  cbn [map VizUtils.hp_hrv]. f_equal. exact IH.
Qed.

(** X26. The frame of the HRV page and the average HRV of the patient
    report agree on what an HRV reading is: the hrv column of the frame is
    the list of non-zero [hrv_rmssd] values of the rows, in the order of
    the rows, and over the same window the frame is empty (the page says
    "Not enough HRV data") exactly when the report of a known patient has
    no average HRV. The report itself raises only the OverflowError of a
    window whose start is not a datetime. *)
Theorem hrv_frame_matches_report (wearable : list WearableData.t) (utcnow : Z)
    (patient_id : string) (days : Z) (db : Database) :
  map VizUtils.hp_hrv (VizUtils.prepare_hrv_data wearable) =
    truthy_values WearableData.hrv_rmssd wearable /\
  match ClinicalService.generate_patient_report_checked utcnow patient_id days db with
  | Ok (Some r) =>
      ClinicalService.average_hrv (ClinicalService.summary r) = None <->
      VizUtils.prepare_hrv_data
        (DatabaseService.get_patient_wearable_data utcnow patient_id days db) = []
  | Ok None =>
      List.find (fun p => String.eqb (Patient.id p) patient_id) (patients db) = None
  | Raise e => e = OverflowError
  end.
Proof.
  split; [apply prepare_hrv_data_values|].
  pose proof (generate_patient_report_checked_outcomes utcnow patient_id days db) as Hout.
  destruct (ClinicalService.generate_patient_report_checked utcnow patient_id days db)
    as [[r|]|e]; [|exact Hout|apply Hout].
  destruct Hout as (patient & Hfind & Hrun).
  rewrite (generate_patient_report_known utcnow patient_id days db patient Hfind) in Hrun.
  cbv zeta in Hrun. injection Hrun as <-.
  cbn [ClinicalService.summary ClinicalService.average_hrv].
  assert (Hframe :
    VizUtils.prepare_hrv_data
      (DatabaseService.get_patient_wearable_data utcnow patient_id days db) = []
    <-> truthy_values WearableData.hrv_rmssd
          (wearable_since (minus_days utcnow days) patient_id db) = []).
  { unfold DatabaseService.get_patient_wearable_data.
    fold (wearable_since (minus_days utcnow days) patient_id db).
    rewrite (truthy_values_nil WearableData.hrv_rmssd
               (wearable_since (minus_days utcnow days) patient_id db)).
    rewrite <- (order_by_desc_Forall WearableData.timestamp).
    rewrite <- truthy_values_nil, <- prepare_hrv_data_values.
    split; [by intros ->|]. by destruct (VizUtils.prepare_hrv_data _). }
  rewrite Hframe.
  destruct (truthy_values WearableData.hrv_rmssd
              (wearable_since (minus_days utcnow days) patient_id db)); by split.
Qed.

(** ** Demo patients *)

Section DemoPatientFacts.
Import DemoData.

Lemma find_named_Some first_name last_name db :
  has_patient_named first_name last_name db ->
  List.find (fun p =>
      String.eqb (Patient.first_name p) first_name
      && String.eqb (Patient.last_name p) last_name) (patients db) <> None.
Proof.
  intros (p & Hp & Hf & Hl) Hnone.
  pose proof (find_none _ _ Hnone p Hp) as H. simpl in H.
  rewrite Hf, Hl, !String.eqb_refl in H. discriminate.
Qed.

Lemma find_named_has first_name last_name db p :
  List.find (fun p =>
      String.eqb (Patient.first_name p) first_name
      && String.eqb (Patient.last_name p) last_name) (patients db) = Some p ->
  has_patient_named first_name last_name db.
Proof.
  intros H. apply find_some in H as [Hin Hb].
  apply andb_true_iff in Hb as [Hf Hl]. apply eqb_eq_str in Hf, Hl.
  by exists p.
Qed.

(** A run only adds patients. *)
Lemma add_demo_patients_grows utcnow uuid4 i data db db' :
  add_demo_patients utcnow uuid4 i data db = Ok db' ->
  forall p, In p (patients db) -> In p (patients db').
Proof.
  revert i db. induction data as [|[[fn ln] risk] data IH]; intros i db Hrun p Hp.
  - simpl in Hrun. by injection Hrun as <-.
  - cbn [add_demo_patients] in Hrun.
    destruct (List.find _ (patients db)) as [found|].
    + by eapply IH.
    + unfold add_patient in Hrun.
      destruct (List.find _ (patients db)); [discriminate|]. cbn [bind] in Hrun.
      eapply IH; [exact Hrun|]. simpl. apply in_or_app. by left.
Qed.

(** After a run every demo name has a patient. *)
Lemma add_demo_patients_all_named utcnow uuid4 i data db db' :
  add_demo_patients utcnow uuid4 i data db = Ok db' ->
  Forall (fun d => has_patient_named (fst (fst d)) (snd (fst d)) db') data.
Proof.
  revert i db. induction data as [|[[fn ln] risk] data IH]; intros i db Hrun.
  - constructor.
  - cbn [add_demo_patients] in Hrun.
    destruct (List.find _ (patients db)) as [found|] eqn:Hfind.
    + constructor; [|by eapply IH].
      destruct (find_named_has _ _ _ _ Hfind) as (p & Hp & Hn).
      exists p. split; [|exact Hn]. by eapply add_demo_patients_grows.
    + unfold add_patient in Hrun.
      destruct (List.find (fun p => String.eqb (Patient.id p) _) (patients db));
        [discriminate|].
      cbn [bind] in Hrun.
      constructor; [|by eapply IH].
      exists (Patient.mk (uuid4 i) (utcnow i) fn ln ACTIVE (Some risk)).
      split; [|by split].
      eapply add_demo_patients_grows; [exact Hrun|].
      simpl. apply in_or_app. right. by left.
Qed.

(** With every name taken a run changes nothing. *)
Lemma add_demo_patients_noop utcnow uuid4 i data db :
  Forall (fun d => has_patient_named (fst (fst d)) (snd (fst d)) db) data ->
  add_demo_patients utcnow uuid4 i data db = Ok db.
Proof.
  revert i. induction data as [|[[fn ln] risk] data IH]; intros i Hall; [reflexivity|].
  apply List.Forall_cons_iff in Hall as [Hnamed Hall].
  cbn [add_demo_patients]. simpl in Hnamed.
  pose proof (find_named_Some fn ln db Hnamed) as Hfind.
  destruct (List.find _ (patients db)); [|contradiction]. by apply IH.
Qed.

End DemoPatientFacts.

(** X27. The patient part of the demo script is idempotent, unlike its
    alert part: after a run that committed, every demo name has a patient,
    and running it again, with whatever clock and uuid4 draws, adds no
    patient and no assignment and leaves the store as it is. *)
Theorem demo_patients_created_once (utcnow1 utcnow2 : nat -> Z)
    (uuid4_1 uuid4_2 : nat -> string) (db db1 : Database) :
  DemoData.create_demo_patients utcnow1 uuid4_1 db = Ok db1 ->
  Forall (fun d => has_patient_named (fst (fst d)) (snd (fst d)) db1)
         DemoData.demo_patients /\
  DemoData.create_demo_patients utcnow2 uuid4_2 db1 = Ok db1.
Proof.
  intros Hrun. unfold DemoData.create_demo_patients in *.
  pose proof (add_demo_patients_all_named _ _ _ _ _ _ Hrun) as Hall.
  split; [exact Hall|]. by apply add_demo_patients_noop.
Qed.

(** X27 on the empty store. *)
Lemma demo_patients_created_once_witness :
  exists db1,
    DemoData.create_demo_patients (fun i => Z.of_nat i)
      (fun i => match i with 0 => "u0" | 1 => "u1" | _ => "u2" end) empty_db = Ok db1 /\
    length (patients db1) = 3 /\
    DemoData.create_demo_patients (fun _ => 100%Z) (fun _ => "u0") db1 = Ok db1.
Proof.
  eexists. split; [reflexivity|]. split; [reflexivity|].
  eapply (demo_patients_created_once (fun i => Z.of_nat i)
            (fun _ => 100%Z)
            (fun i => match i with 0 => "u0" | 1 => "u1" | _ => "u2" end)
            (fun _ => "u0") empty_db).
  reflexivity.
Defined.
